(** * ZnPOS: the MongoDB storage layer and the authorization gate

    A shallow embedding of [server/mongo-storage.ts] (class [MongoStorage])
    and of the middleware and the employee route of [server/routes.ts].

    The document store is modelled as a record of collections.  A
    collection is the list of its documents in natural (insertion) order;
    [find] keeps the documents matching the query in that order, [findOne],
    [updateOne] and [deleteOne] act on the first match, [insertOne] appends.
    The [counters] collection, keyed by namespace name, is a finite map.

    Numbers are JavaScript numbers that the program only uses as integers
    (ids, stock levels, quantities, millisecond time stamps); they are
    modelled by [Z] and the loss of precision of doubles above 2^53 is not
    modelled.  [bcrypt], the conversion of decimal strings to doubles and the
    e-mail pattern of the validation library are libraries outside the
    repository: they are parameters of the development. *)

From stdpp Require Import base decidable option list strings gmap sorting pretty.
From Stdlib Require Import ZArith Lia.

Local Open Scope string_scope.
Local Open Scope list_scope.
Local Open Scope Z_scope.

(** ** Documents *)

(** The six capability flags of a user. *)
Module Permission.
Inductive t : Type :=
  | pos | inventory | customers | reports | employees | settings.
End Permission.

Module Permissions.
Record t : Type := mk {
  pos : bool;
  inventory : bool;
  customers : bool;
  reports : bool;
  employees : bool;
  settings : bool
}.

(** [permissions[permission]] *)
Definition get (p : t) (c : Permission.t) : bool :=
  match c with
  | Permission.pos => pos p
  | Permission.inventory => inventory p
  | Permission.customers => customers p
  | Permission.reports => reports p
  | Permission.employees => employees p
  | Permission.settings => settings p
  end.
End Permissions.

(** A document of the [users] collection.  The interface declares
    [password : string], but the program builds and returns user objects
    without that property (a projection [{ password: 0 }], the rest
    pattern of [createUser]); the field is therefore optional here, [None]
    standing for an object that has no [password] property. *)
Module MongoUser.
Record t : Type := mk {
  id : Z;
  businessId : Z;
  username : string;
  email : string;
  password : option string;
  firstName : string;
  lastName : string;
  role : string;
  isActive : bool;
  permissions : Permissions.t;
  createdAt : Z
}.

(** [{ ...u, password: h }] *)
Definition set_password (h : option string) (u : t) : t :=
  mk (id u) (businessId u) (username u) (email u) h (firstName u)
     (lastName u) (role u) (isActive u) (permissions u) (createdAt u).

Definition set_permissions (p : Permissions.t) (u : t) : t :=
  mk (id u) (businessId u) (username u) (email u) (password u) (firstName u)
     (lastName u) (role u) (isActive u) p (createdAt u).

Definition set_isActive (b : bool) (u : t) : t :=
  mk (id u) (businessId u) (username u) (email u) (password u) (firstName u)
     (lastName u) (role u) b (permissions u) (createdAt u).
End MongoUser.

(** The payload of [createUser]: [Omit<MongoUser, 'id' | 'createdAt'>].
    [createUser] tests [user.permissions] for presence, so the property is
    optional. *)
Module InsertUser.
Record t : Type := mk {
  businessId : Z;
  username : string;
  email : string;
  password : string;
  firstName : string;
  lastName : string;
  role : string;
  isActive : bool;
  permissions : option Permissions.t
}.
End InsertUser.

Module MongoCategory.
Record t : Type := mk {
  id : Z;
  businessId : Z;
  name : string;
  description : option string;
  createdAt : Z
}.

(** [{ ...category, id, createdAt }] *)
Definition stamp (id' now : Z) (c : t) : t :=
  mk id' (businessId c) (name c) (description c) now.
End MongoCategory.

Module MongoProduct.
Record t : Type := mk {
  id : Z;
  businessId : Z;
  categoryId : option Z;
  name : string;
  description : option string;
  sku : option string;
  barcode : option string;
  price : string;
  cost : string;
  stock : Z;
  lowStockThreshold : Z;
  isActive : bool;
  createdAt : Z
}.

(** [{ ...product, id, createdAt }] *)
Definition stamp (id' now : Z) (p : t) : t :=
  mk id' (businessId p) (categoryId p) (name p) (description p) (sku p)
     (barcode p) (price p) (cost p) (stock p) (lowStockThreshold p)
     (isActive p) now.
End MongoProduct.

Module MongoCustomer.
Record t : Type := mk {
  id : Z;
  businessId : Z;
  firstName : string;
  lastName : string;
  email : option string;
  phone : option string;
  address : option string;
  loyaltyPoints : Z;
  totalSpent : string;
  createdAt : Z
}.

(** [{ ...customer, id, createdAt }] *)
Definition stamp (id' now : Z) (c : t) : t :=
  mk id' (businessId c) (firstName c) (lastName c) (email c) (phone c)
     (address c) (loyaltyPoints c) (totalSpent c) now.
End MongoCustomer.

Module MongoTransaction.
Record t : Type := mk {
  id : Z;
  businessId : Z;
  customerId : option Z;
  userId : Z;
  transactionNumber : string;
  subtotal : string;
  taxAmount : string;
  total : string;
  paymentMethod : string;
  status : string;
  createdAt : Z
}.

(** [{ ...transaction, id, createdAt }] *)
Definition stamp (id' now : Z) (t0 : t) : t :=
  mk id' (businessId t0) (customerId t0) (userId t0) (transactionNumber t0)
     (subtotal t0) (taxAmount t0) (total t0) (paymentMethod t0) (status t0) now.
End MongoTransaction.

Module MongoTransactionItem.
Record t : Type := mk {
  id : Z;
  transactionId : Z;
  productId : Z;
  quantity : Z;
  unitPrice : string;
  total : string
}.

(** [{ ...item, id: itemId, transactionId: id }] *)
Definition stamp (itemId transactionId' : Z) (i : t) : t :=
  mk itemId transactionId' (productId i) (quantity i) (unitPrice i) (total i).
End MongoTransactionItem.

(** ** The store *)

Record Db : Type := mkDb {
  counters : gmap string Z;
  users : list MongoUser.t;
  categories : list MongoCategory.t;
  products : list MongoProduct.t;
  customers : list MongoCustomer.t;
  transactions : list MongoTransaction.t;
  transactionItems : list MongoTransactionItem.t;
  (** A history variable, not a collection: the results of [getNextId] so
      far, with their namespace, oldest first. *)
  issued : list (string * Z)
}.

Definition emptyDb : Db := mkDb ∅ [] [] [] [] [] [] [].

Definition set_counters (c : gmap string Z) (db : Db) : Db :=
  mkDb c (users db) (categories db) (products db) (customers db)
       (transactions db) (transactionItems db) (issued db).

Definition set_users (us : list MongoUser.t) (db : Db) : Db :=
  mkDb (counters db) us (categories db) (products db) (customers db)
       (transactions db) (transactionItems db) (issued db).

Definition set_categories (cs : list MongoCategory.t) (db : Db) : Db :=
  mkDb (counters db) (users db) cs (products db) (customers db)
       (transactions db) (transactionItems db) (issued db).

Definition set_products (ps : list MongoProduct.t) (db : Db) : Db :=
  mkDb (counters db) (users db) (categories db) ps (customers db)
       (transactions db) (transactionItems db) (issued db).

Definition set_customers (cs : list MongoCustomer.t) (db : Db) : Db :=
  mkDb (counters db) (users db) (categories db) (products db) cs
       (transactions db) (transactionItems db) (issued db).

Definition set_transactions (ts : list MongoTransaction.t) (db : Db) : Db :=
  mkDb (counters db) (users db) (categories db) (products db) (customers db)
       ts (transactionItems db) (issued db).

Definition set_transactionItems (its : list MongoTransactionItem.t) (db : Db) : Db :=
  mkDb (counters db) (users db) (categories db) (products db) (customers db)
       (transactions db) its (issued db).

Definition set_issued (log : list (string * Z)) (db : Db) : Db :=
  mkDb (counters db) (users db) (categories db) (products db) (customers db)
       (transactions db) (transactionItems db) log.

(** ** Collection primitives of the driver *)

Section Collection.
Context {A : Type} (P : A → Prop) `{!∀ x, Decision (P x)}.

(** [find(q).toArray()] *)
Definition find (l : list A) : list A := filter P l.

(** [findOne(q)]: the first document that matches, if any. *)
Definition findOne (l : list A) : option A := head (filter P l).

(** [countDocuments(q)] *)
Definition countDocuments (l : list A) : Z := Z.of_nat (length (filter P l)).

(** [updateOne(q, { $set: ... })]: the first match is rewritten by [f]. *)
Fixpoint updateOne (f : A → A) (l : list A) : list A :=
  match l with
  | [] => []
  | x :: l' => if decide (P x) then f x :: l' else x :: updateOne f l'
  end.

(** [deleteOne(q)]: the first match is removed; the second component is
    [deletedCount]. *)
Fixpoint deleteOne (l : list A) : list A * Z :=
  match l with
  | [] => ([], 0)
  | x :: l' =>
      if decide (P x) then (l', 1)
      else let '(r, n) := deleteOne l' in (x :: r, n)
  end.

End Collection.

(** [insertOne(d)] *)
Definition insertOne {A : Type} (d : A) (l : list A) : list A := l ++ [d].

(** ** The id allocator *)

(** What [findOneAndUpdate] resolves to: drivers before version 6 wrap the
    document in a result object ([{ value: doc, ok: 1 }]), later ones
    return the document itself.  [getNextId] reads both shapes. *)
Inductive FindOneAndUpdateResult : Type :=
  | ModifyResult (value_seq : option Z)
  | Document (seq : Z).

(** [a || b] on optional numbers: [undefined] and [0] are falsy. *)
Definition js_or (a : option Z) (b : option Z) : option Z :=
  match a with
  | Some n => if decide (n = 0) then b else Some n
  | None => b
  end.

(** [{ $inc: { seq: 1 } }] with [upsert: true]: a missing counter document
    is created with [seq = 1]. *)
Definition inc_seq (c : gmap string Z) (collection : string) : Z :=
  match c !! collection with
  | Some s => s + 1
  | None => 1
  end.

(** [findOneAndUpdate({_id}, {$inc: {seq: 1}}, {upsert: true,
    returnDocument: 'after'})] on [counters]. *)
Definition counters_findOneAndUpdate (wrapped : bool) (db : Db) (collection : string)
  : Db * FindOneAndUpdateResult :=
  let s := inc_seq (counters db) collection in
  (set_counters (<[collection := s]> (counters db)) db,
   if wrapped then ModifyResult (Some s) else Document s).

(** [counter?.value?.seq || counter?.seq || 1] *)
Definition counter_result_seq (r : FindOneAndUpdateResult) : Z :=
  let value_seq := match r with ModifyResult v => v | Document _ => None end in
  let seq := match r with ModifyResult _ => None | Document s => Some s end in
  default 1 (js_or (js_or value_seq seq) (Some 1)).

Definition getNextId (wrapped : bool) (db : Db) (collection : string) : Db * Z :=
  let '(db', counter) := counters_findOneAndUpdate wrapped db collection in
  let id := counter_result_seq counter in
  (set_issued (issued db' ++ [(collection, id)]) db', id).

(** ** Strings *)

(** [String.prototype.trim], on the ASCII white space characters (tab, line
    feed, vertical tab, form feed, carriage return, space). *)
Fixpoint trimStart (s : string) : string :=
  match s with
  | String c s' => if Ascii.is_space c then trimStart s' else s
  | EmptyString => EmptyString
  end.

Definition trim (s : string) : string :=
  String.rev (trimStart (String.rev (trimStart s))).

(** ** Errors *)

(** What a storage operation or a route handler throws: [new Error(msg)],
    or the error of the schema's [parse]. *)
Inductive Exn : Type :=
  | Error (message : string)
  | ZodError.

(** ** Rows of the reports *)

(** The [user] sub-document that [getTransactions] projects out of the
    joined user. *)
Record UserSummary : Type := mkUserSummary {
  us_id : Z;
  us_username : string;
  us_email : string;
  us_firstName : string;
  us_lastName : string;
  us_role : string;
  us_isActive : bool
}.

Definition summary (u : MongoUser.t) : UserSummary :=
  mkUserSummary (MongoUser.id u) (MongoUser.username u) (MongoUser.email u)
    (MongoUser.firstName u) (MongoUser.lastName u) (MongoUser.role u)
    (MongoUser.isActive u).

(** A row of the result of [getTransactions]: the projected transaction
    fields, the summary of the first joined user (an object without
    properties, [None], when the join is empty) and the first joined
    customer. *)
Record TransactionRow : Type := mkTransactionRow {
  row_transaction : MongoTransaction.t;
  row_user : option UserSummary;
  row_customer : option MongoCustomer.t
}.

(** A row of the result of [getTopProducts]: the fields of the product,
    [_id], [soldCount] and the revenue as a string. *)
Record TopProduct : Type := mkTopProduct {
  tp__id : Z;
  tp_product : MongoProduct.t;
  tp_soldCount : Z;
  tp_revenue : string
}.

(** ** The authorization gate *)

(** [req.session.user] *)
Record SessionUser : Type := mkSessionUser {
  su_id : Z;
  su_businessId : Z;
  su_username : string;
  su_firstName : string;
  su_lastName : string;
  su_role : string;
  su_permissions : option Permissions.t
}.

Inductive Body : Type :=
  | Message (message : string)
  | ErrorMessage (e : Exn)
  | UserBody (u : MongoUser.t).

Record Response : Type := mkResponse {
  status : Z;
  json : Body
}.

(** What a middleware does: call [next()] or answer. *)
Inductive Outcome : Type :=
  | Next
  | Respond (r : Response).

Definition requireAuth (session_user : option SessionUser) : Outcome :=
  match session_user with
  | None => Respond (mkResponse 401 (Message "Unauthorized"))
  | Some _ => Next
  end.

(** [user.permissions?.[permission]], as a condition. *)
Definition hasFlag (user : SessionUser) (permission : Permission.t) : bool :=
  match su_permissions user with
  | Some p => Permissions.get p permission
  | None => false
  end.

Definition requirePermission (permission : Permission.t)
    (session_user : option SessionUser) : Outcome :=
  match session_user with
  | None => Respond (mkResponse 401 (Message "Unauthorized"))
  | Some user =>
      if bool_decide (su_role user = "admin") || hasFlag user permission
      then Next
      else Respond (mkResponse 403 (Message "Access denied"))
  end.

Definition requireAdmin (session_user : option SessionUser) : Outcome :=
  match session_user with
  | None => Respond (mkResponse 401 (Message "Unauthorized"))
  | Some user =>
      if decide (su_role user ≠ "admin")
      then Respond (mkResponse 403 (Message "Admin access required"))
      else Next
  end.

(** ** The employee route: its request body *)

(** The body of [POST /api/employees], as far as the schema reads it. *)
Record EmployeeBody : Type := mkEmployeeBody {
  eb_username : option string;
  eb_email : option string;
  eb_password : option string;
  eb_firstName : option string;
  eb_lastName : option string;
  eb_permissions : option Permissions.t
}.

Definition noPermissions : Permissions.t :=
  Permissions.mk false false false false false false.

(** A required string property of at least [n] characters. *)
Definition minString (n : nat) (v : option string) : option string :=
  s ← v; if decide (n ≤ String.length s)%nat then Some s else None.

(** ** Storage operations, as data *)

Inductive Op : Type :=
  | OpGetNextId (collection : string)
  | OpAuthenticate (username password salt : string)
  | OpCreateUser (user : InsertUser.t) (salt : string) (now : Z)
  | OpUpdateUserPermissions (id businessId : Z) (permissions : Permissions.t)
  | OpDeleteEmployee (id businessId : Z)
  | OpToggleEmployeeStatus (id businessId : Z)
  | OpCreateCategory (category : MongoCategory.t) (now : Z)
  | OpCreateProduct (product : MongoProduct.t) (now : Z)
  | OpCreateCustomer (customer : MongoCustomer.t) (now : Z)
  | OpCreateTransaction (transaction : MongoTransaction.t)
      (items : list MongoTransactionItem.t) (now : Z)
  | OpPostEmployees (session_user : option SessionUser) (body : EmployeeBody)
      (salt : string) (now : Z).

(** ** The connection module

    [server/mongodb.ts] keeps two module variables, [client] and [db].  A
    client is the URI it was built from and what has been done to it; the
    handle that [client.db('znpos')] returns names its client and the
    database. *)

Record MongoClient : Type := mkMongoClient {
  client_uri : string;
  client_connected : bool;
  client_closed : bool
}.

Record DbHandle : Type := mkDbHandle {
  handle_uri : string;
  handle_name : string
}.

Record Connection : Type := mkConnection {
  client : option MongoClient;
  db : option DbHandle
}.

(** The module as loaded: both variables are unset. *)
Definition noConnection : Connection := mkConnection None None.

(** What the driver does with a URI: [new MongoClient(uri)] throws, or
    [client.connect()] rejects, or the server accepts. *)
Inductive Driver : Type :=
  | ConstructorThrows (e : Exn)
  | ConnectRejects (e : Exn)
  | Accepts.

(** [connectToMongoDB()].  [env] is [process.env.MONGODB_URI] at the call,
    [driver] what the driver does with a URI.  The new client is assigned
    to [client] before it connects. *)
Definition connectToMongoDB (env : option string) (driver : string → Driver)
    (m : Connection) : Connection * (Exn + DbHandle) :=
  match db m with
  | Some h => (m, inr h)
  | None =>
      match env with
      | None | Some EmptyString =>
          (m, inl (Error "MONGODB_URI environment variable is not set"))
      | Some uri =>
          match driver uri with
          | ConstructorThrows e => (m, inl e)
          | ConnectRejects e =>
              (mkConnection (Some (mkMongoClient uri false false)) None, inl e)
          | Accepts =>
              let h := mkDbHandle uri "znpos" in
              (mkConnection (Some (mkMongoClient uri true false)) (Some h), inr h)
          end
      end
  end.

(** [getDb()] *)
Definition getDb (m : Connection) : Exn + DbHandle :=
  match db m with
  | None => inl (Error "Database not initialized. Call connectToMongoDB first.")
  | Some h => inr h
  end.

(** [closeConnection()]: the client is closed; [db] is left as it is. *)
Definition closeConnection (m : Connection) : Connection :=
  match client m with
  | Some c =>
      mkConnection (Some (mkMongoClient (client_uri c) (client_connected c) true))
                   (db m)
  | None => m
  end.

(** The calls of the module that change its state. *)
Inductive ConnOp : Type :=
  | Connect (env : option string) (driver : string → Driver)
  | Close.

Definition connExec (m : Connection) (op : ConnOp) : Connection :=
  match op with
  | Connect env driver => (connectToMongoDB env driver m).1
  | Close => closeConnection m
  end.

Definition connRun (m : Connection) (ops : list ConnOp) : Connection :=
  foldl connExec m ops.

(** A call that connects when nothing is connected yet: the URI is set, not
    empty, and the server accepts. *)
Definition connects (op : ConnOp) : Prop :=
  match op with
  | Connect (Some uri) driver => uri ≠ "" ∧ driver uri = Accepts
  | _ => False
  end.

(** The handle stored in [db] names the client stored in [client]. *)
Definition handleOfClient (m : Connection) : Prop :=
  ∀ h, db m = Some h →
       ∃ c, client m = Some c ∧ client_uri c = handle_uri h
            ∧ client_connected c = true.

(** ** Escaping in the invoice download *)

Import Stdlib.Strings.Ascii.

(** [s.replace(/c/g, by)] for a pattern of one character. *)
Fixpoint replaceAll (c : ascii) (by' : string) (s : string) : string :=
  match s with
  | EmptyString => EmptyString
  | String a s' =>
      ((if decide (a = c) then by' else String a EmptyString)
       ++ replaceAll c by' s')%string
  end.

(** The double quote. *)
Definition dquote : ascii := "034"%char.

(** [escapeHtml]: a missing and an empty text give the empty string; the
    five replacements are applied one after the other. *)
Definition escapeHtml (text : option string) : string :=
  match text with
  | None | Some EmptyString => ""
  | Some text =>
      replaceAll "'" "&#39;"
        (replaceAll dquote "&quot;"
           (replaceAll ">" "&gt;"
              (replaceAll "<" "&lt;"
                 (replaceAll "&" "&amp;" text))))
  end.

(** The five passes, on any text. *)
Definition passes (text : string) : string :=
  replaceAll "'" "&#39;"
    (replaceAll dquote "&quot;"
       (replaceAll ">" "&gt;"
          (replaceAll "<" "&lt;"
             (replaceAll "&" "&amp;" text)))).

(** What one character becomes. *)
Definition entity (a : ascii) : string :=
  if decide (a = "&"%char) then "&amp;"
  else if decide (a = "<"%char) then "&lt;"
  else if decide (a = ">"%char) then "&gt;"
  else if decide (a = dquote) then "&quot;"
  else if decide (a = "'"%char) then "&#39;"
  else String a EmptyString.

Fixpoint escaped (s : string) : string :=
  match s with
  | EmptyString => EmptyString
  | String a s' => (entity a ++ escaped s')%string
  end.

(** The characters of a string. *)
Fixpoint chars (s : string) : list ascii :=
  match s with
  | EmptyString => []
  | String a s' => a :: chars s'
  end.

(** The characters that open or close markup or an attribute value. *)
Definition markup : list ascii := ["<"; ">"; dquote; "'"]%char.

(** ** Request bodies and forms *)

(** The body of [POST /api/products], as far as the schema reads it;
    [businessId] is in it only to be overwritten. *)
Record ProductBody : Type := mkProductBody {
  pb_businessId : option Z;
  pb_categoryId : option Z;
  pb_name : option string;
  pb_description : option string;
  pb_sku : option string;
  pb_barcode : option string;
  pb_price : option string;
  pb_cost : option string;
  pb_stock : option Z;
  pb_lowStockThreshold : option Z;
  pb_isActive : option bool
}.

(** The [transaction] property of the body of [POST /api/transactions];
    [businessId], [userId] and [transactionNumber] are in it only to be
    overwritten. *)
Record TransactionBody : Type := mkTransactionBody {
  tb_businessId : option Z;
  tb_customerId : option Z;
  tb_userId : option Z;
  tb_transactionNumber : option string;
  tb_subtotal : option string;
  tb_taxAmount : option string;
  tb_total : option string;
  tb_paymentMethod : option string;
  tb_status : option string
}.

(** The values of the form of the page. *)
Record EmployeeForm : Type := mkEmployeeForm {
  ef_username : string;
  ef_password : string;
  ef_firstName : string;
  ef_lastName : string;
  ef_email : string
}.

(** ** Sample data

    Executable stand-ins for the libraries, and small stores, on which the
    statements below are run. *)

Module Sample.

(** A stand-in for [bcrypt.hash]: a marker, the cost, the salt and the
    data. *)
Definition hash (data : string) (saltRounds : Z) (salt : string) : string :=
  ("$2b$" ++ pretty saltRounds ++ "$" ++ salt ++ "$" ++ data)%string.

(** A stand-in for [bcrypt.compare]: the encrypted value carries the
    marker and ends with the data. *)
Definition compare (data encrypted : string) : option bool :=
  Some (String.prefix "$2b$" encrypted
        && String.prefix (String.rev ("$" ++ data)%string) (String.rev encrypted)).

Fixpoint digits (s : string) (acc : Z) : option Z :=
  match s with
  | EmptyString => Some acc
  | String c s' => d ← Ascii.is_nat c; digits s' (10 * acc + Z.of_nat d)
  end.

(** Amounts in whole units stand for doubles. *)
Definition toDouble (s : string) : option Z :=
  if decide (s = "") then None else digits s 0.

Definition doubleToString (d : Z) : string := pretty d.

Definition isEmail (s : string) : bool :=
  bool_decide (is_Some (String.index 0 "@" s)).

Definition user (id businessId : Z) (username : string) (password : string)
    (role : string) : MongoUser.t :=
  MongoUser.mk id businessId username (username ++ "@shop.example")%string
    (Some password) "First" "Last" role true
    (Permissions.mk true false false false false false) 0.

(** Two businesses whose admins both chose the username [admin]; the
    second admin and the employee [carol] have plaintext passwords. *)
Definition alice : MongoUser.t := user 1 1 "admin" (hash "alicepw" 12 "s1") "admin".
Definition bob : MongoUser.t := user 2 2 "admin" "secret" "admin".
Definition carol : MongoUser.t := user 3 1 "carol" "carolpw" "employee".

Definition staff : Db :=
  mkDb {["users" := 3]} [alice; bob; carol] [] [] [] [] []
       [("users", 1); ("users", 2); ("users", 3)].

Definition product (businessId : Z) (name : string) (stock threshold : Z)
  : MongoProduct.t :=
  MongoProduct.mk 0 businessId None name None None None "10" "5"
    stock threshold true 0.

Definition customer (businessId : Z) (firstName : string) : MongoCustomer.t :=
  MongoCustomer.mk 0 businessId firstName "Last" None None None 0 "0.00" 0.

Definition sale (businessId : Z) (customerId : option Z) : MongoTransaction.t :=
  MongoTransaction.mk 0 businessId customerId 1 "TXN-1" "30" "0" "30" "cash"
    "completed" 0.

Definition line (productId quantity : Z) (total : string) : MongoTransactionItem.t :=
  MongoTransactionItem.mk 0 0 productId quantity "10" total.

(** Business 2 creates a product and a customer; a user of business 1
    then records a sale that names that customer, with a line that names
    that product. *)
Definition crossTenantOps : list Op :=
  [ OpCreateProduct (product 2 "widget" 9 5) 100;
    OpCreateCustomer (customer 2 "Zoe") 150;
    OpCreateTransaction (sale 1 (Some 1)) [line 1 1 "10"] 200 ].

(** Business 1 has two products and sells three of each, the second
    product first. *)
Definition tieOps : list Op :=
  [ OpCreateProduct (product 1 "tea" 9 5) 100;
    OpCreateProduct (product 1 "mug" 9 5) 101;
    OpCreateTransaction (sale 1 None) [line 2 3 "30"; line 1 3 "30"] 200 ].

(** A business with one admin and ten employees. *)
Definition fullStaff : Db :=
  mkDb {["users" := 11]}
       (alice :: ((λ i, user i 1 "emp" (hash "emppw1" 12 "s") "employee") <$> seqZ 2 10))
       [] [] [] [] [] [].

(** Two products of business 1 at the boundary of low stock. *)
Definition atThreshold : MongoProduct.t :=
  MongoProduct.stamp 1 0 (product 1 "tea" 5 5).

Definition aboveThreshold : MongoProduct.t :=
  MongoProduct.stamp 2 0 (product 1 "mug" 6 5).

Definition shelf : Db :=
  mkDb {["products" := 2]} [] [] [atThreshold; aboveThreshold] [] [] [] [].

(** A user is created, deleted, and another one is created. *)
Definition hireFireHire : list Op :=
  [ OpCreateUser
      (InsertUser.mk 1 "dave" "dave@shop.example" "davepw1" "Dave" "D"
                     "employee" true None) "s1" 10;
    OpDeleteEmployee 1 1;
    OpCreateUser
      (InsertUser.mk 1 "erin" "erin@shop.example" "erinpw1" "Erin" "E"
                     "employee" true None) "s2" 20 ].

Definition newEmployee : InsertUser.t :=
  InsertUser.mk 1 "dave" "dave@shop.example" "davepw1" "Dave" "D" "employee"
    true None.

Definition adminSession : SessionUser :=
  mkSessionUser 1 1 "admin" "First" "Last" "admin" None.

Definition employeeBody : EmployeeBody :=
  mkEmployeeBody (Some "erin") (Some "erin@shop.example") (Some "erinpw1")
    (Some "Erin") (Some "E") None.

(** A stand-in for [toFixed(2)] on whole amounts. *)
Definition toFixed2 (d : Z) : string := (pretty d ++ ".00")%string.

(** Zero is the falsy whole amount. *)
Definition falsy (d : Z) : bool := bool_decide (d = 0).

(** A driver and a server that accept every URI. *)
Definition accepting (uri : string) : Driver := Accepts.

(** The session of the employee [carol], who has the point of sale and
    the inventory. *)
Definition carolSession : SessionUser :=
  mkSessionUser 3 1 "carol" "First" "Last" "employee"
    (Some (Permissions.mk true true false false false false)).

(** A body for a product that names business 2 and leaves out stock,
    threshold and status. *)
Definition teaBody : ProductBody :=
  mkProductBody (Some 2) None (Some "tea") None None None (Some "10") None
    None None None.

(** A body for a sale that names business 2, user 9 and a number of its
    own, and leaves out the status. *)
Definition saleBody : TransactionBody :=
  mkTransactionBody (Some 2) None (Some 9) (Some "TXN-0") (Some "30") (Some "0")
    (Some "30") (Some "cash") None.

Definition erinForm : EmployeeForm :=
  mkEmployeeForm "erin" "erinpw1" "Erin" "E" "erin@shop.example".

(** A completed sale of business 1, stored at time 50. *)
Definition yesterday : Db :=
  mkDb {["transactions" := 1]} [] [] [] []
       [MongoTransaction.stamp 1 50 (sale 1 None)] [] [].

(** Two sales of business 1, stored at times 50 and 70. *)
Definition twoSales : Db :=
  mkDb {["transactions" := 2]} [] [] [] []
       [MongoTransaction.stamp 1 50 (sale 1 None);
        MongoTransaction.stamp 2 70 (sale 1 None)] [] [].

End Sample.

Section Storage.

Set Default Proof Using "Type".

(** [bcrypt.hash(data, saltRounds)] draws a fresh salt at every call; the
    salt drawn is the third argument here, and every operation that hashes
    takes it as an argument. *)
Variable bcrypt_hash : string → Z → string → string.

(** [bcrypt.compare(data, encrypted)]; [None] when the promise rejects. *)
Variable bcrypt_compare : string → string → option bool.

(** Whether the driver wraps the result of [findOneAndUpdate]. *)
Variable wrapped : bool.

(** *** Auth *)

(** The query of [getUserByUsernameAndPassword]:
    [{ $or: [{ username }, { email: username }], isActive: true }]. *)
Definition loginQuery (trimmedUsername : string) (u : MongoUser.t) : Prop :=
  (MongoUser.username u = trimmedUsername ∨ MongoUser.email u = trimmedUsername)
  ∧ MongoUser.isActive u = true.

#[global] Instance loginQuery_dec s u : Decision (loginQuery s u).
Proof. unfold loginQuery. apply _. Defined.

(** The [try { isPasswordValid = await bcrypt.compare(...) } catch {}]
    block: a rejection leaves [isPasswordValid] at [false].  [bcrypt]
    rejects when the stored value is missing. *)
Definition bcryptCheck (password : string) (stored : option string) : bool :=
  match stored with
  | Some h => default false (bcrypt_compare password h)
  | None => false
  end.

(** The condition of the legacy branch:
    [!isPasswordValid && user.password === password]. *)
Definition legacyCheck (password : string) (user : MongoUser.t) : bool :=
  negb (bcryptCheck password (MongoUser.password user))
  && bool_decide (MongoUser.password user = Some password).

Definition getUserByUsernameAndPassword
    (db : Db) (username password : string) (salt : string)
  : Db * option MongoUser.t :=
  let trimmedUsername := trim username in
  match findOne (loginQuery trimmedUsername) (users db) with
  | None => (db, None)
  | Some user =>
      let isPasswordValid := bcryptCheck password (MongoUser.password user) in
      let '(db, user, isPasswordValid) :=
        if legacyCheck password user then
          let saltRounds := 12 in
          let hashedPassword := bcrypt_hash password saltRounds salt in
          (set_users
             (updateOne (λ u, MongoUser.id u = MongoUser.id user)
                        (MongoUser.set_password (Some hashedPassword))
                        (users db)) db,
           MongoUser.set_password (Some hashedPassword) user,
           true)
        else (db, user, isPasswordValid) in
      if negb isPasswordValid then (db, None) else (db, Some user)
  end.

(** Whether a call takes the legacy branch (and so rewrites the record). *)
Definition takesLegacyBranch (db : Db) (username password : string) : bool :=
  match findOne (loginQuery (trim username)) (users db) with
  | None => false
  | Some user => legacyCheck password user
  end.

(** *** Employee management *)

(** [{ businessId, role: { $ne: 'admin' } }] *)
Definition employeeQuery (businessId : Z) (u : MongoUser.t) : Prop :=
  MongoUser.businessId u = businessId ∧ MongoUser.role u ≠ "admin".

#[global] Instance employeeQuery_dec b u : Decision (employeeQuery b u).
Proof. unfold employeeQuery. apply _. Defined.

(** [{ id, businessId }] on [users] *)
Definition userKeyQuery (id businessId : Z) (u : MongoUser.t) : Prop :=
  MongoUser.id u = id ∧ MongoUser.businessId u = businessId.

#[global] Instance userKeyQuery_dec i b u : Decision (userKeyQuery i b u).
Proof. unfold userKeyQuery. apply _. Defined.

(** [{ id, businessId, role: { $ne: 'admin' } }] *)
Definition deleteEmployeeQuery (id businessId : Z) (u : MongoUser.t) : Prop :=
  MongoUser.id u = id ∧ MongoUser.businessId u = businessId
  ∧ MongoUser.role u ≠ "admin".

#[global] Instance deleteEmployeeQuery_dec i b u : Decision (deleteEmployeeQuery i b u).
Proof. unfold deleteEmployeeQuery. apply _. Defined.

(** The projection [{ password: 0 }]. *)
Definition withoutPassword (u : MongoUser.t) : MongoUser.t :=
  MongoUser.set_password None u.

Definition getEmployees (db : Db) (businessId : Z) : list MongoUser.t :=
  withoutPassword <$> find (employeeQuery businessId) (users db).

Definition getEmployeeCount (db : Db) (businessId : Z) : Z :=
  countDocuments (employeeQuery businessId) (users db).

Definition updateUserPermissions
    (db : Db) (id businessId : Z) (permissions : Permissions.t)
  : Db * (Exn + MongoUser.t) :=
  let db :=
    set_users (updateOne (userKeyQuery id businessId)
                         (MongoUser.set_permissions permissions) (users db)) db in
  match findOne (userKeyQuery id businessId) (users db) with
  | None => (db, inl (Error "User not found"))
  | Some user => (db, inr (withoutPassword user))
  end.

Definition deleteEmployee (db : Db) (id businessId : Z) : Db * bool :=
  let '(us, deletedCount) := deleteOne (deleteEmployeeQuery id businessId) (users db) in
  (set_users us db, bool_decide (0 < deletedCount)).

Definition toggleEmployeeStatus (db : Db) (id businessId : Z)
  : Db * (Exn + MongoUser.t) :=
  match findOne (userKeyQuery id businessId) (users db) with
  | None => (db, inl (Error "User not found"))
  | Some user =>
      let user := withoutPassword user in
      let newStatus := negb (MongoUser.isActive user) in
      (set_users (updateOne (userKeyQuery id businessId)
                            (MongoUser.set_isActive newStatus) (users db)) db,
       inr (MongoUser.set_isActive newStatus user))
  end.

Definition adminPermissions : Permissions.t :=
  Permissions.mk true true true true true true.

Definition employeePermissions : Permissions.t :=
  Permissions.mk true false false false false false.

(** [now] is the value of [new Date()]. *)
Definition createUser (db : Db) (user : InsertUser.t) (salt : string) (now : Z)
  : Db * MongoUser.t :=
  let '(db, id) := getNextId wrapped db "users" in
  let defaultPermissions :=
    if decide (InsertUser.role user = "admin")
    then adminPermissions else employeePermissions in
  let saltRounds := 12 in
  let hashedPassword := bcrypt_hash (InsertUser.password user) saltRounds salt in
  let newUser :=
    MongoUser.mk id (InsertUser.businessId user) (InsertUser.username user)
      (InsertUser.email user) (Some hashedPassword)
      (InsertUser.firstName user) (InsertUser.lastName user)
      (InsertUser.role user) (InsertUser.isActive user)
      (default defaultPermissions (InsertUser.permissions user)) now in
  (set_users (insertOne newUser (users db)) db, withoutPassword newUser).

(** *** Categories, products, customers *)

(** The creating operations take the payload as a document whose [id] and
    [createdAt] are overwritten, as the spread [{ ...payload, id, createdAt }]
    does. *)

Definition getCategories (db : Db) (businessId : Z) : list MongoCategory.t :=
  find (λ c, MongoCategory.businessId c = businessId) (categories db).

Definition createCategory (db : Db) (category : MongoCategory.t) (now : Z)
  : Db * MongoCategory.t :=
  let '(db, id) := getNextId wrapped db "categories" in
  let newCategory := MongoCategory.stamp id now category in
  (set_categories (insertOne newCategory (categories db)) db, newCategory).

Definition getProducts (db : Db) (businessId : Z) : list MongoProduct.t :=
  find (λ p, MongoProduct.businessId p = businessId ∧ MongoProduct.isActive p = true)
       (products db).

Definition getProduct (db : Db) (id businessId : Z) : option MongoProduct.t :=
  findOne (λ p, MongoProduct.id p = id ∧ MongoProduct.businessId p = businessId)
          (products db).

Definition createProduct (db : Db) (product : MongoProduct.t) (now : Z)
  : Db * MongoProduct.t :=
  let '(db, id) := getNextId wrapped db "products" in
  let newProduct := MongoProduct.stamp id now product in
  (set_products (insertOne newProduct (products db)) db, newProduct).

(** [{ businessId, isActive: true,
       $expr: { $lte: ['$stock', '$lowStockThreshold'] } }] *)
Definition getLowStockProducts (db : Db) (businessId : Z) : list MongoProduct.t :=
  find (λ p, MongoProduct.businessId p = businessId
             ∧ MongoProduct.isActive p = true
             ∧ MongoProduct.stock p ≤ MongoProduct.lowStockThreshold p)
       (products db).

Definition getCustomers (db : Db) (businessId : Z) : list MongoCustomer.t :=
  find (λ c, MongoCustomer.businessId c = businessId) (customers db).

Definition getCustomer (db : Db) (id businessId : Z) : option MongoCustomer.t :=
  findOne (λ c, MongoCustomer.id c = id ∧ MongoCustomer.businessId c = businessId)
          (customers db).

Definition createCustomer (db : Db) (customer : MongoCustomer.t) (now : Z)
  : Db * MongoCustomer.t :=
  let '(db, id) := getNextId wrapped db "customers" in
  let newCustomer := MongoCustomer.stamp id now customer in
  (set_customers (insertOne newCustomer (customers db)) db, newCustomer).

(** *** Transactions *)

(** The body of the loop [for (const item of items)] of [createTransaction]. *)
Definition insertItem (id : Z) (db : Db) (item : MongoTransactionItem.t) : Db :=
  let '(db, itemId) := getNextId wrapped db "transactionItems" in
  set_transactionItems
    (insertOne (MongoTransactionItem.stamp itemId id item) (transactionItems db)) db.

Definition createTransaction
    (db : Db) (transaction : MongoTransaction.t)
    (items : list MongoTransactionItem.t) (now : Z)
  : Db * MongoTransaction.t :=
  let '(db, id) := getNextId wrapped db "transactions" in
  let newTransaction := MongoTransaction.stamp id now transaction in
  let db := set_transactions (insertOne newTransaction (transactions db)) db in
  (foldl (insertItem id) db items, newTransaction).

(** [$sort: { createdAt: -1 }] *)
Definition newestFirst (a b : MongoTransaction.t) : Prop :=
  MongoTransaction.createdAt b ≤ MongoTransaction.createdAt a.

#[global] Instance newestFirst_dec : RelDecision newestFirst.
Proof. intros a b. unfold newestFirst. apply _. Defined.

(** [...(limit ? [{ $limit: limit }] : [])]: a missing and a zero limit
    both add no stage. *)
Definition limitStage {A : Type} (limit : option nat) (l : list A) : list A :=
  match limit with
  | Some (S n) => take (S n) l
  | _ => l
  end.

(** [$lookup] with [localField]/[foreignField 'id']: the documents of the
    foreign collection whose [id] equals the local field; a missing local
    field joins nothing, since every foreign document has an [id]. *)
Definition lookupUser (db : Db) (userId : Z) : list MongoUser.t :=
  find (λ u, MongoUser.id u = userId) (users db).

Definition lookupCustomer (db : Db) (customerId : option Z) : list MongoCustomer.t :=
  match customerId with
  | Some c => find (λ x, MongoCustomer.id x = c) (customers db)
  | None => []
  end.

Definition getTransactions (db : Db) (businessId : Z) (limit : option nat)
  : list TransactionRow :=
  let matched :=
    find (λ t, MongoTransaction.businessId t = businessId) (transactions db) in
  let sorted := merge_sort newestFirst matched in
  let limited := limitStage limit sorted in
  (λ t, mkTransactionRow t
          (summary <$> head (lookupUser db (MongoTransaction.userId t)))
          (head (lookupCustomer db (MongoTransaction.customerId t))))
  <$> limited.

(** *** Reports *)

(** [$toDouble] and [$toString] of the aggregation engine, and the
    addition of doubles.  [$toDouble] fails on a string that is not a
    number, and the aggregation fails with it. *)
Variable Double : Type.
Variable toDouble : string → option Double.
Variable doubleToString : Double → string.
Variable dzero : Double.
Variable dadd : Double → Double → Double.

(** [$lookup] of the parent transaction and of the product of an item. *)
Definition lookupTransaction (db : Db) (i : MongoTransactionItem.t)
  : list MongoTransaction.t :=
  find (λ t, MongoTransaction.id t = MongoTransactionItem.transactionId i)
       (transactions db).

Definition lookupProduct (db : Db) (i : MongoTransactionItem.t)
  : list MongoProduct.t :=
  find (λ p, MongoProduct.id p = MongoTransactionItem.productId i) (products db).

(** [$match: { 'transaction.businessId': businessId,
               'transaction.status': 'completed' }] on the joined array: each
    condition holds when some element of the array satisfies it. *)
Definition completedOf (businessId : Z) (joined : list MongoTransaction.t) : Prop :=
  Exists (λ t, MongoTransaction.businessId t = businessId) joined
  ∧ Exists (λ t, MongoTransaction.status t = "completed") joined.

#[global] Instance completedOf_dec b l : Decision (completedOf b l).
Proof. unfold completedOf. apply _. Defined.

(** The documents that reach [$group]: an item that passed the [$match],
    unwound with one of its joined products. *)
Definition unwound (db : Db) (businessId : Z)
  : list (MongoTransactionItem.t * MongoProduct.t) :=
  i ← find (λ i, completedOf businessId (lookupTransaction db i))
           (transactionItems db);
  (λ p, (i, p)) <$> lookupProduct db i.

(** A group of the [$group] stage. *)
Record TopGroup : Type := mkTopGroup {
  g_id : Z;
  g_product : MongoProduct.t;
  g_soldCount : Z;
  g_revenue : Double
}.

(** The accumulators: a document opens the group of its [productId] when
    there is none, and is added to it otherwise. *)
Fixpoint accumulate (groups : list TopGroup)
    (key : Z) (product : MongoProduct.t) (quantity : Z) (total : Double)
  : list TopGroup :=
  match groups with
  | [] => [mkTopGroup key product quantity (dadd dzero total)]
  | g :: groups' =>
      if decide (g_id g = key)
      then mkTopGroup (g_id g) (g_product g) (g_soldCount g + quantity)
                      (dadd (g_revenue g) total) :: groups'
      else g :: accumulate groups' key product quantity total
  end.

Definition groupStage (docs : list (MongoTransactionItem.t * MongoProduct.t * Double))
  : list TopGroup :=
  foldl (λ groups '(i, p, d),
           accumulate groups (MongoTransactionItem.productId i) p
                      (MongoTransactionItem.quantity i) d)
        [] docs.

(** [$sort: { soldCount: -1 }]: the only sort key. *)
Definition bySoldCount (a b : TopGroup) : Prop := g_soldCount b ≤ g_soldCount a.

#[global] Instance bySoldCount_dec : RelDecision bySoldCount.
Proof. intros a b. unfold bySoldCount. apply _. Defined.

Definition projectTop (g : TopGroup) : TopProduct :=
  mkTopProduct (g_id g) (g_product g) (g_soldCount g) (doubleToString (g_revenue g)).

(** The documents with their [total] converted; [None] when a conversion
    fails. *)
Definition converted (db : Db) (businessId : Z)
  : option (list (MongoTransactionItem.t * MongoProduct.t * Double)) :=
  mapM (λ '(i, p), (λ d, (i, p, d)) <$> toDouble (MongoTransactionItem.total i))
       (unwound db businessId).

(** [None] when the aggregation fails: [$limit] wants a positive number,
    [$toDouble] a numeric string. *)
Definition getTopProducts (db : Db) (businessId : Z) (limit : Z)
  : option (list TopProduct) :=
  if decide (limit ≤ 0) then None
  else
    docs ← converted db businessId;
    Some (projectTop <$> take (Z.to_nat limit) (merge_sort bySoldCount (groupStage docs))).

(** The engine fixes neither the order in which [$group] emits its groups
    nor the order in which [$sort] leaves documents with equal keys: every
    arrangement of the groups that is sorted on [soldCount] is a possible
    input of [$limit].  [getTopProducts] above is one such run. *)
Definition TopProductsRun (db : Db) (businessId : Z) (limit : Z)
    (result : list TopProduct) : Prop :=
  0 < limit ∧
  ∃ docs sorted,
    converted db businessId = Some docs
    ∧ sorted ≡ₚ groupStage docs
    ∧ Sorted bySoldCount sorted
    ∧ result = projectTop <$> take (Z.to_nat limit) sorted.

(** ** The employee route *)

(** The e-mail pattern of the validation library. *)
Variable isEmail : string → bool.

(** [insertUserSchema.parse({ ...req.body, businessId, role: 'employee',
    isActive: true })]; the schema defaults [permissions] to all flags
    false. *)
Definition insertUserSchema_parse (body : EmployeeBody) (businessId : Z)
  : Exn + InsertUser.t :=
  let parsed :=
    username ← minString 1 (eb_username body);
    email ← eb_email body;
    _ ← guard (isEmail email = true);
    password ← minString 6 (eb_password body);
    firstName ← minString 1 (eb_firstName body);
    lastName ← minString 1 (eb_lastName body);
    Some (InsertUser.mk businessId username email password firstName lastName
            "employee" true
            (Some (default noPermissions (eb_permissions body)))) in
  match parsed with
  | Some userData => inr userData
  | None => inl ZodError
  end.

(** [app.post("/api/employees", requireAdmin, async (req, res) => ...)] *)
Definition postEmployees (db : Db) (session_user : option SessionUser)
    (body : EmployeeBody) (salt : string) (now : Z) : Db * Response :=
  match requireAdmin session_user, session_user with
  | Respond r, _ => (db, r)
  | Next, None => (db, mkResponse 400 (ErrorMessage (Error "TypeError")))
  | Next, Some user =>
      let count := getEmployeeCount db (su_businessId user) in
      if decide (10 ≤ count)
      then (db, mkResponse 400 (Message "Maximum of 10 employees allowed"))
      else
        match insertUserSchema_parse body (su_businessId user) with
        | inl e => (db, mkResponse 400 (ErrorMessage e))
        | inr userData =>
            let '(db, employee) := createUser db userData salt now in
            (db, mkResponse 200 (UserBody employee))
        end
  end.

(** ** Sequences of storage operations *)

(** The store after an operation. *)
Definition exec (db : Db) (op : Op) : Db :=
  match op with
  | OpGetNextId c => (getNextId wrapped db c).1
  | OpAuthenticate u p s => (getUserByUsernameAndPassword db u p s).1
  | OpCreateUser u s now => (createUser db u s now).1
  | OpUpdateUserPermissions i b p => (updateUserPermissions db i b p).1
  | OpDeleteEmployee i b => (deleteEmployee db i b).1
  | OpToggleEmployeeStatus i b => (toggleEmployeeStatus db i b).1
  | OpCreateCategory c now => (createCategory db c now).1
  | OpCreateProduct p now => (createProduct db p now).1
  | OpCreateCustomer c now => (createCustomer db c now).1
  | OpCreateTransaction t its now => (createTransaction db t its now).1
  | OpPostEmployees su b s now => (postEmployees db su b s now).1
  end.

Definition run (db : Db) (ops : list Op) : Db := foldl exec db ops.

(** The ids issued for a namespace, in the order of issue. *)
Definition idsOf (collection : string) (log : list (string * Z)) : list Z :=
  snd <$> filter (λ e, e.1 = collection) log.

(** The ids issued for a namespace between two states of the store. *)
Definition issuedSince (collection : string) (db db' : Db) : list Z :=
  idsOf collection (drop (length (issued db)) (issued db')).

(** The current value of a counter, [0] before its first use. *)
Definition seqOf (db : Db) (collection : string) : Z :=
  default 0 (counters db !! collection).

(** The users with role ['admin']. *)
Definition admins (db : Db) : list MongoUser.t :=
  filter (λ u, MongoUser.role u = "admin") (users db).

(** The invariant of the data model on [users]: ids are unique, and all
    come from the counter of the namespace. *)
Definition usersWf (db : Db) : Prop :=
  NoDup (MongoUser.id <$> users db)
  ∧ 0 ≤ seqOf db "users"
  ∧ Forall (λ u, MongoUser.id u ≤ seqOf db "users") (users db).

(** *** The invariant on ids *)

(** The ids of a collection are unique and were all issued by the counter
    of its namespace. *)
Definition idsWf (ns : string) (ids : list Z) (db : Db) : Prop :=
  NoDup ids ∧ 0 ≤ seqOf db ns ∧ Forall (λ i, i ≤ seqOf db ns) ids.

(** The invariant, for every collection with ids. *)
Definition storeWf (db : Db) : Prop :=
  idsWf "users" (MongoUser.id <$> users db) db
  ∧ idsWf "categories" (MongoCategory.id <$> categories db) db
  ∧ idsWf "products" (MongoProduct.id <$> products db) db
  ∧ idsWf "customers" (MongoCustomer.id <$> customers db) db
  ∧ idsWf "transactions" (MongoTransaction.id <$> transactions db) db
  ∧ idsWf "transactionItems" (MongoTransactionItem.id <$> transactionItems db) db.

(** The items that [createTransaction] inserts for a list of items, when
    the counter of [transactionItems] stands at [seq]. *)
Definition stampedItems (seq id : Z) (items : list MongoTransactionItem.t)
  : list MongoTransactionItem.t :=
  imap (λ k item, MongoTransactionItem.stamp (seq + 1 + Z.of_nat k) id item) items.

(** *** The dashboard statistics *)

(** [Number.prototype.toFixed(2)], the division of doubles, a count as a
    double, and the doubles that are falsy (zero and NaN). *)
Variable toFixed2 : Double → string.
Variable ddiv : Double → Double → Double.
Variable dofZ : Z → Double.
Variable dfalsy : Double → bool.

Record DashboardStats : Type := mkDashboardStats {
  todaySales : string;
  todayTransactions : Z;
  averageSale : string;
  lowStockCount : Z;
  todayGrowth : string;
  transactionGrowth : string;
  averageGrowth : string
}.

(** [$match: { businessId, createdAt: { $gte: today }, status: 'completed' }] *)
Definition todayQuery (businessId today : Z) (t : MongoTransaction.t) : Prop :=
  MongoTransaction.businessId t = businessId
  ∧ today ≤ MongoTransaction.createdAt t
  ∧ MongoTransaction.status t = "completed".

#[global] Instance todayQuery_dec b d t : Decision (todayQuery b d t).
Proof. unfold todayQuery. apply _. Defined.

(** The [$group] with [_id: null]: no document when nothing matched, else
    one document with the sum of the totals and the count; [None] when a
    total is not a number. *)
Definition todayStats (db : Db) (businessId today : Z)
  : option (list (Double * Z)) :=
  match find (todayQuery businessId today) (transactions db) with
  | [] => Some []
  | matched =>
      totals ← mapM (λ t, toDouble (MongoTransaction.total t)) matched;
      Some [(foldl dadd dzero totals, Z.of_nat (length matched))]
  end.

(** [today] is the start of the day of the server; the number [0] of the
    program is [dzero]. *)
Definition getDashboardStats (db : Db) (businessId today : Z)
  : option DashboardStats :=
  todayStats ← todayStats db businessId today;
  let lowStockProducts := getLowStockProducts db businessId in
  let todaySales :=
    match head todayStats with
    | Some (totalSales, _) => if dfalsy totalSales then dzero else totalSales
    | None => dzero
    end in
  let todayTransactions :=
    match head todayStats with
    | Some (_, transactionCount) =>
        if decide (transactionCount = 0) then 0 else transactionCount
    | None => 0
    end in
  let averageSale :=
    if decide (0 < todayTransactions)
    then toFixed2 (ddiv todaySales (dofZ todayTransactions))
    else "0.00" in
  Some (mkDashboardStats (toFixed2 todaySales) todayTransactions averageSale
          (Z.of_nat (length lowStockProducts)) "0.00" "0.00" "0.00").

(** *** Routes that answer with a document *)

(** What a route does with the request: refuse it with a status and a
    message, or send a document with [res.json]. *)
Inductive Reply (A : Type) : Type :=
  | Refuse (r : Response)
  | Deliver (a : A).

#[global] Arguments Refuse {A} r.
#[global] Arguments Deliver {A} a.

(** The middlewares of a route, in order: the first that answers ends the
    request. *)
Definition guarded (permission : Permission.t) (session_user : option SessionUser)
  : Outcome :=
  match requireAuth session_user with
  | Respond r => Respond r
  | Next => requirePermission permission session_user
  end.

(** [insertProductSchema.parse({ ...req.body, businessId })] *)
Definition insertProductSchema_parse (body : ProductBody) (businessId : Z)
  : Exn + MongoProduct.t :=
  let parsed :=
    name ← minString 1 (pb_name body);
    price ← pb_price body;
    Some (MongoProduct.mk 0 businessId (pb_categoryId body) name
            (pb_description body) (pb_sku body) (pb_barcode body) price
            (default "0.00" (pb_cost body)) (default 0 (pb_stock body))
            (default 5 (pb_lowStockThreshold body))
            (default true (pb_isActive body)) 0) in
  match parsed with
  | Some productData => inr productData
  | None => inl ZodError
  end.

(** [app.post("/api/products", requireAuth, requirePermission('inventory'),
    ...)] *)
Definition postProducts (db : Db) (session_user : option SessionUser)
    (body : ProductBody) (now : Z) : Db * Reply MongoProduct.t :=
  match guarded Permission.inventory session_user, session_user with
  | Respond r, _ => (db, Refuse r)
  | Next, None => (db, Refuse (mkResponse 400 (ErrorMessage (Error "TypeError"))))
  | Next, Some user =>
      match insertProductSchema_parse body (su_businessId user) with
      | inl e => (db, Refuse (mkResponse 400 (ErrorMessage e)))
      | inr productData =>
          let '(db, product) := createProduct db productData now in
          (db, Deliver product)
      end
  end.

(** [`TXN-${Date.now()}`] *)
Definition transactionNumberAt (now : Z) : string := ("TXN-" ++ pretty now)%string.

(** [insertTransactionSchema.parse({ ...transaction, businessId, userId,
    transactionNumber })] *)
Definition insertTransactionSchema_parse (body : TransactionBody)
    (businessId userId : Z) (transactionNumber : string)
  : Exn + MongoTransaction.t :=
  let parsed :=
    subtotal ← tb_subtotal body;
    taxAmount ← tb_taxAmount body;
    total ← tb_total body;
    paymentMethod ← tb_paymentMethod body;
    Some (MongoTransaction.mk 0 businessId (tb_customerId body) userId
            transactionNumber subtotal taxAmount total paymentMethod
            (default "completed" (tb_status body)) 0) in
  match parsed with
  | Some transactionData => inr transactionData
  | None => inl ZodError
  end.

(** [app.post("/api/transactions", requireAuth, requirePermission('pos'),
    ...)].  [now] is [Date.now()] in the route, [created] the [new Date()]
    of [createTransaction].  The items of the body are handed on as they
    are; when the body has none, [createTransaction] has stored the header
    before its loop over the items throws. *)
Definition postTransactions (db : Db) (session_user : option SessionUser)
    (transaction : TransactionBody) (items : option (list MongoTransactionItem.t))
    (now created : Z) : Db * Reply MongoTransaction.t :=
  match guarded Permission.pos session_user, session_user with
  | Respond r, _ => (db, Refuse r)
  | Next, None => (db, Refuse (mkResponse 400 (ErrorMessage (Error "TypeError"))))
  | Next, Some user =>
      let transactionNumber := transactionNumberAt now in
      match insertTransactionSchema_parse transaction (su_businessId user)
              (su_id user) transactionNumber with
      | inl e => (db, Refuse (mkResponse 400 (ErrorMessage e)))
      | inr transactionData =>
          match items with
          | Some items =>
              let '(db, createdTransaction) :=
                createTransaction db transactionData items created in
              (db, Deliver createdTransaction)
          | None =>
              ((createTransaction db transactionData [] created).1,
               Refuse (mkResponse 400 (ErrorMessage (Error "items is not iterable"))))
          end
      end
  end.

(** [app.delete("/api/employees/:id", requireAdmin, ...)].  [employeeId]
    is [parseInt(req.params.id)], [None] when it is [NaN]: the ids of the
    collection are numbers, so the filter of [deleteEmployee] matches no
    document then. *)
Definition deleteEmployeeRoute (db : Db) (session_user : option SessionUser)
    (employeeId : option Z) : Db * Response :=
  match requireAdmin session_user, session_user with
  | Respond r, _ => (db, r)
  | Next, None => (db, mkResponse 400 (ErrorMessage (Error "TypeError")))
  | Next, Some user =>
      let '(db, deleted) :=
        match employeeId with
        | Some id => deleteEmployee db id (su_businessId user)
        | None => (db, false)
        end in
      if negb deleted
      then (db, mkResponse 404 (Message "Employee not found"))
      else (db, mkResponse 200 (Message "Employee deleted successfully"))
  end.

(** *** The employees page of the client *)

(** Whether [addEmployeeSchema] accepts the form, which is when the page
    submits it. *)
Definition addEmployeeSchema_accepts (data : EmployeeForm) : bool :=
  bool_decide (3 ≤ String.length (ef_username data))%nat
  && bool_decide (6 ≤ String.length (ef_password data))%nat
  && bool_decide (1 ≤ String.length (ef_firstName data))%nat
  && bool_decide (1 ≤ String.length (ef_lastName data))%nat
  && isEmail (ef_email data).

(** The body that [apiRequest('POST', '/api/employees', data)] sends. *)
Definition bodyOfForm (data : EmployeeForm) : EmployeeBody :=
  mkEmployeeBody (Some (ef_username data)) (Some (ef_email data))
    (Some (ef_password data)) (Some (ef_firstName data))
    (Some (ef_lastName data)) None.

(** [const canAddEmployee = employees.length < 10] *)
Definition canAddEmployee (employees : list MongoUser.t) : bool :=
  bool_decide (length employees < 10)%nat.

(** [{ ...employee.permissions, [permission]: value }] of
    [handlePermissionChange]. *)
Definition withFlag (p : Permissions.t) (c : Permission.t) (value : bool)
  : Permissions.t :=
  match c with
  | Permission.pos =>
      Permissions.mk value (Permissions.inventory p) (Permissions.customers p)
        (Permissions.reports p) (Permissions.employees p) (Permissions.settings p)
  | Permission.inventory =>
      Permissions.mk (Permissions.pos p) value (Permissions.customers p)
        (Permissions.reports p) (Permissions.employees p) (Permissions.settings p)
  | Permission.customers =>
      Permissions.mk (Permissions.pos p) (Permissions.inventory p) value
        (Permissions.reports p) (Permissions.employees p) (Permissions.settings p)
  | Permission.reports =>
      Permissions.mk (Permissions.pos p) (Permissions.inventory p)
        (Permissions.customers p) value (Permissions.employees p)
        (Permissions.settings p)
  | Permission.employees =>
      Permissions.mk (Permissions.pos p) (Permissions.inventory p)
        (Permissions.customers p) (Permissions.reports p) value
        (Permissions.settings p)
  | Permission.settings =>
      Permissions.mk (Permissions.pos p) (Permissions.inventory p)
        (Permissions.customers p) (Permissions.reports p)
        (Permissions.employees p) value
  end.


(** The session user that [POST /api/login] and [POST /api/register]
    store: a copy of seven properties of the user document. *)
Definition sessionOf (user : MongoUser.t) : SessionUser :=
  mkSessionUser (MongoUser.id user) (MongoUser.businessId user)
    (MongoUser.username user) (MongoUser.firstName user)
    (MongoUser.lastName user) (MongoUser.role user)
    (Some (MongoUser.permissions user)).

(** ** The statements: auxiliary definitions *)

(** [principal.permissions[c] = true] *)
Definition flagSet (user : SessionUser) (c : Permission.t) : Prop :=
  ∃ p, su_permissions user = Some p ∧ Permissions.get p c = true.

(** The permissions [createUser] stores when the payload has none. *)
Definition defaultPermissionsOf (role : string) : Permissions.t :=
  if decide (role = "admin")
  then Permissions.mk true true true true true true
  else Permissions.mk true false false false false false.

(** The store after a sequence of [deleteEmployee] calls, each given by
    its [id] and [businessId]. *)
Definition deleteEmployees (db : Db) (calls : list (Z * Z)) : Db :=
  foldl (λ db c, (deleteEmployee db c.1 c.2).1) db calls.

(** C3 as the specification states it: every active user whose stored
    password is the plaintext can log in with an identifier that matches. *)
Definition LegacyLoginSucceeds : Prop :=
  ∀ (db : Db) (u : MongoUser.t) (username password salt : string),
    u ∈ users db →
    MongoUser.isActive u = true →
    MongoUser.password u = Some password →
    MongoUser.username u = trim username ∨ MongoUser.email u = trim username →
    is_Some (getUserByUsernameAndPassword db username password salt).2.

(** The value the next [getNextId] returns for a namespace. *)
Definition nextValue (c : gmap string Z) (collection : string) : Z :=
  let s := inc_seq c collection in if decide (s = 0) then 1 else s.

(** Since a state [db0], the ids issued for [ns] are [start + 1], ...,
    up to the current value of the counter. *)
Definition countsFrom (db0 : Db) (ns : string)
    (c : gmap string Z) (log : list (string * Z)) : Prop :=
  let start := seqOf db0 ns in
  let seq := default 0 (c !! ns) in
  0 ≤ start ≤ seq
  ∧ ∃ new, log = issued db0 ++ new
           ∧ idsOf ns new = seqZ (start + 1) (seq - start).

Abbreviation Doc := (MongoTransactionItem.t * MongoProduct.t * Double)%type.

(** The key of [$group]: [_id: '$productId']. *)
Definition docKey (doc : Doc) : Z := MongoTransactionItem.productId doc.1.1.

Definition docsOf (k : Z) (docs : list Doc) : list Doc :=
  filter (λ doc, docKey doc = k) docs.

Definition sumZ (l : list Z) : Z := foldr Z.add 0 l.

(** The sum of [quantity] and the sum of the converted [total] over the
    documents of a product, in the order of the documents. *)
Definition quantityOf (k : Z) (docs : list Doc) : Z :=
  sumZ ((λ doc, MongoTransactionItem.quantity doc.1.1) <$> docsOf k docs).

Definition revenueOf (k : Z) (docs : list Doc) : Double :=
  foldl dadd dzero (snd <$> docsOf k docs).

(** The group of a product as the stage's description has it: none when
    no document names the product, else the product joined to the first
    such document with the two sums. *)
Definition groupSpec (k : Z) (docs : list Doc) : option TopGroup :=
  match docsOf k docs with
  | [] => None
  | doc :: _ => Some (mkTopGroup k doc.1.2 (quantityOf k docs) (revenueOf k docs))
  end.

Definition groupOf (k : Z) (groups : list TopGroup) : option TopGroup :=
  findOne (λ g, g_id g = k) groups.

(** The items that C7 speaks of, in the words of the claim: the
    transaction items of the completed transactions of the business.  The
    pipeline drops the items that name no product of the catalogue. *)
Definition soldBy (db : Db) (businessId : Z) (i : MongoTransactionItem.t) : Prop :=
  Exists (λ t, MongoTransaction.id t = MongoTransactionItem.transactionId i
               ∧ MongoTransaction.businessId t = businessId
               ∧ MongoTransaction.status t = "completed")
         (transactions db).

#[global] Instance soldBy_dec db b i : Decision (soldBy db b i).
Proof. unfold soldBy. apply _. Defined.

Definition inCatalogue (db : Db) (i : MongoTransactionItem.t) : Prop :=
  Exists (λ p, MongoProduct.id p = MongoTransactionItem.productId i) (products db).

#[global] Instance inCatalogue_dec db i : Decision (inCatalogue db i).
Proof. unfold inCatalogue. apply _. Defined.

Definition soldItems (db : Db) (businessId : Z) : list MongoTransactionItem.t :=
  filter (λ i, soldBy db businessId i ∧ inCatalogue db i) (transactionItems db).

(** The items of a product among a list of items. *)
Definition itemsOfProduct (k : Z) (items : list MongoTransactionItem.t)
  : list MongoTransactionItem.t :=
  filter (λ i, MongoTransactionItem.productId i = k) items.

(** The tie-break that C7 states: among rows with equal [soldCount], the
    lower product id comes first. *)
Definition TiesByProductId (result : list TopProduct) : Prop :=
  ∀ (i j : nat) a b,
    (i < j)%nat → result !! i = Some a → result !! j = Some b →
    tp_soldCount a = tp_soldCount b → tp__id a < tp__id b.

(** ** The gate admits admins and holders of the flag *)

Lemma hasFlag_flagSet user c : hasFlag user c = true ↔ flagSet user c.
Proof.
  unfold hasFlag, flagSet. destruct (su_permissions user) as [p|].
  - split; [eauto | by intros (q & [= <-] & Hq)].
  - split; [done | by intros (q & ? & _)].
Qed.

(** C4.  [requirePermission c] lets a request through exactly when the
    session has a user whose role is ['admin'] or whose flag [c] is set;
    a user with neither gets 403, a session without user gets 401; an
    admin passes whatever the flags are. *)
Theorem requirePermission_gate (c : Permission.t) (s : option SessionUser) :
  (requirePermission c s = Next
     ↔ ∃ user, s = Some user ∧ (su_role user = "admin" ∨ flagSet user c))
  ∧ (∀ user, s = Some user → ¬ (su_role user = "admin" ∨ flagSet user c) →
       requirePermission c s = Respond (mkResponse 403 (Message "Access denied")))
  ∧ (s = None →
       requirePermission c s = Respond (mkResponse 401 (Message "Unauthorized")))
  ∧ (∀ user, s = Some user → su_role user = "admin" →
       requirePermission c s = Next).
Proof.
  assert (∀ user, bool_decide (su_role user = "admin") || hasFlag user c = true
                  ↔ su_role user = "admin" ∨ flagSet user c) as Hcond.
  { intros user. rewrite orb_true_iff, bool_decide_eq_true, hasFlag_flagSet. done. }
  unfold requirePermission. destruct s as [user|].
  - specialize (Hcond user).
    destruct (bool_decide (su_role user = "admin") || hasFlag user c).
    + split; [|split; [|split]].
      * split; [|done]. intros _. exists user. split; [done|]. by apply Hcond.
      * intros u [= <-] Hno. destruct Hno. by apply Hcond.
      * done.
      * done.
    + split; [|split; [|split]].
      * split; [done|]. intros (u & [= <-] & Hu). apply Hcond in Hu. done.
      * done.
      * done.
      * intros u [= <-] Hadm. assert (false = true) by (apply Hcond; by left). done.
  - split; [|split; [|split]]; try done.
    split; [done|]. by intros (u & ? & _).
Qed.

(** ** Low stock *)

(** C6.  [getLowStockProducts T] returns, in the order of the collection,
    exactly the products of tenant [T] that are active and whose stock is
    at most their own threshold: stock 5 with threshold 5 is in, stock 6
    with threshold 5 is out. *)
Theorem getLowStockProducts_exact (db : Db) (T : Z) :
  (∀ p, p ∈ getLowStockProducts db T
        ↔ p ∈ products db
          ∧ MongoProduct.businessId p = T
          ∧ MongoProduct.isActive p = true
          ∧ MongoProduct.stock p ≤ MongoProduct.lowStockThreshold p)
  ∧ sublist (getLowStockProducts db T) (products db)
  ∧ (∀ p, p ∈ products db → MongoProduct.businessId p = T →
          MongoProduct.isActive p = true →
          MongoProduct.stock p = 5 → MongoProduct.lowStockThreshold p = 5 →
          p ∈ getLowStockProducts db T)
  ∧ (∀ p, MongoProduct.stock p = 6 → MongoProduct.lowStockThreshold p = 5 →
          p ∉ getLowStockProducts db T).
Proof.
  unfold getLowStockProducts, find. split; [|split; [|split]].
  - intros p. rewrite list_elem_of_filter.
    split; [intros [(? & ? & ?) ?] | intros (? & ? & ? & ?)]; done.
  - apply sublist_filter.
  - intros p Hin Hb Ha Hs Ht. apply list_elem_of_filter.
    split; [|done]. split; [done|]. split; [done|]. rewrite Hs, Ht. done.
  - intros p Hs Ht [(_ & _ & Hle) _]%list_elem_of_filter.
    rewrite Hs, Ht in Hle. done.
Qed.

(** ** Facts on the id allocator *)

(** The value [getNextId] returns, whatever the shape of the driver's
    result: the incremented counter, or 1 when that is 0. *)
Lemma getNextId_unfold (db : Db) (c : string) :
  getNextId wrapped db c
  = let s := inc_seq (counters db) c in
    let id := if decide (s = 0) then 1 else s in
    (mkDb (<[c := s]> (counters db)) (users db) (categories db) (products db)
          (customers db) (transactions db) (transactionItems db)
          (issued db ++ [(c, id)]), id).
Proof.
  unfold getNextId, counters_findOneAndUpdate, counter_result_seq, js_or.
  destruct wrapped; simpl; repeat case_decide; simpl; done.
Qed.

Lemma getNextId_users db c : users (getNextId wrapped db c).1 = users db.
Proof. by rewrite getNextId_unfold. Qed.

(** From a counter that is not negative, [getNextId] returns the counter
    plus one and leaves it there. *)
Lemma seqOf_next db ns :
  0 ≤ seqOf db ns →
  getNextId wrapped db ns
  = (mkDb (<[ns := seqOf db ns + 1]> (counters db)) (users db) (categories db)
          (products db) (customers db) (transactions db) (transactionItems db)
          (issued db ++ [(ns, seqOf db ns + 1)]), seqOf db ns + 1).
Proof.
  intros Hpos. rewrite getNextId_unfold. cbv zeta.
  assert (inc_seq (counters db) ns = seqOf db ns + 1) as ->
    by (unfold inc_seq, seqOf; by destruct (counters db !! ns)).
  by rewrite decide_False by lia.
Qed.

Lemma seqOf_getNextId db ns :
  0 ≤ seqOf db ns →
  (getNextId wrapped db ns).2 = seqOf db ns + 1
  ∧ seqOf (getNextId wrapped db ns).1 ns = seqOf db ns + 1.
Proof.
  intros Hpos. rewrite seqOf_next by done. simpl. split; [done|].
  unfold seqOf. simpl. by rewrite lookup_insert_eq.
Qed.

(** ** Creating users *)

(** C8.  [createUser] appends one document whose password is the bcrypt
    hash of the payload's password (and so not the plaintext, a hash being
    different from its input); its permissions are those of the payload,
    or the defaults of the role when the payload has none; the user
    handed back has no password property. *)
Theorem createUser_hashes (db : Db) (user : InsertUser.t) (salt : string) (now : Z) :
  bcrypt_hash (InsertUser.password user) 12 salt ≠ InsertUser.password user →
  ∃ stored,
    users (createUser db user salt now).1 = users db ++ [stored]
    ∧ MongoUser.password stored
      = Some (bcrypt_hash (InsertUser.password user) 12 salt)
    ∧ MongoUser.password stored ≠ Some (InsertUser.password user)
    ∧ MongoUser.permissions stored
      = match InsertUser.permissions user with
        | Some p => p
        | None => defaultPermissionsOf (InsertUser.role user)
        end
    ∧ (createUser db user salt now).2 = MongoUser.set_password None stored
    ∧ MongoUser.password (createUser db user salt now).2 = None.
Proof.
  intros Hfresh. unfold createUser. rewrite getNextId_unfold. cbv zeta.
  eexists. split; [reflexivity|]. simpl.
  split; [done|]. split; [congruence|]. split; [|done].
  unfold defaultPermissionsOf, adminPermissions, employeePermissions.
  by destruct (InsertUser.permissions user).
Qed.

(** ** Facts on the collection primitives *)

Lemma set_users_same (db : Db) : set_users (users db) db = db.
Proof. by destruct db. Qed.

Lemma deleteOne_no_match {A} (P : A → Prop) `{!∀ x, Decision (P x)} (l : list A) :
  Forall (λ x, ¬ P x) l → deleteOne P l = (l, 0).
Proof.
  induction 1 as [|x l Hx _ IH]; simpl; [done|].
  rewrite decide_False by done. by rewrite IH.
Qed.

Lemma deleteOne_count {A} (P : A → Prop) `{!∀ x, Decision (P x)} (l : list A) :
  (deleteOne P l).2 = 0 ∨ (deleteOne P l).2 = 1.
Proof.
  induction l as [|x l IH]; simpl; [by left|].
  case_decide; [by right|]. by destruct (deleteOne P l).
Qed.

(** Removing the first match of [P] keeps the documents that satisfy a
    condition [Q] which no match of [P] satisfies. *)
Lemma deleteOne_filter {A} (P Q : A → Prop)
    `{!∀ x, Decision (P x)} `{!∀ x, Decision (Q x)} (l : list A) :
  (∀ x, P x → ¬ Q x) → filter Q (deleteOne P l).1 = filter Q l.
Proof.
  intros HPQ. induction l as [|x l IH]; simpl; [done|].
  case_decide as HP.
  - simpl. rewrite filter_cons_False; [done|]. by apply HPQ.
  - destruct (deleteOne P l) as [r n] eqn:Hdel. simpl in *.
    rewrite !filter_cons. by rewrite IH.
Qed.

Lemma deleteOne_sublist {A} (P : A → Prop) `{!∀ x, Decision (P x)} (l : list A) :
  sublist (deleteOne P l).1 l.
Proof.
  induction l as [|x l IH]; simpl; [done|].
  case_decide; simpl; [by apply sublist_cons|].
  destruct (deleteOne P l); simpl in *. by apply sublist_skip.
Qed.

Lemma updateOne_fmap {A B} (P : A → Prop) `{!∀ x, Decision (P x)}
    (f : A → A) (g : A → B) (l : list A) :
  (∀ x, g (f x) = g x) → g <$> updateOne P f l = g <$> l.
Proof.
  intros Hg. induction l as [|x l IH]; simpl; [done|].
  case_decide; rewrite !fmap_cons; [by rewrite Hg | by rewrite IH].
Qed.

(** ** Deleting employees *)

Lemma deleteEmployee_admins db id businessId :
  admins (deleteEmployee db id businessId).1 = admins db.
Proof.
  unfold deleteEmployee, admins.
  pose proof (deleteOne_filter (deleteEmployeeQuery id businessId)
                (λ u, MongoUser.role u = "admin") (users db)) as H.
  destruct (deleteOne (deleteEmployeeQuery id businessId) (users db)) as [us n].
  simpl in *. apply H. intros u (_ & _ & Hrole). done.
Qed.

(** With unique ids, a call with the id of an admin matches no document. *)
Lemma deleteEmployee_admin_id (db : Db) u businessId :
  NoDup (MongoUser.id <$> users db) →
  u ∈ users db → MongoUser.role u = "admin" →
  deleteEmployee db (MongoUser.id u) businessId = (db, false).
Proof.
  intros Hnodup Hin Hadmin. unfold deleteEmployee.
  rewrite deleteOne_no_match.
  - by rewrite set_users_same.
  - apply Forall_forall. intros v Hv (Hid & _ & Hrole).
    assert (v = u) as ->; [|done].
    apply list_elem_of_lookup in Hin as [i Hi].
    apply list_elem_of_lookup in Hv as [j Hj].
    assert (i = j) as ->.
    { eapply NoDup_lookup; [exact Hnodup | |].
      - rewrite list_lookup_fmap, Hi. reflexivity.
      - rewrite list_lookup_fmap, Hj. simpl. by rewrite Hid. }
    congruence.
Qed.

Lemma deleteEmployees_admins (db : Db) calls :
  admins (deleteEmployees db calls) = admins db.
Proof.
  revert db. induction calls as [|c calls IH]; intros db; simpl; [done|].
  unfold deleteEmployees in IH. rewrite IH. apply deleteEmployee_admins.
Qed.


(** ** The employee cap *)

Lemma getEmployeeCount_createUser db user salt now :
  InsertUser.role user ≠ "admin" →
  getEmployeeCount (createUser db user salt now).1 (InsertUser.businessId user)
  = getEmployeeCount db (InsertUser.businessId user) + 1.
Proof.
  intros Hrole. unfold createUser, getEmployeeCount, countDocuments.
  rewrite getNextId_unfold. cbv zeta. simpl. unfold insertOne.
  rewrite filter_app, length_app, filter_cons_True by done. simpl. lia.
Qed.

(** C5.  For an admin session of a business that already has ten or more
    users with a role other than ['admin'], [POST /api/employees] answers
    400 with the capacity message and leaves the store as it was; the
    route answers 200 only when the count was at most 9, and the count is
    then one more. *)
Theorem postEmployees_capacity
    (db : Db) (session_user : option SessionUser) (body : EmployeeBody)
    (salt : string) (now : Z) :
  (∀ user, session_user = Some user → su_role user = "admin" →
     10 ≤ getEmployeeCount db (su_businessId user) →
     postEmployees db session_user body salt now
     = (db, mkResponse 400 (Message "Maximum of 10 employees allowed")))
  ∧ (status (postEmployees db session_user body salt now).2 = 200 →
     ∃ user, session_user = Some user ∧ su_role user = "admin"
       ∧ getEmployeeCount db (su_businessId user) ≤ 9
       ∧ getEmployeeCount (postEmployees db session_user body salt now).1
                          (su_businessId user)
         = getEmployeeCount db (su_businessId user) + 1).
Proof.
  unfold postEmployees, requireAdmin. split.
  - intros user -> Hadmin Hfull.
    rewrite decide_False by (intros H; by apply H).
    by rewrite decide_True.
  - destruct session_user as [user|]; [|done].
    case_decide as Hrole; [done|].
    assert (su_role user = "admin") as Hadmin.
    { destruct (decide (su_role user = "admin")); [done|]. by destruct Hrole. }
    case_decide as Hcount; [done|].
    destruct (insertUserSchema_parse body (su_businessId user)) as [e|userData] eqn:Hparse;
      [done|].
    destruct (createUser db userData salt now) as [db' employee] eqn:Hcreate.
    simpl. intros _. exists user. repeat split; [done|lia|].
    unfold insertUserSchema_parse in Hparse.
    repeat (match type of Hparse with
            | context [?o ≫= _] => destruct o; simpl in Hparse; [|done]
            end).
    injection Hparse as <-.
    match goal with
    | H : createUser db ?u salt now = _ |- _ =>
        pose proof (getEmployeeCount_createUser db u salt now) as Hc;
        rewrite H in Hc
    end.
    simpl in Hc. by apply Hc.
Qed.

(** ** The legacy migration *)

Lemma findOne_split {A} (P : A → Prop) `{!∀ x, Decision (P x)} (l : list A) x :
  findOne P l = Some x →
  ∃ l1 l2, l = (l1 ++ x :: l2) ∧ Forall (λ y, ¬ P y) l1 ∧ P x.
Proof.
  unfold findOne. induction l as [|y l IH]; [done|].
  rewrite filter_cons. case_decide as Hy; simpl.
  - intros [= ->]. by exists [], l.
  - intros Hx. destruct (IH Hx) as (l1 & l2 & -> & Hl1 & HP).
    exists (y :: l1), l2. repeat split; [|done]. by constructor.
Qed.

Lemma findOne_first {A} (P : A → Prop) `{!∀ x, Decision (P x)} (l1 l2 : list A) x :
  Forall (λ y, ¬ P y) l1 → P x → findOne P (l1 ++ x :: l2) = Some x.
Proof.
  intros Hl1 HP. unfold findOne. induction Hl1 as [|y l1 Hy _ IH]; simpl.
  - by rewrite filter_cons_True.
  - by rewrite filter_cons_False.
Qed.

Lemma updateOne_first {A} (P : A → Prop) `{!∀ x, Decision (P x)}
    (f : A → A) (l1 l2 : list A) x :
  Forall (λ y, ¬ P y) l1 → P x →
  updateOne P f (l1 ++ x :: l2) = (l1 ++ f x :: l2).
Proof.
  intros Hl1 HP. induction Hl1 as [|y l1 Hy _ IH]; simpl.
  - by rewrite decide_True.
  - rewrite decide_False by done. by rewrite IH.
Qed.

(** With unique ids, nothing before a user in the collection has its id. *)
Lemma unique_id_before (l1 l2 : list MongoUser.t) (user : MongoUser.t) :
  NoDup (MongoUser.id <$> (l1 ++ user :: l2)) →
  Forall (λ u, ¬ MongoUser.id u = MongoUser.id user) l1.
Proof.
  rewrite fmap_app, fmap_cons. intros Hnodup.
  apply NoDup_app in Hnodup as (_ & Hdisj & _).
  apply Forall_forall. intros u Hu Heq.
  apply (Hdisj (MongoUser.id u)).
  - apply list_elem_of_fmap. eauto.
  - rewrite Heq. left.
Qed.

(** [updateOne] rewrites a document when one matches. *)
Lemma updateOne_hits {A} (P : A → Prop) `{!∀ x, Decision (P x)}
    (f : A → A) (l : list A) x :
  x ∈ l → P x → ∃ z, z ∈ l ∧ P z ∧ f z ∈ updateOne P f l.
Proof.
  induction l as [|y l IH]; intros Hin HP; [by apply elem_of_nil in Hin|].
  simpl. destruct (decide (P y)) as [Hy|Hy].
  - exists y. split; [left|]. split; [done | left].
  - apply elem_of_cons in Hin as [->|Hin]; [done|].
    destruct (IH Hin HP) as (z & Hz & HPz & Hfz).
    exists z. split; [by right|]. split; [done | by right].
Qed.

Lemma findOne_elem_of {A} (P : A → Prop) `{!∀ x, Decision (P x)} (l : list A) x :
  findOne P l = Some x → x ∈ l ∧ P x.
Proof.
  unfold findOne. induction l as [|y l IH]; [done|].
  rewrite filter_cons. case_decide as Hy; simpl.
  - intros [= ->]. split; [left | done].
  - intros Hx. destruct (IH Hx). split; [by right | done].
Qed.

(** ** What a successful login returns *)

(** C10.  A successful [getUserByUsernameAndPassword] returns the user
    document that is in the store when it returns, with its [password]
    property.  When the bcrypt comparison succeeded the store is as it
    was and the user returned is the document found, with the stored
    hash.  On the legacy branch the store is the one in which [updateOne]
    has written the hash just computed on the document with the id of the
    user found; a document with that id and that hash is in the store;
    and, ids being unique, the document found has been replaced, at its
    place, by the user returned, the rest of the collection being as it
    was. *)
Theorem authenticate_returns_password
    (db db' : Db) (username password salt : string) (user : MongoUser.t) :
  getUserByUsernameAndPassword db username password salt = (db', Some user) →
  ∃ found h,
    findOne (loginQuery (trim username)) (users db) = Some found
    ∧ found ∈ users db
    ∧ MongoUser.password user = Some h
    ∧ ((takesLegacyBranch db username password = false
        ∧ user = found ∧ db' = db
        ∧ user ∈ users db'
        ∧ bcrypt_compare password h = Some true)
       ∨ (takesLegacyBranch db username password = true
          ∧ h = bcrypt_hash password 12 salt
          ∧ user = MongoUser.set_password (Some h) found
          ∧ MongoUser.password found = Some password
          ∧ db' = set_users
                    (updateOne (λ u, MongoUser.id u = MongoUser.id found)
                               (MongoUser.set_password (Some h)) (users db)) db
          ∧ (∃ stored, stored ∈ users db'
                       ∧ MongoUser.id stored = MongoUser.id user
                       ∧ MongoUser.password stored = Some h)
          ∧ (NoDup (MongoUser.id <$> users db) →
             user ∈ users db'
             ∧ ∃ l1 l2, users db = l1 ++ found :: l2
                        ∧ users db' = l1 ++ user :: l2))).
Proof.
  unfold getUserByUsernameAndPassword, takesLegacyBranch.
  destruct (findOne (loginQuery (trim username)) (users db)) as [found|] eqn:Hfind;
    [|done].
  destruct (findOne_elem_of _ _ _ Hfind) as [Hin _].
  destruct (legacyCheck password found) eqn:Hlegacy.
  - simpl. intros [= <- <-].
    exists found, (bcrypt_hash password 12 salt).
    split; [done|]. split; [done|]. split; [done|]. right.
    unfold legacyCheck in Hlegacy. apply andb_true_iff in Hlegacy as [_ Hpw].
    apply bool_decide_eq_true in Hpw.
    split; [done|]. split; [done|]. split; [done|]. split; [done|].
    split; [done|]. split.
    + destruct (updateOne_hits (λ u, MongoUser.id u = MongoUser.id found)
                  (MongoUser.set_password (Some (bcrypt_hash password 12 salt)))
                  (users db) found Hin eq_refl) as (z & _ & Hz & Hstored).
      eexists. split; [exact Hstored|]. by destruct z.
    + intros Hnodup. destruct (list_elem_of_split _ _ Hin) as (l1 & l2 & Husers).
      assert (updateOne (λ u, MongoUser.id u = MongoUser.id found)
                (MongoUser.set_password (Some (bcrypt_hash password 12 salt)))
                (users db)
              = l1 ++ MongoUser.set_password
                        (Some (bcrypt_hash password 12 salt)) found :: l2) as Hupd.
      { rewrite Husers. apply updateOne_first; [|done].
        apply unique_id_before with l2. by rewrite <- Husers. }
      simpl. rewrite Hupd. split; [|by exists l1, l2].
      apply elem_of_app. right. left.
  - destruct (bcryptCheck password (MongoUser.password found)) eqn:Hcheck;
      simpl; [|done].
    intros [= <- <-]. unfold bcryptCheck in Hcheck.
    destruct (MongoUser.password found) as [h|] eqn:Hpw; [|done].
    exists found, h. split; [done|]. split; [done|]. split; [done|]. left.
    repeat split; try done.
    by destruct (bcrypt_compare password h) as [[]|].
Qed.

(** C3, amended.  Let [user] be the user that the lookup of
    [getUserByUsernameAndPassword] selects for the identifier (the first
    active user of the collection whose username or e-mail is the trimmed
    identifier), let the stored password be the plaintext [password], not
    accepted by bcrypt as a hash of itself, and let ids of users be
    unique.  Then the call takes the legacy branch, replaces the stored
    password of that user, and of no other, by the hash, and returns the
    user with the hash; a second call with the same arguments finds the
    hash, does not take the legacy branch, leaves the store as it is and
    returns the same user. *)
Theorem legacy_password_migrated_once
    (db : Db) (username password salt salt' : string) (user : MongoUser.t) :
  findOne (loginQuery (trim username)) (users db) = Some user →
  MongoUser.password user = Some password →
  bcrypt_compare password password ≠ Some true →
  bcrypt_compare password (bcrypt_hash password 12 salt) = Some true →
  NoDup (MongoUser.id <$> users db) →
  let hashed := bcrypt_hash password 12 salt in
  let migrated := MongoUser.set_password (Some hashed) user in
  let db1 := (getUserByUsernameAndPassword db username password salt).1 in
  takesLegacyBranch db username password = true
  ∧ (getUserByUsernameAndPassword db username password salt).2 = Some migrated
  ∧ (∃ l1 l2, users db = (l1 ++ user :: l2)
              ∧ db1 = set_users (l1 ++ migrated :: l2) db)
  ∧ takesLegacyBranch db1 username password = false
  ∧ getUserByUsernameAndPassword db1 username password salt' = (db1, Some migrated).
Proof.
  intros Hfind Hplain Hnothash Hhash Hnodup hashed migrated db1.
  assert (legacyCheck password user = true) as Hlegacy.
  { unfold legacyCheck, bcryptCheck. rewrite Hplain.
    rewrite bool_decide_eq_true_2 by done.
    by destruct (bcrypt_compare password password) as [[]|]. }
  assert (legacyCheck password migrated = false) as Hlegacy'.
  { unfold legacyCheck, bcryptCheck. subst migrated hashed. simpl.
    by rewrite Hhash. }
  destruct (findOne_split _ _ _ Hfind) as (l1 & l2 & Husers & Hl1 & Hmatch).
  assert (db1 = set_users (l1 ++ migrated :: l2) db) as Hdb1.
  { subst db1. unfold getUserByUsernameAndPassword.
    rewrite Hfind, Hlegacy. simpl. f_equal.
    rewrite Husers. apply updateOne_first; [|done].
    apply unique_id_before with l2. by rewrite <- Husers. }
  assert (findOne (loginQuery (trim username)) (users db1) = Some migrated) as Hfind'.
  { rewrite Hdb1. simpl. by apply findOne_first. }
  split; [|split; [|split; [|split]]].
  - unfold takesLegacyBranch. by rewrite Hfind.
  - unfold getUserByUsernameAndPassword. by rewrite Hfind, Hlegacy.
  - by exists l1, l2.
  - unfold takesLegacyBranch. by rewrite Hfind'.
  - unfold getUserByUsernameAndPassword. rewrite Hfind', Hlegacy'.
    unfold bcryptCheck. subst migrated hashed. simpl. by rewrite Hhash.
Qed.

(** ** The allocator under sequences of operations *)

Section AllocatorInvariant.

(** A property of the counters and of the log that each allocation keeps
    is kept by every operation: operations touch the counters and the log
    through [getNextId] only. *)
Variable P : gmap string Z → list (string * Z) → Prop.
Hypothesis P_alloc : ∀ c log collection,
  P c log →
  P (<[collection := inc_seq c collection]> c)
    (log ++ [(collection, nextValue c collection)]).

Local Abbreviation holds db := (P (counters db) (issued db)).

Lemma getNextId_keeps db collection :
  holds db → holds (getNextId wrapped db collection).1.
Proof using P_alloc. intros H. rewrite getNextId_unfold. simpl. by apply P_alloc. Qed.

Lemma createUser_keeps db user salt now :
  holds db → holds (createUser db user salt now).1.
Proof using P_alloc.
  intros H. unfold createUser. rewrite getNextId_unfold. simpl. by apply P_alloc.
Qed.

Lemma insertItems_keeps id items db :
  holds db → holds (foldl (insertItem id) db items).
Proof using P_alloc.
  revert db. induction items as [|i items IH]; intros db H; simpl; [done|].
  apply IH. unfold insertItem. rewrite getNextId_unfold. simpl. by apply P_alloc.
Qed.

Lemma exec_keeps db op : holds db → holds (exec db op).
Proof using P_alloc.
  intros H. destruct op; unfold exec.
  - by apply getNextId_keeps.
  - unfold getUserByUsernameAndPassword.
    destruct (findOne _ _) as [user|]; [|done].
    destruct (legacyCheck _ _); simpl; [done|].
    by destruct (bcryptCheck _ _).
  - by apply createUser_keeps.
  - unfold updateUserPermissions. simpl. by destruct (findOne _ _).
  - unfold deleteEmployee. by destruct (deleteOne _ _).
  - unfold toggleEmployeeStatus. by destruct (findOne _ _).
  - unfold createCategory. rewrite getNextId_unfold. simpl. by apply P_alloc.
  - unfold createProduct. rewrite getNextId_unfold. simpl. by apply P_alloc.
  - unfold createCustomer. rewrite getNextId_unfold. simpl. by apply P_alloc.
  - unfold createTransaction. rewrite getNextId_unfold. simpl.
    apply insertItems_keeps. simpl. by apply P_alloc.
  - unfold postEmployees.
    destruct (requireAdmin _); destruct session_user; try done.
    case_decide; [done|].
    destruct (insertUserSchema_parse _ _) as [e|userData]; [done|].
    pose proof (createUser_keeps db userData salt now H) as Hc.
    by destruct (createUser db userData salt now).
Qed.

Lemma run_keeps ops db : holds db → holds (run db ops).
Proof using P_alloc.
  revert db. induction ops as [|op ops IH]; intros db H; simpl; [done|].
  apply IH. by apply exec_keeps.
Qed.

End AllocatorInvariant.

Lemma idsOf_app c l1 l2 : idsOf c (l1 ++ l2) = idsOf c l1 ++ idsOf c l2.
Proof. unfold idsOf. by rewrite filter_app, fmap_app. Qed.

Lemma countsFrom_alloc db0 ns c log collection :
  countsFrom db0 ns c log →
  countsFrom db0 ns (<[collection := inc_seq c collection]> c)
             (log ++ [(collection, nextValue c collection)]).
Proof.
  unfold countsFrom. intros (Hseq & new & -> & Hids).
  destruct (decide (collection = ns)) as [->|Hne].
  - rewrite lookup_insert_eq. simpl.
    assert (inc_seq c ns = default 0 (c !! ns) + 1) as Hinc.
    { unfold inc_seq. by destruct (c !! ns). }
    split; [lia|].
    exists (new ++ [(ns, nextValue c ns)]). split; [by rewrite app_assoc|].
    rewrite idsOf_app, Hids. unfold idsOf. rewrite filter_cons_True by done.
    simpl. unfold nextValue. rewrite decide_False by lia.
    rewrite Hinc.
    replace (default 0 (c !! ns) + 1 - seqOf db0 ns)
      with ((default 0 (c !! ns) - seqOf db0 ns) + 1) by lia.
    rewrite seqZ_app by lia. f_equal.
    rewrite seqZ_cons, seqZ_nil by lia. f_equal. lia.
  - rewrite lookup_insert_ne by done. split; [done|].
    exists (new ++ [(collection, nextValue c collection)]).
    split; [by rewrite app_assoc|].
    rewrite idsOf_app, Hids. unfold idsOf. rewrite filter_cons_False by done.
    simpl. by rewrite app_nil_r.
Qed.

Lemma seqZ_increasing m n : StronglySorted Z.lt (seqZ m n).
Proof.
  remember (Z.to_nat n) as k eqn:Hk. revert m n Hk.
  induction k as [|k IH]; intros m n Hk.
  - rewrite seqZ_nil by lia. constructor.
  - rewrite seqZ_cons by lia. constructor.
    + apply IH. lia.
    + apply Forall_seqZ. lia.
Qed.

Lemma issuedSince_run db ns ops :
  0 ≤ seqOf db ns →
  0 ≤ seqOf db ns ≤ seqOf (run db ops) ns
  ∧ issuedSince ns db (run db ops)
    = seqZ (seqOf db ns + 1) (seqOf (run db ops) ns - seqOf db ns).
Proof.
  intros Hpos.
  assert (countsFrom db ns (counters db) (issued db)) as H0.
  { unfold countsFrom. fold (seqOf db ns). split; [lia|].
    exists []. rewrite app_nil_r, Z.sub_diag. done. }
  apply (run_keeps _ (countsFrom_alloc db ns) ops) in H0.
  destruct H0 as (Hseq & new & Hlog & Hids). fold (seqOf (run db ops) ns) in *.
  split; [done|]. unfold issuedSince. rewrite Hlog.
  by rewrite drop_app_length.
Qed.

Lemma createUser_id db user salt now :
  0 ≤ seqOf db "users" →
  MongoUser.id (createUser db user salt now).2 = seqOf db "users" + 1
  ∧ seqOf (createUser db user salt now).1 "users" = seqOf db "users" + 1.
Proof.
  intros Hpos. unfold createUser. rewrite seqOf_next by done. simpl.
  split; [done|]. unfold seqOf. simpl. by rewrite lookup_insert_eq.
Qed.

(** C2.  On a namespace without counter, [getNextId] returns 1.  After
    any sequence of operations from there (allocations in any namespace,
    creations, deletions of employees, logins), a call returns a value of
    at least 1, and a call made after any further operations returns a
    greater value: each call returns more than every call before it on
    the namespace, whatever was deleted in between.  For [users], the id
    that [createUser] gives the user is the value returned, so that a
    user created later has a greater id than a user created before.
    Each call appends the value it returns to the log of the store, and
    the values logged for the namespace are 1, 2, ..., in this order,
    strictly increasing and without repetition. *)
Theorem getNextId_fresh_and_increasing (db : Db) (ns : string) (ops : list Op) :
  counters db !! ns = None →
  let ids := issuedSince ns db (run db ops) in
  (getNextId wrapped db ns).2 = 1
  ∧ ids = seqZ 1 (Z.of_nat (length ids))
  ∧ StronglySorted Z.lt ids
  ∧ NoDup ids
  ∧ Forall (λ i, i < (getNextId wrapped (run db ops) ns).2) ids
  ∧ (∀ s, issued (getNextId wrapped s ns).1
          = issued s ++ [(ns, (getNextId wrapped s ns).2)])
  ∧ (∀ ops',
       let first := getNextId wrapped (run db ops) ns in
       let later := getNextId wrapped (run first.1 ops') ns in
       1 ≤ first.2 ∧ first.2 < later.2)
  ∧ (ns = "users" →
     ∀ u salt now ops' u' salt' now',
       let first := createUser (run db ops) u salt now in
       let later := createUser (run first.1 ops') u' salt' now' in
       MongoUser.id first.2 = (getNextId wrapped (run db ops) ns).2
       ∧ MongoUser.id first.2 < MongoUser.id later.2).
Proof.
  intros Hnone ids.
  assert (seqOf db ns = 0) as Hstart by (unfold seqOf; by rewrite Hnone).
  destruct (issuedSince_run db ns ops) as [Hseq Hids]; [lia|].
  fold ids in Hids. rewrite Hstart in Hids, Hseq.
  rewrite Z.add_0_l, Z.sub_0_r in Hids.
  assert (Z.of_nat (length ids) = seqOf (run db ops) ns) as Hlen.
  { rewrite Hids, length_seqZ. lia. }
  split; [|split; [|split; [|split; [|split; [|split; [|split]]]]]].
  - rewrite getNextId_unfold. simpl. unfold inc_seq. by rewrite Hnone.
  - by rewrite Hlen.
  - rewrite Hids. apply seqZ_increasing.
  - rewrite Hids. apply NoDup_seqZ.
  - rewrite getNextId_unfold. simpl.
    assert (inc_seq (counters (run db ops)) ns = seqOf (run db ops) ns + 1) as ->.
    { unfold inc_seq, seqOf. by destruct (counters (run db ops) !! ns). }
    rewrite decide_False by lia.
    rewrite Hids. apply Forall_forall. intros i Hi.
    apply elem_of_seqZ in Hi. lia.
  - intros s. by rewrite getNextId_unfold.
  - intros ops' first later.
    destruct (seqOf_getNextId (run db ops) ns) as [Hfirst Hafter]; [lia|].
    fold first in Hfirst, Hafter.
    destruct (issuedSince_run first.1 ns ops') as [Hmono _]; [lia|].
    destruct (seqOf_getNextId (run first.1 ops') ns) as [Hlater _]; [lia|].
    fold later in Hlater. lia.
  - intros -> u salt now ops' u' salt' now' first later.
    destruct (seqOf_getNextId (run db ops) "users") as [Hnext _]; [lia|].
    destruct (createUser_id (run db ops) u salt now) as [Hfirst Hafter]; [lia|].
    fold first in Hfirst, Hafter.
    destruct (issuedSince_run first.1 "users" ops') as [Hmono _]; [lia|].
    destruct (createUser_id (run first.1 ops') u' salt' now') as [Hlater _]; [lia|].
    fold later in Hlater. lia.
Qed.

(** ** Top products *)

(** With unique transaction ids, the items that pass the [$match] are
    the items of the completed transactions of the tenant, and each is
    paired with the products that have the id it names. *)
Lemma unwound_spec (db : Db) (T : Z) i p :
  NoDup (MongoTransaction.id <$> transactions db) →
  (i, p) ∈ unwound db T
  ↔ i ∈ transactionItems db
    ∧ (∃ t, t ∈ transactions db
            ∧ MongoTransaction.id t = MongoTransactionItem.transactionId i
            ∧ MongoTransaction.businessId t = T
            ∧ MongoTransaction.status t = "completed")
    ∧ p ∈ products db
    ∧ MongoProduct.id p = MongoTransactionItem.productId i.
Proof.
  intros Hnodup. unfold unwound. rewrite list_elem_of_bind.
  assert (∀ j, completedOf T (lookupTransaction db j)
               ↔ ∃ t, t ∈ transactions db
                      ∧ MongoTransaction.id t = MongoTransactionItem.transactionId j
                      ∧ MongoTransaction.businessId t = T
                      ∧ MongoTransaction.status t = "completed") as Hmatch.
  { intros j. unfold completedOf, lookupTransaction, find.
    rewrite !Exists_exists. setoid_rewrite list_elem_of_filter. split.
    - intros [(t1 & (Hid1 & Hin1) & Hb) (t2 & (Hid2 & Hin2) & Hs)].
      assert (t1 = t2) as ->.
      { apply list_elem_of_lookup in Hin1 as [a Ha].
        apply list_elem_of_lookup in Hin2 as [b Hb'].
        assert (a = b) as ->; [|congruence].
        eapply NoDup_lookup; [exact Hnodup| |].
        - rewrite list_lookup_fmap, Ha. reflexivity.
        - rewrite list_lookup_fmap, Hb'. simpl. congruence. }
      eauto.
    - intros (t & Hin & Hid & Hb & Hs). split; exists t; eauto. }
  split.
  - intros (j & Hp & Hj). unfold find in Hj.
    apply list_elem_of_filter in Hj as [Hc Hj].
    apply list_elem_of_fmap in Hp as (q & [= <- <-] & Hq).
    unfold lookupProduct, find in Hq. apply list_elem_of_filter in Hq as [? ?].
    split; [done|]. split; [by apply Hmatch|]. done.
  - intros (Hi & Ht & Hp & Hid). exists i. split.
    + apply list_elem_of_fmap. exists p. split; [done|].
      unfold lookupProduct, find. by apply list_elem_of_filter.
    + unfold find. apply list_elem_of_filter. split; [by apply Hmatch|done].
Qed.

Lemma sumZ_snoc l x : sumZ (l ++ [x]) = sumZ l + x.
Proof. unfold sumZ. induction l as [|y l IH]; simpl; lia. Qed.

Lemma groupOf_accumulate k groups key product quantity total :
  groupOf k (accumulate groups key product quantity total)
  = if decide (k = key)
    then Some (match groupOf k groups with
               | Some g => mkTopGroup (g_id g) (g_product g)
                             (g_soldCount g + quantity) (dadd (g_revenue g) total)
               | None => mkTopGroup key product quantity (dadd dzero total)
               end)
    else groupOf k groups.
Proof.
  unfold groupOf, findOne. induction groups as [|g groups IH].
  - simpl. rewrite filter_cons, filter_nil. simpl.
    destruct (decide (k = key)) as [->|Hne].
    + by destruct (decide (key = key)).
    + by destruct (decide (key = k)).
  - cbn [accumulate]. destruct (decide (g_id g = key)) as [Hg|Hg].
    + rewrite !filter_cons. cbn [g_id].
      destruct (decide (k = key)) as [->|Hne].
      * by destruct (decide (g_id g = key)).
      * destruct (decide (g_id g = k)); [congruence|done].
    + rewrite !filter_cons. destruct (decide (g_id g = k)) as [Hk|Hk].
      * simpl. destruct (decide (k = key)); [congruence|done].
      * apply IH.
Qed.

Lemma ids_accumulate groups key product quantity total :
  g_id <$> accumulate groups key product quantity total
  = if decide (key ∈ g_id <$> groups)
    then g_id <$> groups else (g_id <$> groups) ++ [key].
Proof.
  induction groups as [|g groups IH]; cbn [accumulate].
  - simpl. destruct (decide (key ∈ [])) as [Hin|_]; [|done].
    by apply elem_of_nil in Hin.
  - rewrite fmap_cons.
    destruct (decide (g_id g = key)) as [Hg|Hg].
    + destruct (decide (key ∈ g_id g :: (g_id <$> groups))) as [_|Hnin]; [done|].
      destruct Hnin. rewrite Hg. left.
    + rewrite fmap_cons, IH.
      destruct (decide (key ∈ g_id <$> groups)) as [Hin|Hin];
        destruct (decide (key ∈ g_id g :: (g_id <$> groups))) as [Hin'|Hin'];
        try done.
      * destruct Hin'. by right.
      * apply elem_of_cons in Hin' as [?|?]; [congruence|done].
Qed.

Lemma groupStage_snoc docs (doc : Doc) :
  groupStage (docs ++ [doc])
  = accumulate (groupStage docs) (docKey doc) doc.1.2
               (MongoTransactionItem.quantity doc.1.1) doc.2.
Proof. unfold groupStage. rewrite foldl_snoc. by destruct doc as [[i p] d]. Qed.

(** [$group] computes, for every product, the group of the description. *)
Lemma groupOf_groupStage k docs : groupOf k (groupStage docs) = groupSpec k docs.
Proof.
  induction docs as [|doc docs IH] using rev_ind; [done|].
  rewrite groupStage_snoc, groupOf_accumulate, IH.
  unfold groupSpec, quantityOf, revenueOf, docsOf.
  rewrite filter_app, filter_cons, filter_nil.
  destruct (decide (k = docKey doc)) as [->|Hne].
  - rewrite decide_True by done.
    destruct (filter (λ d, docKey d = docKey doc) docs) as [|first rest] eqn:Hdocs;
      simpl.
    + f_equal. f_equal. lia.
    + f_equal. f_equal.
      * rewrite !fmap_app. simpl.
        change (?x + sumZ ?l) with (sumZ (x :: l)).
        rewrite app_comm_cons, sumZ_snoc. done.
      * rewrite !fmap_app. simpl. by rewrite foldl_snoc.
  - rewrite decide_False by congruence. by rewrite app_nil_r.
Qed.

Lemma NoDup_groupStage docs : NoDup (g_id <$> groupStage docs).
Proof.
  induction docs as [|doc docs IH] using rev_ind; [constructor|].
  rewrite groupStage_snoc, ids_accumulate. case_decide as Hin; [done|].
  apply NoDup_app. split; [done|]. split; [|apply NoDup_singleton].
  intros x Hx ->%list_elem_of_singleton. done.
Qed.

Lemma groupOf_member (groups : list TopGroup) g :
  NoDup (g_id <$> groups) → g ∈ groups → groupOf (g_id g) groups = Some g.
Proof.
  unfold groupOf, findOne. induction groups as [|h groups IH]; intros Hnd Hin.
  - by apply elem_of_nil in Hin.
  - rewrite fmap_cons in Hnd. apply NoDup_cons in Hnd as [Hh Hnd].
    rewrite filter_cons. apply elem_of_cons in Hin as [->|Hin].
    + by rewrite decide_True.
    + rewrite decide_False; [by apply IH|].
      intros Heq. apply Hh. rewrite Heq. apply list_elem_of_fmap. eauto.
Qed.

Lemma groupStage_member docs g :
  g ∈ groupStage docs → groupSpec (g_id g) docs = Some g.
Proof.
  intros Hin. rewrite <- groupOf_groupStage.
  apply groupOf_member; [apply NoDup_groupStage | done].
Qed.

Lemma groupStage_complete docs (doc : Doc) :
  doc ∈ docs → ∃ g, g ∈ groupStage docs ∧ g_id g = docKey doc.
Proof.
  intros Hin.
  destruct (groupOf (docKey doc) (groupStage docs)) as [g|] eqn:Hg.
  - apply findOne_split in Hg as (l1 & l2 & Heq & _ & Hid).
    exists g. split; [|done]. rewrite Heq. apply elem_of_app. right. left.
  - rewrite groupOf_groupStage in Hg. unfold groupSpec, docsOf in Hg.
    assert (doc ∈ filter (λ d, docKey d = docKey doc) docs) as Hf
      by (by apply list_elem_of_filter).
    destruct (filter _ docs); [by apply elem_of_nil in Hf | done].
Qed.

#[local] Instance bySoldCount_total : Total bySoldCount.
Proof. intros a b. unfold bySoldCount. lia. Qed.

#[local] Instance bySoldCount_trans : Transitive bySoldCount.
Proof. intros a b c. unfold bySoldCount. lia. Qed.

Lemma converted_total (db : Db) (T : Z) :
  Forall (λ ip, is_Some (toDouble (MongoTransactionItem.total ip.1))) (unwound db T) →
  ∃ docs, converted db T = Some docs ∧ fst <$> docs = unwound db T.
Proof.
  intros Hall. unfold converted.
  destruct (mapM_is_Some_2
              (λ '(i, p), (λ d, (i, p, d)) <$> toDouble (MongoTransactionItem.total i))
              (unwound db T)) as [docs Hdocs].
  { eapply Forall_impl; [exact Hall|]. intros [i p] [d Hd]. simpl in *.
    rewrite Hd. by eexists. }
  exists docs. split; [done|].
  apply mapM_Some_1 in Hdocs. clear Hall.
  induction Hdocs as [|[i p] doc l k Hx _ IH]; [done|].
  rewrite fmap_cons, IH. f_equal.
  destruct (toDouble (MongoTransactionItem.total i)); by simplify_eq/=.
Qed.

(** When the limit is positive and the totals of the documents that reach
    [$group] are numbers, [getTopProducts] succeeds; its result has at
    most [n] rows, one per product, ordered by [soldCount] descending, and
    no product left out has sold more than a product listed; each row
    carries the sum of [quantity] and the sum of [total] over the
    documents of its product, with the product joined to the first of
    them. *)
Lemma getTopProducts_groups (db : Db) (T n : Z) :
  0 < n →
  Forall (λ ip, is_Some (toDouble (MongoTransactionItem.total ip.1))) (unwound db T) →
  ∃ docs result,
    converted db T = Some docs
    ∧ fst <$> docs = unwound db T
    ∧ getTopProducts db T n = Some result
    ∧ TopProductsRun db T n result
    ∧ (length result ≤ Z.to_nat n)%nat
    ∧ StronglySorted (λ a b, tp_soldCount b ≤ tp_soldCount a) result
    ∧ NoDup (tp__id <$> result)
    ∧ (∀ r, r ∈ result →
         (∃ doc rest, docsOf (tp__id r) docs = doc :: rest ∧ tp_product r = doc.1.2)
         ∧ tp_soldCount r = quantityOf (tp__id r) docs
         ∧ tp_revenue r = doubleToString (revenueOf (tp__id r) docs))
    ∧ (∀ doc r, doc ∈ docs → docKey doc ∉ tp__id <$> result → r ∈ result →
         quantityOf (docKey doc) docs ≤ tp_soldCount r).
Proof.
  intros Hn Hall.
  destruct (converted_total db T Hall) as (docs & Hconv & Hfst).
  set (sorted := merge_sort bySoldCount (groupStage docs)).
  set (top := take (Z.to_nat n) sorted).
  assert (sorted ≡ₚ groupStage docs) as Hperm by apply merge_sort_Permutation.
  assert (StronglySorted bySoldCount sorted) as Hsorted
    by apply (StronglySorted_merge_sort _).
  assert (sorted = top ++ drop (Z.to_nat n) sorted) as Hsplit
    by (subst top; by rewrite take_drop).
  assert (∀ g, g ∈ top → g ∈ groupStage docs) as Htop.
  { intros g Hg. rewrite <- Hperm, Hsplit. apply elem_of_app. by left. }
  assert (∀ g, g ∈ groupStage docs →
               (∃ doc rest, docsOf (g_id g) docs = doc :: rest ∧ g_product g = doc.1.2)
               ∧ g_soldCount g = quantityOf (g_id g) docs
               ∧ g_revenue g = revenueOf (g_id g) docs) as Hgroup.
  { intros g Hg. apply groupStage_member in Hg. unfold groupSpec in Hg.
    destruct (docsOf (g_id g) docs) as [|doc rest] eqn:Hdocs; [done|].
    injection Hg as Hg.
    pose proof (f_equal g_product Hg) as Hp.
    pose proof (f_equal g_soldCount Hg) as Hq.
    pose proof (f_equal g_revenue Hg) as Hr. simpl in Hp, Hq, Hr.
    split; [by exists doc, rest|]. by split. }
  exists docs, (projectTop <$> top).
  split; [done|]. split; [done|]. split.
  { unfold getTopProducts. rewrite decide_False by lia. by rewrite Hconv. }
  split.
  { split; [done|]. exists docs, sorted. repeat split; try done.
    apply Sorted_merge_sort. apply _. }
  split.
  { rewrite length_fmap. subst top. rewrite length_take. lia. }
  split.
  { apply (StronglySorted_fmap _ bySoldCount); [by intros x y|].
    rewrite Hsplit in Hsorted. by apply StronglySorted_app_1_l in Hsorted. }
  split.
  { rewrite <- list_fmap_compose.
    change (tp__id ∘ projectTop) with g_id.
    apply (sublist_NoDup _ (g_id <$> sorted)).
    - rewrite Hperm. apply NoDup_groupStage.
    - apply (fmap_sublist g_id top sorted). subst top. apply sublist_take. }
  split.
  - intros r Hr. apply list_elem_of_fmap in Hr as (g & -> & Hg).
    destruct (Hgroup g (Htop g Hg)) as (Hfirst & Hq & Hrev).
    simpl. rewrite Hrev. done.
  - intros doc r Hdoc Hout Hr.
    apply list_elem_of_fmap in Hr as (g & -> & Hg).
    destruct (groupStage_complete docs doc Hdoc) as (h & Hh & Hid).
    destruct (Hgroup h Hh) as (_ & Hq & _).
    rewrite <- Hid, <- Hq. simpl.
    rewrite <- Hperm, Hsplit in Hh. apply elem_of_app in Hh as [Hh|Hh].
    + destruct Hout. rewrite <- Hid. apply list_elem_of_fmap.
      exists (projectTop h). split; [done|]. apply list_elem_of_fmap. eauto.
    + rewrite Hsplit in Hsorted.
      apply (StronglySorted_app_1_elem_of _ _ _ g h Hsorted Hg Hh).
Qed.

Lemma filter_fmap_comm {A B} (f : A → B) (P : B → Prop)
    `{!∀ y, Decision (P y)} (l : list A) :
  filter P (f <$> l) = f <$> filter (λ x, P (f x)) l.
Proof.
  induction l as [|a l IH]; [done|].
  rewrite fmap_cons, !filter_cons.
  destruct (decide (P (f a))); [rewrite fmap_cons|]; by rewrite IH.
Qed.

(** With unique ids, a filter on the id selects at most one document. *)
Lemma find_unique_key {A} (f : A → Z) (k : Z) (l : list A) :
  NoDup (f <$> l) →
  filter (λ x, f x = k) l = [] ∨ ∃ x, filter (λ x, f x = k) l = [x].
Proof.
  induction l as [|x l IH]; [by left|].
  rewrite fmap_cons. intros [Hx Hnd]%NoDup_cons.
  rewrite filter_cons. destruct (decide (f x = k)) as [Hk|Hk]; [|by apply IH].
  right. exists x. f_equal.
  destruct (filter (λ y, f y = k) l) as [|y r] eqn:Hf; [done|].
  assert (y ∈ filter (λ y, f y = k) l) as Hy by (rewrite Hf; left).
  apply list_elem_of_filter in Hy as [Hyk Hy].
  destruct Hx. rewrite Hk, <- Hyk. apply list_elem_of_fmap. eauto.
Qed.

(** With unique transaction ids, the [$match] of the pipeline selects the
    items of the completed transactions of the business. *)
Lemma completedOf_soldBy (db : Db) (T : Z) (i : MongoTransactionItem.t) :
  NoDup (MongoTransaction.id <$> transactions db) →
  completedOf T (lookupTransaction db i) ↔ soldBy db T i.
Proof.
  intros Hnd. unfold completedOf, soldBy, lookupTransaction, find.
  rewrite !Exists_exists.
  destruct (find_unique_key MongoTransaction.id
              (MongoTransactionItem.transactionId i) (transactions db) Hnd)
    as [Hf|[t Hf]]; rewrite Hf.
  - split.
    + intros [(t & Ht & _) _]. by apply elem_of_nil in Ht.
    + intros (t & Ht & Hid & _).
      assert (t ∈ filter (λ t, MongoTransaction.id t
                               = MongoTransactionItem.transactionId i)
                    (transactions db)) as Hin by (by apply list_elem_of_filter).
      rewrite Hf in Hin. by apply elem_of_nil in Hin.
  - assert (t ∈ transactions db
            ∧ MongoTransaction.id t = MongoTransactionItem.transactionId i)
      as [Ht Hid].
    { assert (t ∈ filter (λ t, MongoTransaction.id t
                               = MongoTransactionItem.transactionId i)
                    (transactions db)) as Hin by (rewrite Hf; left).
      apply list_elem_of_filter in Hin as [? ?]. done. }
    split.
    + intros [(t1 & ->%list_elem_of_singleton & Hb)
              (t2 & ->%list_elem_of_singleton & Hs)].
      exists t. done.
    + intros (t' & Ht' & Hid' & Hb & Hs).
      assert (t' ∈ filter (λ t, MongoTransaction.id t
                                = MongoTransactionItem.transactionId i)
                     (transactions db)) as Hin by (by apply list_elem_of_filter).
      rewrite Hf in Hin. apply list_elem_of_singleton in Hin as ->.
      split; exists t; split; try done; left.
Qed.

(** With unique ids of transactions and of products, the documents that
    reach [$group] are the items sold, one document each, in the order of
    the collection. *)
Lemma unwound_items (db : Db) (T : Z) :
  NoDup (MongoTransaction.id <$> transactions db) →
  NoDup (MongoProduct.id <$> products db) →
  fst <$> unwound db T = soldItems db T.
Proof.
  intros Ht Hp. unfold unwound, soldItems, find.
  induction (transactionItems db) as [|i its IH]; [done|].
  rewrite !filter_cons.
  destruct (decide (completedOf T (lookupTransaction db i))) as [Hc|Hc].
  - cbn [mbind list_bind]. rewrite fmap_app, IH, <- list_fmap_compose.
    unfold lookupProduct, find.
    destruct (find_unique_key MongoProduct.id
                (MongoTransactionItem.productId i) (products db) Hp)
      as [Hf|[p Hf]]; rewrite Hf; simpl.
    + rewrite decide_False; [done|]. intros [_ Hcat].
      unfold inCatalogue in Hcat. apply Exists_exists in Hcat as (p & Hin & Hid).
      assert (p ∈ filter (λ p, MongoProduct.id p
                               = MongoTransactionItem.productId i)
                    (products db)) as Hin' by (by apply list_elem_of_filter).
      rewrite Hf in Hin'. by apply elem_of_nil in Hin'.
    + rewrite decide_True; [done|]. split; [by apply completedOf_soldBy|].
      unfold inCatalogue. apply Exists_exists. exists p.
      assert (p ∈ filter (λ p, MongoProduct.id p
                               = MongoTransactionItem.productId i)
                    (products db)) as Hin by (rewrite Hf; left).
      by apply list_elem_of_filter in Hin as [? ?].
  - rewrite decide_False; [done|]. intros [Hs _]. apply Hc.
    by apply completedOf_soldBy.
Qed.

(** The product of a document is a product of the catalogue with the id
    that the item names. *)
Lemma unwound_product (db : Db) (T : Z) i p :
  (i, p) ∈ unwound db T →
  p ∈ products db ∧ MongoProduct.id p = MongoTransactionItem.productId i.
Proof.
  unfold unwound. intros (j & Hp & Hj)%list_elem_of_bind.
  apply list_elem_of_fmap in Hp as (q & [= <- <-] & Hq).
  unfold lookupProduct, find in Hq. by apply list_elem_of_filter in Hq as [? ?].
Qed.

Lemma converted_Some (db : Db) (T : Z) (docs : list Doc) :
  converted db T = Some docs →
  fst <$> docs = unwound db T
  ∧ Forall (λ doc : Doc,
              toDouble (MongoTransactionItem.total doc.1.1) = Some doc.2) docs.
Proof.
  unfold converted. intros H%mapM_Some_1.
  induction H as [|[i p] doc l k Hx _ [IH1 IH2]]; [done|].
  destruct (toDouble (MongoTransactionItem.total i)) as [d|] eqn:Hd;
    simplify_eq/=.
  split; [by f_equal | by constructor].
Qed.

Lemma totals_of_docs (docs : list Doc) :
  Forall (λ doc : Doc,
            toDouble (MongoTransactionItem.total doc.1.1) = Some doc.2) docs →
  mapM toDouble (MongoTransactionItem.total <$> ((λ doc : Doc, doc.1.1) <$> docs))
  = Some (snd <$> docs).
Proof.
  induction 1 as [|doc l Hd _ IH]; [done|].
  rewrite !fmap_cons. cbn [mapM]. rewrite Hd. cbn. rewrite IH. done.
Qed.


(** ** Tenant scope of the reads *)

(** The reads that query one collection with [businessId] in the filter
    return documents of that business only, and so do the rows of
    [getTransactions] for the transaction itself. *)
Lemma tenant_reads_scoped (db : Db) (T : Z) :
  (∀ id p, getProduct db id T = Some p → MongoProduct.businessId p = T)
  ∧ Forall (λ p, MongoProduct.businessId p = T) (getProducts db T)
  ∧ Forall (λ p, MongoProduct.businessId p = T) (getLowStockProducts db T)
  ∧ (∀ id c, getCustomer db id T = Some c → MongoCustomer.businessId c = T)
  ∧ Forall (λ c, MongoCustomer.businessId c = T) (getCustomers db T)
  ∧ Forall (λ c, MongoCategory.businessId c = T) (getCategories db T)
  ∧ Forall (λ u, MongoUser.businessId u = T) (getEmployees db T)
  ∧ (∀ limit, Forall (λ r, MongoTransaction.businessId (row_transaction r) = T)
                     (getTransactions db T limit)).
Proof.
  repeat split.
  - intros id p Hp. unfold getProduct in Hp.
    apply findOne_split in Hp as (_ & _ & _ & _ & _ & Hb). done.
  - apply Forall_forall. intros p Hp. unfold getProducts, find in Hp.
    apply list_elem_of_filter in Hp as [[Hb _] _]. done.
  - apply Forall_forall. intros p Hp. unfold getLowStockProducts, find in Hp.
    apply list_elem_of_filter in Hp as [[Hb _] _]. done.
  - intros id c Hc. unfold getCustomer in Hc.
    apply findOne_split in Hc as (_ & _ & _ & _ & _ & Hb). done.
  - apply Forall_forall. intros c Hc. unfold getCustomers, find in Hc.
    apply list_elem_of_filter in Hc as [Hb _]. done.
  - apply Forall_forall. intros c Hc. unfold getCategories, find in Hc.
    apply list_elem_of_filter in Hc as [Hb _]. done.
  - apply Forall_forall. intros u Hu. unfold getEmployees, find in Hu.
    apply list_elem_of_fmap in Hu as (v & -> & Hv).
    apply list_elem_of_filter in Hv as [[Hb _] _]. done.
  - intros limit. apply Forall_forall. intros r Hr. unfold getTransactions in Hr.
    apply list_elem_of_fmap in Hr as (t & -> & Ht). simpl.
    assert (t ∈ merge_sort newestFirst
                  (find (λ t, MongoTransaction.businessId t = T) (transactions db)))
      as Hsorted.
    { destruct limit as [[|k]|]; simpl in Ht; try done.
      eapply elem_of_sublist; [exact Ht | apply sublist_take]. }
    rewrite merge_sort_Permutation in Hsorted. unfold find in Hsorted.
    apply list_elem_of_filter in Hsorted as [Hb _]. done.
Qed.

(** ** The invariant on users *)

Lemma seqOf_run_mono (db : Db) (ns : string) (ops : list Op) :
  0 ≤ seqOf db ns → seqOf db ns ≤ seqOf (run db ops) ns.
Proof. intros H. by destruct (issuedSince_run db ns ops H) as [[_ ?] _]. Qed.

Lemma seqOf_exec_mono (db : Db) (ns : string) (op : Op) :
  0 ≤ seqOf db ns → seqOf db ns ≤ seqOf (exec db op) ns.
Proof. apply (seqOf_run_mono db ns [op]). Qed.

Lemma usersWf_frame (db db' : Db) :
  usersWf db →
  seqOf db "users" ≤ seqOf db' "users" →
  sublist (MongoUser.id <$> users db') (MongoUser.id <$> users db) →
  usersWf db'.
Proof.
  intros (Hnd & Hpos & Hle) Hseq Hsub. split; [|split].
  - eapply sublist_NoDup; [exact Hnd|exact Hsub].
  - lia.
  - apply Forall_forall. intros u Hu. rewrite Forall_forall in Hle.
    assert (MongoUser.id u ∈ MongoUser.id <$> users db) as Hid.
    { eapply elem_of_sublist; [|exact Hsub]. apply list_elem_of_fmap. eauto. }
    apply list_elem_of_fmap in Hid as (v & Hv & Hin).
    specialize (Hle v Hin). simpl in Hle. lia.
Qed.

Lemma usersWf_createUser db user salt now :
  usersWf db → usersWf (createUser db user salt now).1.
Proof.
  intros (Hnd & Hpos & Hle). unfold createUser. rewrite getNextId_unfold.
  cbv zeta. unfold usersWf, seqOf in *. simpl. rewrite lookup_insert_eq. simpl.
  assert (inc_seq (counters db) "users" = default 0 (counters db !! "users") + 1)
    as Hinc by (unfold inc_seq; by destruct (counters db !! "users")).
  rewrite Hinc. rewrite decide_False by lia.
  unfold insertOne. rewrite fmap_app. simpl. split; [|split].
  - apply NoDup_app. split; [done|]. split; [|apply NoDup_singleton].
    intros i Hi ->%list_elem_of_singleton.
    apply list_elem_of_fmap in Hi as (u & Hu & Hin).
    rewrite Forall_forall in Hle. specialize (Hle u Hin). lia.
  - lia.
  - apply Forall_app. split.
    + eapply Forall_impl; [exact Hle|]. simpl. intros. lia.
    + constructor; [simpl; lia|constructor].
Qed.

Lemma insertItems_users id items db :
  users (foldl (insertItem id) db items) = users db.
Proof.
  revert db. induction items as [|i items IH]; intros db; simpl; [done|].
  rewrite IH. unfold insertItem. by rewrite getNextId_unfold.
Qed.

Lemma usersWf_exec (db : Db) (op : Op) : usersWf db → usersWf (exec db op).
Proof.
  intros Hwf. pose proof Hwf as (_ & Hpos & _).
  pose proof (seqOf_exec_mono db "users" op Hpos) as Hseq.
  destruct op.
  1-2, 4-10: apply (usersWf_frame db _ Hwf Hseq); unfold exec.
  - by rewrite getNextId_users.
  - unfold getUserByUsernameAndPassword.
    destruct (findOne _ _) as [user|]; [|done].
    destruct (legacyCheck _ _); simpl.
    + by rewrite updateOne_fmap.
    + by destruct (bcryptCheck _ _).
  - unfold updateUserPermissions. simpl.
    destruct (findOne _ _); simpl; by rewrite updateOne_fmap.
  - unfold deleteEmployee.
    pose proof (deleteOne_sublist (deleteEmployeeQuery id businessId) (users db)).
    destruct (deleteOne _ _). simpl in *. by apply fmap_sublist.
  - unfold toggleEmployeeStatus.
    destruct (findOne _ _); simpl; [by rewrite updateOne_fmap | done].
  - unfold createCategory. by rewrite getNextId_unfold.
  - unfold createProduct. by rewrite getNextId_unfold.
  - unfold createCustomer. by rewrite getNextId_unfold.
  - unfold createTransaction. rewrite getNextId_unfold. simpl.
    by rewrite insertItems_users.
  - by apply usersWf_createUser.
  - unfold exec, postEmployees.
    destruct (requireAdmin _); destruct session_user; try done.
    case_decide; [done|].
    destruct (insertUserSchema_parse _ _) as [e|userData]; [done|].
    pose proof (usersWf_createUser db userData salt now Hwf) as Hc.
    by destruct (createUser db userData salt now).
Qed.

(** User ids are unique in every store that the operations build from
    the empty store. *)
Lemma usersWf_run (ops : list Op) (db : Db) : usersWf db → usersWf (run db ops).
Proof.
  revert db. induction ops as [|op ops IH]; intros db H; simpl; [done|].
  apply IH. by apply usersWf_exec.
Qed.

Lemma usersWf_empty : usersWf emptyDb.
Proof. repeat split; [constructor | done | constructor]. Qed.

(** C9.  [deleteEmployee] never removes a user with role ['admin']: any
    sequence of calls leaves the admin users as they were; where ids of
    users are unique, a call with the id of an admin deletes nothing and
    returns [false]; and ids of users are unique in every store that the
    operations build from the empty store. *)
Theorem deleteEmployee_spares_admins (db : Db) :
  (∀ calls, admins (deleteEmployees db calls) = admins db)
  ∧ (∀ u businessId,
       NoDup (MongoUser.id <$> users db) →
       u ∈ users db → MongoUser.role u = "admin" →
       deleteEmployee db (MongoUser.id u) businessId = (db, false))
  ∧ (∀ ops u businessId,
       u ∈ users (run emptyDb ops) → MongoUser.role u = "admin" →
       deleteEmployee (run emptyDb ops) (MongoUser.id u) businessId
       = (run emptyDb ops, false)).
Proof.
  split; [|split].
  - apply deleteEmployees_admins.
  - intros u businessId. apply deleteEmployee_admin_id.
  - intros ops u businessId. apply deleteEmployee_admin_id.
    by destruct (usersWf_run ops emptyDb usersWf_empty) as [Hnodup _].
Qed.

(** ** Listing employees *)

(** X6.  [getEmployees] lists, without their password, the users of the
    business with a role other than ['admin'], all of them, and their
    number is what [getEmployeeCount] returns. *)
Theorem getEmployees_listing (db : Db) (T : Z) :
  Forall (λ u, MongoUser.password u = None
               ∧ MongoUser.role u ≠ "admin"
               ∧ MongoUser.businessId u = T) (getEmployees db T)
  ∧ (∀ u, u ∈ users db → MongoUser.businessId u = T → MongoUser.role u ≠ "admin" →
          withoutPassword u ∈ getEmployees db T)
  ∧ Z.of_nat (length (getEmployees db T)) = getEmployeeCount db T.
Proof.
  unfold getEmployees, getEmployeeCount, countDocuments, find. split; [|split].
  - apply Forall_forall. intros u Hu.
    apply list_elem_of_fmap in Hu as (v & -> & Hv).
    apply list_elem_of_filter in Hv as [[Hb Hr] _]. done.
  - intros u Hin Hb Hr. apply list_elem_of_fmap. exists u. split; [done|].
    by apply list_elem_of_filter.
  - by rewrite length_fmap.
Qed.

(** ** Writes on one user *)

Lemma updateOne_no_match {A} (P : A → Prop) `{!∀ x, Decision (P x)}
    (f : A → A) (l : list A) :
  findOne P l = None → updateOne P f l = l.
Proof.
  unfold findOne. induction l as [|x l IH]; [done|].
  rewrite filter_cons. simpl. destruct (decide (P x)); [done|].
  intros Hnone. by rewrite IH.
Qed.

Lemma set_isActive_same (u : MongoUser.t) :
  MongoUser.set_isActive (MongoUser.isActive u) u = u.
Proof. by destruct u. Qed.

(** X7.  [toggleEmployeeStatus] throws and changes nothing when the business
    has no user with the id; otherwise it returns the user, without
    password, with the status flipped, and a second call restores the
    store and returns the user as it was. *)
Theorem toggleEmployeeStatus_twice (db : Db) (id T : Z) :
  (findOne (userKeyQuery id T) (users db) = None →
   toggleEmployeeStatus db id T = (db, inl (Error "User not found")))
  ∧ (∀ user, findOne (userKeyQuery id T) (users db) = Some user →
       (toggleEmployeeStatus db id T).2
       = inr (MongoUser.set_isActive (negb (MongoUser.isActive user))
                (withoutPassword user))
       ∧ toggleEmployeeStatus (toggleEmployeeStatus db id T).1 id T
         = (db, inr (withoutPassword user))).
Proof.
  unfold toggleEmployeeStatus. split.
  - by intros ->.
  - intros user Hfind. rewrite Hfind. simpl. split; [done|].
    destruct (findOne_split _ _ _ Hfind) as (l1 & l2 & Hl & Hl1 & Hmatch).
    rewrite Hl, updateOne_first by done.
    rewrite findOne_first by done. simpl.
    rewrite updateOne_first by done. rewrite negb_involutive.
    destruct db, user; simpl in *. by subst.
Qed.

(** X8.  [updateUserPermissions] throws and changes nothing when the business
    has no user with the id; otherwise it replaces the permissions of the
    first such user, leaves the rest of the collection as it is, password
    included, and returns that user without password. *)
Theorem updateUserPermissions_one (db : Db) (id T : Z) (p : Permissions.t) :
  (findOne (userKeyQuery id T) (users db) = None →
   updateUserPermissions db id T p = (db, inl (Error "User not found")))
  ∧ (∀ user, findOne (userKeyQuery id T) (users db) = Some user →
       ∃ l1 l2, users db = l1 ++ user :: l2
         ∧ updateUserPermissions db id T p
           = (set_users (l1 ++ MongoUser.set_permissions p user :: l2) db,
              inr (withoutPassword (MongoUser.set_permissions p user)))
         ∧ MongoUser.password (MongoUser.set_permissions p user)
           = MongoUser.password user).
Proof.
  unfold updateUserPermissions. split.
  - intros Hnone. simpl. rewrite updateOne_no_match by done.
    rewrite Hnone. by rewrite set_users_same.
  - intros user Hfind.
    destruct (findOne_split _ _ _ Hfind) as (l1 & l2 & Hl & Hl1 & Hmatch).
    exists l1, l2. split; [done|]. simpl. split; [|done].
    rewrite Hl, updateOne_first by done. by rewrite findOne_first.
Qed.

Lemma updateOne_filter {A} (P Q : A → Prop)
    `{!∀ x, Decision (P x)} `{!∀ x, Decision (Q x)} (f : A → A) (l : list A) :
  (∀ x, P x → ¬ Q x) → (∀ x, P x → ¬ Q (f x)) →
  filter Q (updateOne P f l) = filter Q l.
Proof.
  intros HPQ HPf. induction l as [|x l IH]; simpl; [done|].
  case_decide as HP.
  - rewrite !filter_cons. rewrite decide_False by by apply HPf.
    by rewrite decide_False by by apply HPQ.
  - rewrite !filter_cons. by rewrite IH.
Qed.

(** X9.  The three writes of employee management, called for a business, leave
    the users of every other business as they are. *)
Theorem employee_writes_tenant_scoped (db : Db) (id T : Z) (p : Permissions.t) :
  let others db := filter (λ u, MongoUser.businessId u ≠ T) (users db) in
  others (updateUserPermissions db id T p).1 = others db
  ∧ others (toggleEmployeeStatus db id T).1 = others db
  ∧ others (deleteEmployee db id T).1 = others db.
Proof.
  intros others. subst others. cbv beta. split; [|split].
  - unfold updateUserPermissions. simpl.
    assert (filter (λ u, MongoUser.businessId u ≠ T)
              (updateOne (userKeyQuery id T) (MongoUser.set_permissions p) (users db))
            = filter (λ u, MongoUser.businessId u ≠ T) (users db)) as H.
    { apply updateOne_filter; intros u [_ Hb] Hne; by apply Hne. }
    by destruct (findOne _ _).
  - unfold toggleEmployeeStatus. destruct (findOne _ _) as [user|]; [|done].
    simpl. apply updateOne_filter; intros u [_ Hb] Hne; by apply Hne.
  - unfold deleteEmployee.
    pose proof (deleteOne_filter (deleteEmployeeQuery id T)
                  (λ u, MongoUser.businessId u ≠ T) (users db)) as H.
    destruct (deleteOne _ _) as [us n]. simpl in *. apply H.
    intros u (_ & Hb & _) Hne. by apply Hne.
Qed.

(** ** What a login does to the store *)

Lemma updateOne_set_password P `{!∀ x, Decision (P x)} h (l : list MongoUser.t) :
  withoutPassword <$> updateOne P (MongoUser.set_password h) l
  = withoutPassword <$> l.
Proof. apply updateOne_fmap. by intros []. Qed.

(** X10.  A user returned by [getUserByUsernameAndPassword] is active and has
    the trimmed identifier as username or e-mail; a refused login leaves
    the store as it is; and no login changes anything but [password]
    properties of users. *)
Theorem authenticate_effects (db : Db) (username password salt : string) :
  let r := getUserByUsernameAndPassword db username password salt in
  (∀ u, r.2 = Some u →
        MongoUser.isActive u = true
        ∧ (MongoUser.username u = trim username ∨ MongoUser.email u = trim username))
  ∧ (r.2 = None → r.1 = db)
  ∧ withoutPassword <$> users r.1 = withoutPassword <$> users db
  ∧ r.1 = set_users (users r.1) db.
Proof.
  unfold getUserByUsernameAndPassword.
  destruct (findOne (loginQuery (trim username)) (users db)) as [user|] eqn:Hfind.
  2: { simpl. repeat split; try done. by rewrite set_users_same. }
  destruct (findOne_split _ _ _ Hfind) as (_ & _ & _ & _ & Hid & Hact).
  destruct (legacyCheck password user); simpl.
  - split; [by intros u [= <-]|]. split; [done|].
    split; [apply updateOne_set_password | done].
  - destruct (bcryptCheck password (MongoUser.password user)); simpl.
    + split; [by intros u [= <-]|]. split; [done|].
      split; [done | by rewrite set_users_same].
    + split; [done|]. split; [done|]. split; [done | by rewrite set_users_same].
Qed.

(** ** The three gates *)

(** X5.  [requireAdmin] lets through exactly the sessions of an admin; whoever
    passes it passes [requirePermission] for every capability, and whoever
    passes [requirePermission] passes [requireAuth]; without session user
    the three answer 401. *)
Theorem gates_compose (s : option SessionUser) :
  (requireAdmin s = Next ↔ ∃ user, s = Some user ∧ su_role user = "admin")
  ∧ (requireAdmin s = Next → ∀ c, requirePermission c s = Next)
  ∧ (∀ c, requirePermission c s = Next → requireAuth s = Next)
  ∧ (s = None →
     requireAuth s = Respond (mkResponse 401 (Message "Unauthorized"))
     ∧ requireAdmin s = Respond (mkResponse 401 (Message "Unauthorized"))
     ∧ ∀ c, requirePermission c s
            = Respond (mkResponse 401 (Message "Unauthorized"))).
Proof.
  unfold requireAdmin, requirePermission, requireAuth.
  destruct s as [user|]; [|by repeat split; try done; intros (u & ? & _)].
  destruct (decide (su_role user ≠ "admin")) as [Hne|Heq].
  - repeat split; try done. by intros (u & [= <-] & Hu).
  - assert (su_role user = "admin") as Hadmin
      by (destruct (decide (su_role user = "admin")); [done | by destruct Heq]).
    repeat split; try done; [by exists user|].
    intros _ c. by rewrite bool_decide_eq_true_2.
Qed.

(** ** The employee route, answer by answer *)

(** X17.  [POST /api/employees] answers 200, 400, 401 or 403; with any answer
    but 200 the store is as it was, counters included; with 200 it has
    appended one user of the business of the session, with role
    ['employee'], active, whose permissions are those of the body or,
    when the body has none, all six flags off. *)
Theorem postEmployees_effects
    (db : Db) (session_user : option SessionUser) (body : EmployeeBody)
    (salt : string) (now : Z) :
  let r := postEmployees db session_user body salt now in
  (status r.2 = 200 ∨ status r.2 = 400 ∨ status r.2 = 401 ∨ status r.2 = 403)
  ∧ (status r.2 ≠ 200 → r.1 = db)
  ∧ (status r.2 = 200 →
     ∃ user stored,
       session_user = Some user
       ∧ users r.1 = users db ++ [stored]
       ∧ MongoUser.businessId stored = su_businessId user
       ∧ MongoUser.role stored = "employee"
       ∧ MongoUser.isActive stored = true
       ∧ MongoUser.permissions stored = default noPermissions (eb_permissions body)
       ∧ json r.2 = UserBody (withoutPassword stored)).
Proof.
  unfold postEmployees, requireAdmin.
  destruct session_user as [user|]; [|simpl; by repeat split; auto].
  case_decide as Hrole; [simpl; by repeat split; auto|].
  case_decide as Hcount; [simpl; by repeat split; auto|].
  destruct (insertUserSchema_parse body (su_businessId user)) as [e|userData] eqn:Hparse;
    [simpl; by repeat split; auto|].
  unfold insertUserSchema_parse in Hparse.
  repeat (match type of Hparse with
          | context [?o ≫= _] => destruct o; simpl in Hparse; [|done]
          end).
  injection Hparse as <-.
  unfold createUser. rewrite getNextId_unfold. cbv zeta. simpl.
  split; [by left|]. split; [done|]. intros _.
  eexists user, _. split; [done|]. split; [reflexivity|]. by repeat split.
Qed.

(** ** Creating a transaction *)

Lemma insertItems_spec id items db :
  0 ≤ seqOf db "transactionItems" →
  let db' := foldl (insertItem id) db items in
  transactionItems db'
  = transactionItems db ++ stampedItems (seqOf db "transactionItems") id items
  ∧ seqOf db' "transactionItems"
    = seqOf db "transactionItems" + Z.of_nat (length items)
  ∧ users db' = users db ∧ categories db' = categories db
  ∧ products db' = products db ∧ customers db' = customers db
  ∧ transactions db' = transactions db
  ∧ ∀ ns, ns ≠ "transactionItems" → seqOf db' ns = seqOf db ns.
Proof.
  revert db. induction items as [|item items IH]; intros db Hpos; cbv zeta.
  - simpl. rewrite app_nil_r, Z.add_0_r. by repeat split.
  - change (foldl (insertItem id) db (item :: items))
      with (foldl (insertItem id) (insertItem id db item) items).
    set (db1 := insertItem id db item).
    assert (db1 = mkDb (<["transactionItems" := seqOf db "transactionItems" + 1]> (counters db))
                       (users db) (categories db) (products db) (customers db)
                       (transactions db)
                       (transactionItems db
                        ++ [MongoTransactionItem.stamp (seqOf db "transactionItems" + 1) id item])
                       (issued db ++ [("transactionItems", seqOf db "transactionItems" + 1)]))
      as Hdb1.
    { subst db1. unfold insertItem. by rewrite seqOf_next. }
    assert (seqOf db1 "transactionItems" = seqOf db "transactionItems" + 1) as Hseq1.
    { rewrite Hdb1. unfold seqOf. simpl. by rewrite lookup_insert_eq. }
    destruct (IH db1) as (Hitems & Hseq & Hu & Hc & Hp & Hcu & Ht & Hns); [lia|].
    cbv zeta in *.
    rewrite Hitems, Hseq, Hu, Hc, Hp, Hcu, Ht, Hseq1.
    split; [|split; [simpl length; lia|]].
    + rewrite Hdb1. simpl. rewrite <- app_assoc. f_equal. simpl.
      unfold stampedItems. simpl. f_equal; [f_equal; lia|].
      apply imap_ext. intros k x _. simpl. f_equal. lia.
    + repeat split; try (by rewrite Hdb1).
      intros ns Hne. rewrite Hns by done. rewrite Hdb1. unfold seqOf. simpl.
      by rewrite lookup_insert_ne.
Qed.

Lemma createTransaction_spec
    (db : Db) (t : MongoTransaction.t) (items : list MongoTransactionItem.t) (now : Z) :
  0 ≤ seqOf db "transactions" → 0 ≤ seqOf db "transactionItems" →
  let r := createTransaction db t items now in
  let id := seqOf db "transactions" + 1 in
  r.2 = MongoTransaction.stamp id now t
  ∧ transactions r.1 = transactions db ++ [r.2]
  ∧ transactionItems r.1
    = transactionItems db ++ stampedItems (seqOf db "transactionItems") id items
  ∧ Forall (λ i, MongoTransactionItem.transactionId i = id)
           (stampedItems (seqOf db "transactionItems") id items)
  ∧ length (stampedItems (seqOf db "transactionItems") id items) = length items
  ∧ users r.1 = users db ∧ products r.1 = products db
  ∧ customers r.1 = customers db ∧ categories r.1 = categories db.
Proof.
  intros Ht Hi r id. subst r. unfold createTransaction.
  rewrite seqOf_next by done. cbv zeta. fold id. simpl.
  set (db1 := set_transactions _ _).
  assert (seqOf db1 "transactionItems" = seqOf db "transactionItems") as Hseq.
  { subst db1. unfold seqOf. simpl. by rewrite lookup_insert_ne. }
  destruct (insertItems_spec id items db1) as (Hitems & _ & Hu & Hc & Hp & Hcu & Htx & _);
    [lia|].
  rewrite Hitems, Hu, Hc, Hp, Hcu, Htx, Hseq.
  split; [done|]. split; [done|]. split; [done|]. split.
  { unfold stampedItems. apply Forall_forall. intros i Hin.
    apply list_elem_of_lookup in Hin as [k Hk].
    rewrite list_lookup_imap in Hk.
    destruct (items !! k); simplify_eq/=. done. }
  split; [by unfold stampedItems; rewrite length_imap|]. done.
Qed.

(** X13.  [createTransaction] takes the next id of [transactions] for the
    header, appends the header, and appends one item per item given, in
    order, each with the next id of [transactionItems] and with the id of
    the header as [transactionId], whatever [transactionId] the caller had
    put; with no item the header is stored alone.  No other collection
    changes. *)
Theorem createTransaction_items
    (db : Db) (t : MongoTransaction.t) (items : list MongoTransactionItem.t) (now : Z) :
  0 ≤ seqOf db "transactions" → 0 ≤ seqOf db "transactionItems" →
  let r := createTransaction db t items now in
  let id := seqOf db "transactions" + 1 in
  r.2 = MongoTransaction.stamp id now t
  ∧ transactions r.1 = transactions db ++ [r.2]
  ∧ transactionItems r.1
    = transactionItems db ++ stampedItems (seqOf db "transactionItems") id items
  ∧ Forall (λ i, MongoTransactionItem.transactionId i = id)
           (stampedItems (seqOf db "transactionItems") id items)
  ∧ length (stampedItems (seqOf db "transactionItems") id items) = length items
  ∧ users r.1 = users db ∧ products r.1 = products db
  ∧ customers r.1 = customers db ∧ categories r.1 = categories db.
Proof. apply createTransaction_spec. Qed.

(** ** Creating a product and reading it back *)

Lemma findOne_snoc_miss {A} (P : A → Prop) `{!∀ x, Decision (P x)} (l : list A) x :
  ¬ P x → findOne P (l ++ [x]) = findOne P l.
Proof.
  intros Hx. unfold findOne. rewrite filter_app, filter_cons, filter_nil.
  rewrite decide_False by done. by rewrite app_nil_r.
Qed.

Lemma findOne_none {A} (P : A → Prop) `{!∀ x, Decision (P x)} (l : list A) :
  Forall (λ y, ¬ P y) l → findOne P l = None.
Proof.
  intros Hl. unfold findOne. induction Hl as [|y l Hy _ IH]; [done|].
  by rewrite filter_cons_False.
Qed.

Lemma createProduct_spec (db : Db) (p : MongoProduct.t) (now : Z) :
  idsWf "products" (MongoProduct.id <$> products db) db →
  let r := createProduct db p now in
  r.2 = MongoProduct.stamp (seqOf db "products" + 1) now p
  ∧ getProduct r.1 (MongoProduct.id r.2) (MongoProduct.businessId p) = Some r.2
  ∧ (∀ T, T ≠ MongoProduct.businessId p →
          getProduct r.1 (MongoProduct.id r.2) T = None)
  ∧ (∀ i T, i ≠ MongoProduct.id r.2 → getProduct r.1 i T = getProduct db i T)
  ∧ idsWf "products" (MongoProduct.id <$> products r.1) r.1.
Proof.
  intros (Hnd & Hpos & Hle) r. subst r. unfold createProduct.
  rewrite seqOf_next by done. cbv zeta. simpl.
  set (new := MongoProduct.stamp (seqOf db "products" + 1) now p).
  assert (Forall (λ q, MongoProduct.id q ≠ MongoProduct.id new) (products db)) as Hfresh.
  { apply Forall_forall. intros q Hq Heq. rewrite Forall_forall in Hle.
    assert (MongoProduct.id q ≤ seqOf db "products") as Hq'.
    { apply Hle. apply list_elem_of_fmap. eauto. }
    rewrite Heq in Hq'. subst new. simpl in Hq'. lia. }
  split; [done|]. unfold getProduct, insertOne. simpl. split; [|split; [|split]].
  - apply (findOne_first _ (products db) [] new); [|done].
    eapply Forall_impl; [exact Hfresh|]. by intros q Hq [Hid _].
  - intros T HT. rewrite findOne_snoc_miss by (intros [_ Hb]; by destruct HT).
    apply findOne_none. eapply Forall_impl; [exact Hfresh|]. by intros q Hq [Hid _].
  - intros i T Hi. apply findOne_snoc_miss. intros [Hid _]. by destruct Hi.
  - unfold idsWf, seqOf. simpl. rewrite lookup_insert_eq. simpl.
    fold (seqOf db "products"). rewrite fmap_app. simpl. split; [|split].
    + apply NoDup_app. split; [done|]. split; [|apply NoDup_singleton].
      intros i Hin ->%list_elem_of_singleton.
      rewrite Forall_forall in Hle. specialize (Hle _ Hin). simpl in Hle. lia.
    + lia.
    + apply Forall_app. split.
      * eapply Forall_impl; [exact Hle|]. simpl. intros. lia.
      * constructor; [simpl; lia | constructor].
Qed.

(** X12.  After [createProduct], [getProduct] with the new id and the business
    of the payload returns the product created; with the new id and any
    other business it returns nothing; reads of other ids are as before;
    and the invariant on ids is kept. *)
Theorem createProduct_then_getProduct (db : Db) (p : MongoProduct.t) (now : Z) :
  idsWf "products" (MongoProduct.id <$> products db) db →
  let r := createProduct db p now in
  r.2 = MongoProduct.stamp (seqOf db "products" + 1) now p
  ∧ getProduct r.1 (MongoProduct.id r.2) (MongoProduct.businessId p) = Some r.2
  ∧ (∀ T, T ≠ MongoProduct.businessId p →
          getProduct r.1 (MongoProduct.id r.2) T = None)
  ∧ (∀ i T, i ≠ MongoProduct.id r.2 → getProduct r.1 i T = getProduct db i T)
  ∧ idsWf "products" (MongoProduct.id <$> products r.1) r.1.
Proof. apply createProduct_spec. Qed.

(** ** Creating a user and logging in *)

(** X11.  A user created active, with a username that trimming leaves as it is
    and that no active user of the collection has as username or e-mail,
    logs in with the username and the password of the payload: the login
    returns the stored document, hash included, and changes nothing. *)
Theorem createUser_then_authenticate
    (db : Db) (user : InsertUser.t) (salt salt' : string) (now : Z) :
  InsertUser.isActive user = true →
  trim (InsertUser.username user) = InsertUser.username user →
  Forall (λ u, ¬ loginQuery (InsertUser.username user) u) (users db) →
  bcrypt_compare (InsertUser.password user)
                 (bcrypt_hash (InsertUser.password user) 12 salt) = Some true →
  let r := createUser db user salt now in
  ∃ stored,
    users r.1 = users db ++ [stored]
    ∧ r.2 = withoutPassword stored
    ∧ getUserByUsernameAndPassword r.1 (InsertUser.username user)
        (InsertUser.password user) salt'
      = (r.1, Some stored).
Proof.
  intros Hactive Htrim Hfree Hhash r. subst r.
  unfold createUser. rewrite getNextId_unfold. cbv zeta. simpl.
  eexists. split; [reflexivity|]. split; [reflexivity|].
  unfold getUserByUsernameAndPassword. rewrite Htrim. simpl. unfold insertOne.
  rewrite findOne_first; [|done|by split; [left|]].
  unfold legacyCheck, bcryptCheck. simpl. rewrite Hhash. simpl. done.
Qed.

(** ** Listing transactions *)

#[local] Instance newestFirst_total : Total newestFirst.
Proof. intros a b. unfold newestFirst. lia. Qed.

#[local] Instance newestFirst_trans : Transitive newestFirst.
Proof. intros a b c. unfold newestFirst. lia. Qed.

(** X14.  [getTransactions] returns transactions of the business, newest first;
    without limit, or with limit 0, all of them; with a positive limit, that
    many of the newest (all, when there are fewer): no transaction left
    out is newer than one returned. *)
Theorem getTransactions_listing (db : Db) (T : Z) (limit : option nat) :
  let own := filter (λ t, MongoTransaction.businessId t = T) (transactions db) in
  let rows := row_transaction <$> getTransactions db T limit in
  StronglySorted newestFirst rows
  ∧ (limit = None ∨ limit = Some 0%nat → rows ≡ₚ own)
  ∧ (∀ n, limit = Some (S n) →
          length rows = min (S n) (length own)
          ∧ rows `sublist_of` merge_sort newestFirst own
          ∧ ∀ t r, t ∈ own → t ∉ rows → r ∈ rows → newestFirst r t).
Proof.
  intros own rows.
  assert (rows = limitStage limit (merge_sort newestFirst own)) as Hrows.
  { subst rows. unfold getTransactions. rewrite <- list_fmap_compose.
    by rewrite list_fmap_id. }
  assert (StronglySorted newestFirst (merge_sort newestFirst own)) as Hsorted
    by apply (StronglySorted_merge_sort _).
  pose proof (merge_sort_Permutation newestFirst own) as Hperm.
  rewrite Hrows. split; [|split].
  - destruct limit as [[|n]|]; simpl; try done.
    rewrite <- (take_drop (S n) (merge_sort newestFirst own)) in Hsorted.
    by apply StronglySorted_app_1_l in Hsorted.
  - by intros [->| ->].
  - intros n ->. simpl. split; [|split].
    + rewrite length_take. by rewrite Hperm.
    + apply sublist_take.
    + intros t r Hown Hout Hin.
      rewrite <- Hperm, <- (take_drop (S n) (merge_sort newestFirst own)) in Hown.
      apply elem_of_app in Hown as [Hown|Hown]; [done|].
      rewrite <- (take_drop (S n) (merge_sort newestFirst own)) in Hsorted.
      apply (StronglySorted_app_1_elem_of _ _ _ r t Hsorted Hin Hown).
Qed.

(** ** The dashboard statistics *)

(** X15.  With no completed transaction of the business since the start of the
    day, [getDashboardStats] succeeds, whatever the other transactions
    hold: no transaction, sales of zero, the average ["0.00"] without a
    division, and the number of low-stock products. *)
Theorem getDashboardStats_quiet_day (db : Db) (T today : Z) :
  Forall (λ t, ¬ todayQuery T today t) (transactions db) →
  getDashboardStats db T today
  = Some (mkDashboardStats (toFixed2 dzero) 0 "0.00"
            (Z.of_nat (length (getLowStockProducts db T))) "0.00" "0.00" "0.00").
Proof.
  intros Hnone. unfold getDashboardStats, todayStats, find.
  assert (filter (todayQuery T today) (transactions db) = []) as ->.
  { induction Hnone as [|t l Ht _ IH]; [done|]. by rewrite filter_cons_False. }
  done.
Qed.

Lemma insertItems_frame id items db :
  transactions (foldl (insertItem id) db items) = transactions db
  ∧ products (foldl (insertItem id) db items) = products db.
Proof.
  revert db. induction items as [|i items IH]; intros db; simpl; [done|].
  destruct (IH (insertItem id db i)) as [-> ->].
  unfold insertItem. by rewrite getNextId_unfold.
Qed.

Lemma createTransaction_frame db t items now :
  ∃ id, (createTransaction db t items now).2 = MongoTransaction.stamp id now t
        ∧ transactions (createTransaction db t items now).1
          = transactions db ++ [MongoTransaction.stamp id now t]
        ∧ products (createTransaction db t items now).1 = products db.
Proof.
  unfold createTransaction. rewrite getNextId_unfold. cbv zeta.
  eexists. simpl.
  match goal with
  | |- context [foldl (insertItem ?i) ?d items] =>
      destruct (insertItems_frame i items d) as [-> ->]
  end.
  simpl. repeat split; reflexivity.
Qed.

(** X16.  A transaction that is of another business, or not completed, or
    dated before the start of the day, changes nothing in the statistics
    of the day of a business. *)
Theorem getDashboardStats_other_sales
    (db : Db) (T today : Z) (t : MongoTransaction.t)
    (items : list MongoTransactionItem.t) (now : Z) :
  MongoTransaction.businessId t ≠ T
  ∨ MongoTransaction.status t ≠ "completed"
  ∨ now < today →
  getDashboardStats (createTransaction db t items now).1 T today
  = getDashboardStats db T today.
Proof.
  intros Hother.
  destruct (createTransaction_frame db t items now) as (id & _ & Ht & Hp).
  unfold getDashboardStats, todayStats, getLowStockProducts, find.
  rewrite Ht, Hp. rewrite filter_app, filter_cons, filter_nil.
  rewrite decide_False; [by rewrite app_nil_r|].
  intros (Hb & Hd & Hs). simpl in *. destruct Hother as [?|[?|?]]; [done|done|lia].
Qed.

(** ** The product route *)

(** X19.  [POST /api/products] refuses with 400, 401 or 403 and leaves the store
    as it is, or appends one product and sends it.  The product belongs
    to the business of the session, whatever [businessId] the body
    carries; where ids are unique it is what [getProduct] returns for
    that business; and created without [stock], [lowStockThreshold] and
    [isActive], it has stock 0 and threshold 5 and is listed as low on
    stock at once. *)
Theorem postProducts_effects
    (db : Db) (session_user : option SessionUser) (body : ProductBody) (now : Z) :
  let r := postProducts db session_user body now in
  (∀ resp, r.2 = Refuse resp →
     r.1 = db ∧ (status resp = 400 ∨ status resp = 401 ∨ status resp = 403))
  ∧ (∀ p, r.2 = Deliver p →
       ∃ user,
         session_user = Some user
         ∧ requirePermission Permission.inventory session_user = Next
         ∧ products r.1 = products db ++ [p]
         ∧ MongoProduct.businessId p = su_businessId user
         ∧ pb_name body = Some (MongoProduct.name p)
         ∧ (idsWf "products" (MongoProduct.id <$> products db) db →
            getProduct r.1 (MongoProduct.id p) (su_businessId user) = Some p)
         ∧ (pb_stock body = None → pb_lowStockThreshold body = None →
            pb_isActive body = None →
            MongoProduct.stock p = 0 ∧ MongoProduct.lowStockThreshold p = 5
            ∧ p ∈ getLowStockProducts r.1 (su_businessId user))).
Proof.
  unfold postProducts, guarded, requireAuth.
  destruct session_user as [user|]; cbn [fst snd].
  2: { split; [intros resp [= <-]; auto | intros p [=]]. }
  destruct (requirePermission Permission.inventory (Some user)) as [|resp0] eqn:Hgate;
    cbn [fst snd].
  2: { split; [|intros p [=]]. intros resp [= <-]. split; [done|].
       unfold requirePermission in Hgate.
       destruct (_ || _); [done|]. injection Hgate as <-. auto. }
  destruct (insertProductSchema_parse body (su_businessId user)) as [e|productData] eqn:Hparse;
    cbn [fst snd].
  { split; [intros resp [= <-]; auto | intros p [=]]. }
  unfold insertProductSchema_parse in Hparse.
  destruct (minString 1 (pb_name body)) as [name|] eqn:Hname; simpl in Hparse; [|done].
  destruct (pb_price body) as [price|]; simpl in Hparse; [|done].
  injection Hparse as <-.
  assert (pb_name body = Some name) as Hname'.
  { unfold minString in Hname. destruct (pb_name body) as [n|]; simpl in Hname; [|done].
    case_decide; by simplify_eq. }
  set (productData := MongoProduct.mk _ _ _ _ _ _ _ _ _ _ _ _ _).
  pose proof (createProduct_spec db productData now) as Hround.
  unfold createProduct in *. rewrite getNextId_unfold in *. cbv zeta in *.
  simpl in *. split; [done|]. intros p [= <-].
  exists user. split; [done|]. split; [done|]. split; [done|]. split; [done|].
  split; [done|]. split.
  - intros Hwf. destruct (Hround Hwf) as (_ & Hget & _). exact Hget.
  - intros Hs Ht Ha. subst productData. simpl. rewrite Hs, Ht, Ha. simpl.
    split; [done|]. split; [done|].
    unfold getLowStockProducts, find. simpl. unfold insertOne.
    rewrite filter_app, filter_cons_True by (simpl; split; [done|split; [done|lia]]).
    apply elem_of_app. right. left.
Qed.

(** ** The transaction route *)

Lemma postTransactions_accepted
    (db : Db) (session_user : option SessionUser) (transaction : TransactionBody)
    (items : option (list MongoTransactionItem.t)) (now created : Z) :
  let r := postTransactions db session_user transaction items now created in
  (∀ t, r.2 = Deliver t →
     ∃ user its,
       session_user = Some user ∧ items = Some its
       ∧ MongoTransaction.businessId t = su_businessId user
       ∧ MongoTransaction.userId t = su_id user
       ∧ MongoTransaction.transactionNumber t = transactionNumberAt now
       ∧ MongoTransaction.createdAt t = created
       ∧ (tb_status transaction = None → MongoTransaction.status t = "completed")
       ∧ transactions r.1 = transactions db ++ [t]
       ∧ (0 ≤ seqOf db "transactions" → 0 ≤ seqOf db "transactionItems" →
          transactionItems r.1
          = transactionItems db
            ++ stampedItems (seqOf db "transactionItems") (MongoTransaction.id t) its))
  ∧ (∀ resp, r.2 = Refuse resp →
       (status resp = 400 ∨ status resp = 401 ∨ status resp = 403)
       ∧ (items ≠ None → r.1 = db))
  ∧ (∀ user data,
       session_user = Some user →
       requirePermission Permission.pos session_user = Next →
       insertTransactionSchema_parse transaction (su_businessId user) (su_id user)
         (transactionNumberAt now) = inr data →
       items = None →
       ∃ header,
         r.2 = Refuse (mkResponse 400 (ErrorMessage (Error "items is not iterable")))
         ∧ transactions r.1 = transactions db ++ [header]
         ∧ MongoTransaction.businessId header = su_businessId user
         ∧ transactionItems r.1 = transactionItems db).
Proof.
  unfold postTransactions, guarded, requireAuth.
  destruct session_user as [user|]; cbn [fst snd].
  2: { split; [intros t [=]|]. split; [intros resp [= <-]; auto|]. by intros. }
  destruct (requirePermission Permission.pos (Some user)) as [|resp0] eqn:Hgate;
    cbn [fst snd].
  2: { split; [intros t [=]|]. split; [|by intros].
       intros resp [= <-]. split; [|done].
       unfold requirePermission in Hgate.
       destruct (_ || _); [done|]. injection Hgate as <-. auto. }
  destruct (insertTransactionSchema_parse transaction (su_businessId user)
              (su_id user) (transactionNumberAt now)) as [e|data] eqn:Hparse;
    cbn [fst snd].
  { split; [intros t [=]|]. split; [intros resp [= <-]; auto|].
    intros user' data' [= <-] _ Hp. by rewrite Hparse in Hp. }
  assert (MongoTransaction.businessId data = su_businessId user
          ∧ MongoTransaction.userId data = su_id user
          ∧ MongoTransaction.transactionNumber data = transactionNumberAt now
          ∧ (tb_status transaction = None → MongoTransaction.status data = "completed"))
    as (Hb & Hu & Hn & Hs).
  { unfold insertTransactionSchema_parse in Hparse.
    repeat (match type of Hparse with
            | context [?o ≫= _] => destruct o; simpl in Hparse; [|done]
            end).
    injection Hparse as <-. simpl. repeat split. by intros ->. }
  destruct items as [its|].
  - destruct (createTransaction_frame db data its created) as (id & Hres & Htx & _).
    pose proof (createTransaction_spec db data its created) as Hspec.
    destruct (createTransaction db data its created) as [db' t'] eqn:Hcreate.
    cbn [fst snd] in *. split; [|split; [intros resp [=] | by intros]].
    intros t [= <-]. exists user, its. rewrite Hres. simpl.
    split; [done|]. split; [done|]. split; [done|]. split; [done|].
    split; [done|]. split; [done|]. split; [done|]. split; [done|].
    intros H1 H2. destruct (Hspec H1 H2) as (Ht' & _ & Hitems & _).
    rewrite Hitems. rewrite Ht' in Hres. by injection Hres as <-.
  - destruct (createTransaction_frame db data [] created) as (id & _ & Htx & _).
    split; [intros t [=]|]. split; [intros resp [= <-]; split; [auto | done]|].
    intros user' data' [= <-] _ Hp _. rewrite Hparse in Hp. injection Hp as <-.
    eexists.
    split; [done|]. split; [exact Htx|]. split; [done|].
    unfold createTransaction. by rewrite getNextId_unfold.
Qed.


Lemma postTransactions_refused
    (db : Db) (session_user : option SessionUser) (transaction : TransactionBody)
    (items : option (list MongoTransactionItem.t)) (now created : Z) :
  let r := postTransactions db session_user transaction items now created in
  ((guarded Permission.pos session_user ≠ Next
    ∨ ∃ user e,
        session_user = Some user
        ∧ insertTransactionSchema_parse transaction (su_businessId user)
            (su_id user) (transactionNumberAt now) = inl e) →
   r.1 = db ∧ ∃ resp, r.2 = Refuse resp)
  ∧ (r.1 ≠ db →
     ∃ user data,
       session_user = Some user
       ∧ guarded Permission.pos session_user = Next
       ∧ insertTransactionSchema_parse transaction (su_businessId user)
           (su_id user) (transactionNumberAt now) = inr data).
Proof.
  unfold postTransactions.
  destruct (guarded Permission.pos session_user) as [|resp0] eqn:Hgate.
  2: { cbn. split; [intros _; eauto|]. intros H. by destruct H. }
  destruct session_user as [user|]; [|done].
  destruct (insertTransactionSchema_parse transaction (su_businessId user)
              (su_id user) (transactionNumberAt now)) as [e|data] eqn:Hparse.
  - cbn. split; [intros _; eauto|]. intros H. by destruct H.
  - split.
    + intros [Hne|(user' & e & [= <-] & He)]; [by destruct Hne|].
      rewrite Hparse in He. discriminate.
    + intros _. by exists user, data.
Qed.

(** X20.  [POST /api/transactions] sends the transaction it has stored, which
    has the business and the user of the session and the number made from
    the clock, whatever the body carries for them, and the status
    ['completed'] when the body has none.  A request refused by the gates
    or by the schema leaves the store as it is, with or without items; a
    request with a valid transaction but no items is answered 400 after
    the header has been stored, without items; the store changes for no
    other request than one that passed the gates and the schema. *)
Theorem postTransactions_effects
    (db : Db) (session_user : option SessionUser) (transaction : TransactionBody)
    (items : option (list MongoTransactionItem.t)) (now created : Z) :
  let r := postTransactions db session_user transaction items now created in
  (∀ t, r.2 = Deliver t →
     ∃ user its,
       session_user = Some user ∧ items = Some its
       ∧ MongoTransaction.businessId t = su_businessId user
       ∧ MongoTransaction.userId t = su_id user
       ∧ MongoTransaction.transactionNumber t = transactionNumberAt now
       ∧ MongoTransaction.createdAt t = created
       ∧ (tb_status transaction = None → MongoTransaction.status t = "completed")
       ∧ transactions r.1 = transactions db ++ [t]
       ∧ (0 ≤ seqOf db "transactions" → 0 ≤ seqOf db "transactionItems" →
          transactionItems r.1
          = transactionItems db
            ++ stampedItems (seqOf db "transactionItems") (MongoTransaction.id t) its))
  ∧ (∀ resp, r.2 = Refuse resp →
       (status resp = 400 ∨ status resp = 401 ∨ status resp = 403)
       ∧ (items ≠ None → r.1 = db))
  ∧ (∀ user data,
       session_user = Some user →
       requirePermission Permission.pos session_user = Next →
       insertTransactionSchema_parse transaction (su_businessId user) (su_id user)
         (transactionNumberAt now) = inr data →
       items = None →
       ∃ header,
         r.2 = Refuse (mkResponse 400 (ErrorMessage (Error "items is not iterable")))
         ∧ transactions r.1 = transactions db ++ [header]
         ∧ MongoTransaction.businessId header = su_businessId user
         ∧ transactionItems r.1 = transactionItems db)
  ∧ ((guarded Permission.pos session_user ≠ Next
      ∨ ∃ user e,
          session_user = Some user
          ∧ insertTransactionSchema_parse transaction (su_businessId user)
              (su_id user) (transactionNumberAt now) = inl e) →
     r.1 = db ∧ ∃ resp, r.2 = Refuse resp)
  ∧ (r.1 ≠ db →
     ∃ user data,
       session_user = Some user
       ∧ guarded Permission.pos session_user = Next
       ∧ insertTransactionSchema_parse transaction (su_businessId user)
           (su_id user) (transactionNumberAt now) = inr data).
Proof.
  intros r.
  destruct (postTransactions_accepted db session_user transaction items now created)
    as (Hsent & Hrefused & Hnoitems).
  destruct (postTransactions_refused db session_user transaction items now created)
    as (Hgates & Hchanged).
  split; [exact Hsent|]. split; [exact Hrefused|]. split; [exact Hnoitems|].
  split; [exact Hgates | exact Hchanged].
Qed.

(** ** The employees page and the route *)

(** X21.  For an admin, the page and the route agree: when the page shows fewer
    than ten employees and its form accepts the values, the route creates
    the employee; when the page shows ten or more, the route refuses with
    the message on the limit and changes nothing. *)
Theorem employees_page_agrees_with_route
    (db : Db) (user : SessionUser) (form : EmployeeForm) (salt : string) (now : Z) :
  su_role user = "admin" →
  (canAddEmployee (getEmployees db (su_businessId user)) = true →
   addEmployeeSchema_accepts form = true →
   status (postEmployees db (Some user) (bodyOfForm form) salt now).2 = 200)
  ∧ (canAddEmployee (getEmployees db (su_businessId user)) = false →
     ∀ body, postEmployees db (Some user) body salt now
             = (db, mkResponse 400 (Message "Maximum of 10 employees allowed"))).
Proof.
  intros Hadmin.
  assert (Z.of_nat (length (getEmployees db (su_businessId user)))
          = getEmployeeCount db (su_businessId user)) as Hlen.
  { unfold getEmployees, getEmployeeCount, countDocuments, find.
    by rewrite length_fmap. }
  unfold canAddEmployee, postEmployees, requireAdmin.
  rewrite decide_False by (intros H; by apply H). split.
  - intros Hcan Hform. apply bool_decide_eq_true in Hcan.
    rewrite decide_False by lia.
    unfold addEmployeeSchema_accepts in Hform.
    repeat (apply andb_true_iff in Hform as [Hform ?]).
    repeat match goal with
           | H : bool_decide _ = true |- _ => apply bool_decide_eq_true in H
           end.
    unfold insertUserSchema_parse, bodyOfForm, minString. simpl.
    rewrite !decide_True by lia. simpl.
    rewrite option_guard_True by done. simpl. done.
  - intros Hcan body. apply bool_decide_eq_false in Hcan.
    by rewrite decide_True by lia.
Qed.

(** ** A change of permissions on the employees page *)

Lemma findOne_unique_id (l : list MongoUser.t) u T :
  NoDup (MongoUser.id <$> l) → u ∈ l → MongoUser.businessId u = T →
  findOne (userKeyQuery (MongoUser.id u) T) l = Some u.
Proof.
  intros Hnd Hin Hb. induction l as [|x l IH]; [by apply elem_of_nil in Hin|].
  rewrite fmap_cons in Hnd. apply NoDup_cons in Hnd as [Hx Hnd].
  unfold findOne. rewrite filter_cons.
  apply elem_of_cons in Hin as [<-|Hin].
  - by rewrite decide_True.
  - rewrite decide_False; [by apply IH|].
    intros [Hid _]. apply Hx. rewrite Hid. apply list_elem_of_fmap. eauto.
Qed.

Lemma get_withFlag_same p c value : Permissions.get (withFlag p c value) c = value.
Proof. by destruct c. Qed.

Lemma get_withFlag_other p c c' value :
  c' ≠ c → Permissions.get (withFlag p c value) c' = Permissions.get p c'.
Proof. by destruct c, c'. Qed.

(** X22.  When the admin switches a capability of an employee that the page
    lists, in a store with unique user ids, [handlePermissionChange]
    sends the permissions shown with that one flag replaced, and
    [updateUserPermissions] stores them on the employee listed.  A
    session opened from the stored employee afterwards passes
    [requirePermission] for the capability exactly when the switch was
    put on, and is gated for every other capability as it was. *)
Theorem permission_switch_reaches_gate
    (db : Db) (T : Z) (shown : MongoUser.t) (c : Permission.t) (value : bool) :
  NoDup (MongoUser.id <$> users db) →
  shown ∈ getEmployees db T →
  let newPermissions := withFlag (MongoUser.permissions shown) c value in
  let r := updateUserPermissions db (MongoUser.id shown) T newPermissions in
  ∃ before after,
    before ∈ users db ∧ shown = withoutPassword before
    ∧ after = MongoUser.set_permissions newPermissions before
    ∧ r.2 = inr (withoutPassword after)
    ∧ findOne (userKeyQuery (MongoUser.id shown) T) (users r.1) = Some after
    ∧ (requirePermission c (Some (sessionOf after)) = Next ↔ value = true)
    ∧ (∀ c', c' ≠ c →
         requirePermission c' (Some (sessionOf after))
         = requirePermission c' (Some (sessionOf before))).
Proof.
  intros Hnd Hin newPermissions r. subst r.
  unfold getEmployees, find in Hin.
  apply list_elem_of_fmap in Hin as (u & -> & Hu).
  apply list_elem_of_filter in Hu as [[Hb Hr] Hu].
  assert (MongoUser.id (withoutPassword u) = MongoUser.id u) as Hid by by destruct u.
  assert (MongoUser.permissions (withoutPassword u) = MongoUser.permissions u)
    as Hperm by by destruct u.
  rewrite Hid. subst newPermissions. rewrite Hperm.
  pose proof (findOne_unique_id (users db) u T Hnd Hu Hb) as Hfind.
  destruct (findOne_split _ _ _ Hfind) as (l1 & l2 & Hl & Hl1 & HP).
  exists u, (MongoUser.set_permissions (withFlag (MongoUser.permissions u) c value) u).
  split; [done|]. split; [done|]. split; [done|].
  unfold updateUserPermissions. simpl.
  rewrite Hl, updateOne_first by done.
  rewrite findOne_first by done. simpl.
  split; [done|]. split; [by apply findOne_first|].
  unfold requirePermission, hasFlag. simpl.
  rewrite bool_decide_eq_false_2 by done. simpl. split.
  - rewrite get_withFlag_same. by destruct value.
  - intros c' Hc'. by rewrite get_withFlag_other.
Qed.

(** ** Deleting an employee through the route *)

Lemma deleteOne_cases {A} (P : A → Prop) `{!∀ x, Decision (P x)} (l : list A) :
  (Forall (λ x, ¬ P x) l ∧ deleteOne P l = (l, 0))
  ∨ (∃ l1 x l2, l = l1 ++ x :: l2 ∧ Forall (λ y, ¬ P y) l1 ∧ P x
                ∧ deleteOne P l = (l1 ++ l2, 1)).
Proof.
  induction l as [|y l IH]; simpl; [by left|].
  case_decide as Hy.
  - right. by exists [], y, l.
  - destruct IH as [[Hl ->]|(l1 & x & l2 & -> & Hl1 & Hx & ->)].
    + left. split; [by constructor | done].
    + right. exists (y :: l1), x, l2. split; [done|].
      split; [by constructor | done].
Qed.

(** X18.  [DELETE /api/employees/:id] answers 200, 401, 403 or 404; with any
    answer but 200 the store is as it was; with 200 it has removed one
    user, who had the id of the request and the business of the session
    and was no admin, so the business counts one employee less; and a
    business that stood at the limit of ten can add a valid employee
    again. *)
Theorem deleteEmployeeRoute_effects
    (db : Db) (session_user : option SessionUser) (employeeId : option Z) :
  let r := deleteEmployeeRoute db session_user employeeId in
  (status r.2 = 200 ∨ status r.2 = 401 ∨ status r.2 = 403 ∨ status r.2 = 404)
  ∧ (status r.2 ≠ 200 → r.1 = db)
  ∧ (status r.2 = 200 →
     ∃ user id l1 victim l2,
       session_user = Some user ∧ su_role user = "admin"
       ∧ employeeId = Some id
       ∧ users db = l1 ++ victim :: l2
       ∧ r.1 = set_users (l1 ++ l2) db
       ∧ MongoUser.id victim = id
       ∧ MongoUser.businessId victim = su_businessId user
       ∧ MongoUser.role victim ≠ "admin"
       ∧ getEmployeeCount r.1 (su_businessId user)
         = getEmployeeCount db (su_businessId user) - 1
       ∧ (getEmployeeCount db (su_businessId user) ≤ 10 →
          ∀ body userData salt now,
            insertUserSchema_parse body (su_businessId user) = inr userData →
            status (postEmployees r.1 session_user body salt now).2 = 200)).
Proof.
  unfold deleteEmployeeRoute, requireAdmin.
  destruct session_user as [user|]; [|simpl; by repeat split; auto].
  case_decide as Hrole; [simpl; by repeat split; auto|].
  assert (su_role user = "admin") as Hadmin
    by (destruct (decide (su_role user = "admin")); [done | by destruct Hrole]).
  destruct employeeId as [id|]; [|simpl; by repeat split; auto].
  unfold deleteEmployee.
  destruct (deleteOne_cases (deleteEmployeeQuery id (su_businessId user)) (users db))
    as [[_ ->]|(l1 & victim & l2 & Hl & Hl1 & (Hid & Hb & Hr) & ->)]; simpl.
  { rewrite set_users_same. by repeat split; auto. }
  split; [by left|]. split; [done|]. intros _.
  exists user, id, l1, victim, l2.
  split; [done|]. split; [done|]. split; [done|]. split; [done|].
  split; [done|]. split; [done|]. split; [done|]. split; [done|].
  assert (getEmployeeCount (set_users (l1 ++ l2) db) (su_businessId user)
          = getEmployeeCount db (su_businessId user) - 1) as Hcount.
  { unfold getEmployeeCount, countDocuments. simpl. rewrite Hl.
    rewrite !filter_app, filter_cons_True by done.
    rewrite !length_app. simpl. lia. }
  split; [exact Hcount|].
  intros Hmax body userData salt now Hparse.
  unfold postEmployees, requireAdmin. rewrite decide_False by (intros H; by apply H).
  rewrite Hcount. rewrite decide_False by lia. rewrite Hparse.
  by destruct (createUser _ _ _ _).
Qed.

(** ** Ids in the stores that the operations build *)

Lemma idsWf_mono ns ids ids' db db' :
  idsWf ns ids db → ids' `sublist_of` ids → seqOf db ns ≤ seqOf db' ns →
  idsWf ns ids' db'.
Proof.
  intros (Hnd & Hpos & Hle) Hsub Hseq. split; [|split].
  - eapply sublist_NoDup; [exact Hnd | exact Hsub].
  - lia.
  - apply Forall_forall. intros i Hi. rewrite Forall_forall in Hle.
    specialize (Hle i (elem_of_sublist _ _ _ Hi Hsub)). simpl in Hle. lia.
Qed.

Lemma idsWf_seqZ ns ids db db' n :
  idsWf ns ids db → 0 ≤ n → seqOf db' ns = seqOf db ns + n →
  idsWf ns (ids ++ seqZ (seqOf db ns + 1) n) db'.
Proof.
  intros (Hnd & Hpos & Hle) Hn Hseq. split; [|split].
  - apply NoDup_app. split; [done|]. split; [|apply NoDup_seqZ].
    intros i Hi Hi'%elem_of_seqZ. rewrite Forall_forall in Hle.
    specialize (Hle i Hi). simpl in Hle. lia.
  - lia.
  - apply Forall_app. split.
    + eapply Forall_impl; [exact Hle|]. simpl. intros. lia.
    + apply Forall_seqZ. intros. lia.
Qed.

Lemma idsWf_snoc ns ids db db' :
  idsWf ns ids db → seqOf db' ns = seqOf db ns + 1 →
  idsWf ns (ids ++ [seqOf db ns + 1]) db'.
Proof.
  intros Hwf Hseq.
  replace [seqOf db ns + 1] with (seqZ (seqOf db ns + 1) 1)
    by (by rewrite seqZ_cons, seqZ_nil by lia).
  apply idsWf_seqZ; [done | lia | done].
Qed.

Lemma stampedItems_ids seq id items :
  MongoTransactionItem.id <$> stampedItems seq id items
  = seqZ (seq + 1) (Z.of_nat (length items)).
Proof.
  unfold stampedItems. revert seq. induction items as [|i items IH]; intros seq.
  - by rewrite seqZ_nil.
  - rewrite imap_cons, fmap_cons. cbn [length].
    rewrite seqZ_cons by lia. f_equal; [simpl; lia|].
    replace (Z.pred (Z.of_nat (S (length items)))) with (Z.of_nat (length items))
      by lia.
    replace (Z.succ (seq + 1)) with ((seq + 1) + 1) by lia.
    rewrite <- (IH (seq + 1)). f_equal.
    apply imap_ext. intros k x _. simpl. f_equal. lia.
Qed.

(** The namespaces of the collections. *)
Lemma seqOf_insert db ns ns' v (us : list MongoUser.t) cs ps cus ts its log :
  seqOf (mkDb (<[ns' := v]> (counters db)) us cs ps cus ts its log) ns
  = if decide (ns' = ns) then v else seqOf db ns.
Proof.
  unfold seqOf. simpl. destruct (decide (ns' = ns)) as [->|Hne].
  - by rewrite lookup_insert_eq.
  - by rewrite lookup_insert_ne.
Qed.

Ltac split6 := split; [|split; [|split; [|split; [|split]]]].

(** An operation that adds no document keeps the invariant. *)
Lemma storeWf_frame db op :
  storeWf db →
  MongoUser.id <$> users (exec db op) `sublist_of` MongoUser.id <$> users db →
  categories (exec db op) = categories db →
  products (exec db op) = products db →
  customers (exec db op) = customers db →
  transactions (exec db op) = transactions db →
  transactionItems (exec db op) = transactionItems db →
  storeWf (exec db op).
Proof.
  intros (Hu & Hc & Hp & Hcu & Ht & Hi) Hus Hcs Hps Hcus Hts His.
  unfold storeWf. rewrite Hcs, Hps, Hcus, Hts, His.
  split6;
    (eapply idsWf_mono;
     [eassumption | first [assumption | reflexivity] | apply seqOf_exec_mono]);
    match goal with
    | H : idsWf ?ns _ db |- 0 ≤ seqOf db ?ns => by destruct H as (_ & ? & _)
    end.
Qed.

(** Allocating an id in a namespace and appending a document with that id
    to the collection of the namespace keeps the invariant of the
    collection; the other collections are not concerned. *)
Ltac wf_same :=
  eapply idsWf_mono; [eassumption | reflexivity |];
  rewrite seqOf_insert; case_decide; [discriminate | lia].

Ltac wf_new :=
  rewrite fmap_app; simpl; apply idsWf_snoc; [assumption|];
  rewrite seqOf_insert; by rewrite decide_True.

Lemma storeWf_createUser db user salt now :
  storeWf db → storeWf (createUser db user salt now).1.
Proof.
  intros (Hu & Hc & Hp & Hcu & Ht & Hi).
  pose proof Hu as (_ & Hpos & _).
  unfold createUser. rewrite seqOf_next by done. cbv zeta. unfold insertOne, set_users, storeWf. simpl.
  split6; [wf_new | wf_same..].
Qed.

Lemma storeWf_exec db op : storeWf db → storeWf (exec db op).
Proof.
  intros Hwf. pose proof Hwf as (Hu & Hc & Hp & Hcu & Ht & Hi).
  destruct op.
  - apply storeWf_frame; try done; unfold exec; by rewrite getNextId_unfold.
  - apply storeWf_frame; try done; unfold exec, getUserByUsernameAndPassword;
      destruct (findOne _ _) as [user|]; try done;
      destruct (legacyCheck _ _); simpl; try done;
      try (by destruct (bcryptCheck _ _)).
    by rewrite updateOne_fmap.
  - by apply storeWf_createUser.
  - apply storeWf_frame; try done; unfold exec, updateUserPermissions; simpl;
      destruct (findOne _ _); simpl; try done; by rewrite updateOne_fmap.
  - apply storeWf_frame; try done; unfold exec, deleteEmployee;
      pose proof (deleteOne_sublist (deleteEmployeeQuery id businessId) (users db));
      destruct (deleteOne _ _); simpl in *; try done.
    by apply fmap_sublist.
  - apply storeWf_frame; try done; unfold exec, toggleEmployeeStatus;
      destruct (findOne _ _); simpl; try done. by rewrite updateOne_fmap.
  - pose proof Hc as (_ & Hpos & _).
    unfold exec, createCategory. rewrite seqOf_next by done. cbv zeta.
    unfold insertOne, set_categories, set_products, set_customers, storeWf. simpl.
    split6; [wf_same | wf_new | wf_same..].
  - pose proof Hp as (_ & Hpos & _).
    unfold exec, createProduct. rewrite seqOf_next by done. cbv zeta.
    unfold insertOne, set_categories, set_products, set_customers, storeWf. simpl.
    split6; [wf_same | wf_same | wf_new | wf_same..].
  - pose proof Hcu as (_ & Hpos & _).
    unfold exec, createCustomer. rewrite seqOf_next by done. cbv zeta.
    unfold insertOne, set_categories, set_products, set_customers, storeWf. simpl.
    split6; [wf_same | wf_same | wf_same | wf_new | wf_same..].
  - pose proof Ht as (_ & Hpos & _). pose proof Hi as (_ & Hposi & _).
    destruct (createTransaction_spec db transaction items now Hpos Hposi)
      as (Hres & Htx & Hits & _ & _ & Hus & Hps & Hcus & Hcs).
    assert (seqOf (exec db (OpCreateTransaction transaction items now)) "transactions"
            = seqOf db "transactions" + 1
            ∧ seqOf (exec db (OpCreateTransaction transaction items now)) "transactionItems"
              = seqOf db "transactionItems" + Z.of_nat (length items)) as [Hs1 Hs2].
    { unfold exec, createTransaction. rewrite seqOf_next by done. cbv zeta.
      match goal with
      | |- context [foldl (insertItem ?i) ?d items] =>
          destruct (insertItems_spec i items d) as (_ & Hseq & _ & _ & _ & _ & _ & Hns)
      end.
      { unfold set_transactions. simpl. rewrite seqOf_insert. by rewrite decide_False. }
      simpl in *. rewrite Hseq. rewrite Hns by done.
      unfold set_transactions. simpl. rewrite !seqOf_insert.
      rewrite decide_True by done. by rewrite decide_False by done. }
    unfold exec. split6.
    + rewrite Hus. destruct Hu as (? & ? & ?).
      eapply idsWf_mono; [by split | reflexivity |].
      by apply (seqOf_exec_mono db "users" (OpCreateTransaction transaction items now)).
    + rewrite Hcs. destruct Hc as (? & ? & ?).
      eapply idsWf_mono; [by split | reflexivity |].
      by apply (seqOf_exec_mono db "categories" (OpCreateTransaction transaction items now)).
    + rewrite Hps. destruct Hp as (? & ? & ?).
      eapply idsWf_mono; [by split | reflexivity |].
      by apply (seqOf_exec_mono db "products" (OpCreateTransaction transaction items now)).
    + rewrite Hcus. destruct Hcu as (? & ? & ?).
      eapply idsWf_mono; [by split | reflexivity |].
      by apply (seqOf_exec_mono db "customers" (OpCreateTransaction transaction items now)).
    + rewrite Htx, Hres, fmap_app. simpl. by apply idsWf_snoc.
    + rewrite Hits, fmap_app, stampedItems_ids. apply idsWf_seqZ; [done | lia | done].
  - unfold exec, postEmployees.
    destruct (requireAdmin _); destruct session_user; try done.
    case_decide; [done|].
    destruct (insertUserSchema_parse _ _) as [e|userData]; [done|].
    pose proof (storeWf_createUser db userData salt now Hwf) as Hcr.
    by destruct (createUser db userData salt now).
Qed.

(** X23.  In every store that the operations build from the empty store, the
    ids of each collection are pairwise distinct, and none exceeds the
    counter of its namespace. *)
Theorem ids_unique_in_built_stores (ops : list Op) :
  let db := run emptyDb ops in
  storeWf db
  ∧ NoDup (MongoUser.id <$> users db)
  ∧ NoDup (MongoCategory.id <$> categories db)
  ∧ NoDup (MongoProduct.id <$> products db)
  ∧ NoDup (MongoCustomer.id <$> customers db)
  ∧ NoDup (MongoTransaction.id <$> transactions db)
  ∧ NoDup (MongoTransactionItem.id <$> transactionItems db).
Proof.
  assert (∀ db, storeWf db → storeWf (run db ops)) as Hrun.
  { induction ops as [|op ops IH]; intros db H; simpl; [done|].
    apply IH. by apply storeWf_exec. }
  assert (storeWf emptyDb) as H0.
  { split6; (split; [constructor | split; [done | constructor]]). }
  specialize (Hrun emptyDb H0). cbv zeta. split; [exact Hrun|].
  destruct Hrun as ((? & _) & (? & _) & (? & _) & (? & _) & (? & _) & (? & _)).
  by repeat split.
Qed.
End Storage.

(** ** The connection module *)

Lemma connectToMongoDB_connected env driver m h :
  db m = Some h → connectToMongoDB env driver m = (m, inr h).
Proof. intros H. unfold connectToMongoDB. by rewrite H. Qed.

Lemma connExec_db m op :
  is_Some (db (connExec m op)) ↔ is_Some (db m) ∨ connects op.
Proof.
  destruct op as [env driver|]; simpl.
  - unfold connectToMongoDB. destruct (db m) as [h|] eqn:Hdb; simpl.
    + rewrite Hdb. split; [by left | by eexists].
    + destruct env as [[|a uri]|]; simpl.
      * rewrite Hdb. split; [by intros [? ?] | by intros [[? ?]|[? _]]].
      * destruct (driver (String a uri)) as [e|e|] eqn:Hdriver; simpl.
        -- rewrite Hdb. split; [by intros [? ?] | intros [[? ?]|[_ ?]]; done].
        -- split; [by intros [? ?] | intros [[? ?]|[_ ?]]; done].
        -- split; [by right | by eexists].
      * rewrite Hdb. split; [by intros [? ?] | by intros [[? ?]|?]].
  - unfold closeConnection. destruct (client m); simpl; split; try tauto;
      intros [?|[]]; done.
Qed.

Lemma connRun_db ops m :
  is_Some (db (connRun m ops)) ↔ is_Some (db m) ∨ Exists connects ops.
Proof.
  revert m. induction ops as [|op ops IH]; intros m; simpl.
  - rewrite Exists_nil. tauto.
  - rewrite IH, connExec_db, Exists_cons. tauto.
Qed.

(** X1.  [getDb] succeeds exactly when one of the calls made since the module
    was loaded was a [connectToMongoDB] with a non-empty URI that the
    server accepted; without one it throws. *)
Theorem getDb_after_connect (ops : list ConnOp) :
  ((∃ h, getDb (connRun noConnection ops) = inr h) ↔ Exists connects ops)
  ∧ (¬ Exists connects ops →
     getDb (connRun noConnection ops)
     = inl (Error "Database not initialized. Call connectToMongoDB first.")).
Proof.
  pose proof (connRun_db ops noConnection) as H. simpl in H.
  assert (is_Some (db (connRun noConnection ops)) ↔ Exists connects ops) as H'.
  { rewrite H. split; [intros [[? ?]|?]; done | by right]. }
  unfold getDb. destruct (db (connRun noConnection ops)) as [h|].
  - split; [|intros Hno; destruct Hno; apply H'; by eexists].
    split; [intros _; apply H'; by eexists | by eexists].
  - split; [|done].
    split; [by intros [h ?] | intros Hc; apply H' in Hc as [? ?]; done].
Qed.

Lemma handleOfClient_exec m op : handleOfClient m → handleOfClient (connExec m op).
Proof.
  intros Hm. destruct op as [env driver|]; simpl.
  - unfold connectToMongoDB. destruct (db m) as [h|] eqn:Hdb; [done|].
    destruct env as [[|a uri]|]; [done| |done].
    destruct (driver (String a uri)); simpl.
    + done.
    + by intros h.
    + intros h [= <-]. by eexists.
  - unfold closeConnection. destruct (client m) as [c|] eqn:Hc; [|done].
    intros h Hh. simpl in Hh. destruct (Hm h Hh) as (c' & Hc' & Huri & Hconn).
    rewrite Hc in Hc'. injection Hc' as <-. by eexists.
Qed.

Lemma handleOfClient_run ops m : handleOfClient m → handleOfClient (connRun m ops).
Proof.
  revert m. induction ops as [|op ops IH]; intros m H; simpl; [done|].
  apply IH. by apply handleOfClient_exec.
Qed.

(** Once a handle is stored and the client closed, both stay so. *)
Lemma closed_exec m op h :
  db m = Some h → (∃ c, client m = Some c ∧ client_closed c = true
                        ∧ client_uri c = handle_uri h) →
  db (connExec m op) = Some h
  ∧ ∃ c, client (connExec m op) = Some c ∧ client_closed c = true
         ∧ client_uri c = handle_uri h.
Proof.
  intros Hdb (c & Hc & Hclosed & Huri). destruct op as [env driver|]; simpl.
  - rewrite (connectToMongoDB_connected env driver m h Hdb). simpl. eauto.
  - unfold closeConnection. rewrite Hc. simpl. eauto.
Qed.

Lemma closed_run ops m h :
  db m = Some h → (∃ c, client m = Some c ∧ client_closed c = true
                        ∧ client_uri c = handle_uri h) →
  db (connRun m ops) = Some h
  ∧ ∃ c, client (connRun m ops) = Some c ∧ client_closed c = true
         ∧ client_uri c = handle_uri h.
Proof.
  revert m. induction ops as [|op ops IH]; intros m Hdb Hc; simpl; [done|].
  destruct (closed_exec m op h Hdb Hc). by apply IH.
Qed.

(** X2.  [closeConnection] does not reset [db]: after it, whatever is called
    next, [getDb] goes on returning the handle of the closed client, and
    [connectToMongoDB] returns it too, without opening a new client. *)
Theorem handle_survives_close (ops1 ops2 : list ConnOp) (h : DbHandle) :
  getDb (connRun noConnection ops1) = inr h →
  let m := connRun (closeConnection (connRun noConnection ops1)) ops2 in
  getDb m = inr h
  ∧ (∃ c, client m = Some c ∧ client_closed c = true
          ∧ client_uri c = handle_uri h)
  ∧ (∀ env driver, connectToMongoDB env driver m = (m, inr h)).
Proof.
  intros Hget m.
  assert (db (connRun noConnection ops1) = Some h) as Hdb.
  { unfold getDb in Hget. by destruct (db (connRun noConnection ops1)) as [h'|];
      simplify_eq. }
  assert (handleOfClient (connRun noConnection ops1)) as Hinv
    by (by apply handleOfClient_run).
  destruct (Hinv h Hdb) as (c & Hc & Huri & _).
  destruct (closed_run ops2 (closeConnection (connRun noConnection ops1)) h)
    as [Hm Hclosed].
  { unfold closeConnection. by rewrite Hc. }
  { unfold closeConnection. rewrite Hc. simpl. eauto. }
  fold m in Hm, Hclosed.
  split; [by unfold getDb; rewrite Hm|]. split; [done|].
  intros env driver. by apply connectToMongoDB_connected.
Qed.

(** ** Escaping in the invoice download *)

Lemma append_cons a (s t : string) : (String a s ++ t)%string = String a (s ++ t)%string.
Proof. reflexivity. Qed.

Lemma append_nil (t : string) : (EmptyString ++ t)%string = t.
Proof. reflexivity. Qed.

Lemma append_assoc (s1 s2 s3 : string) :
  ((s1 ++ s2) ++ s3 = s1 ++ (s2 ++ s3))%string.
Proof.
  induction s1 as [|a s1 IH]; [done|]. rewrite !append_cons. by rewrite IH.
Qed.

Lemma replaceAll_app c b s1 s2 :
  replaceAll c b (s1 ++ s2)%string
  = (replaceAll c b s1 ++ replaceAll c b s2)%string.
Proof.
  induction s1 as [|a s1 IH]; [done|].
  rewrite append_cons. cbn [replaceAll]. by rewrite IH, append_assoc.
Qed.

Lemma chars_app s1 s2 : chars (s1 ++ s2)%string = chars s1 ++ chars s2.
Proof.
  induction s1 as [|a s1 IH]; [done|].
  rewrite append_cons. cbn [chars]. by rewrite IH.
Qed.

Lemma escaped_app s1 s2 :
  escaped (s1 ++ s2)%string = (escaped s1 ++ escaped s2)%string.
Proof.
  induction s1 as [|a s1 IH]; [done|].
  rewrite append_cons. cbn [escaped]. by rewrite IH, append_assoc.
Qed.

Lemma append_nil_r (s : string) : (s ++ EmptyString)%string = s.
Proof. induction s as [|a s IH]; [done|]. rewrite append_cons. by rewrite IH. Qed.

Lemma passes_cons a s : passes (String a s) = (entity a ++ passes s)%string.
Proof.
  unfold passes, entity. cbn [replaceAll]. rewrite !replaceAll_app.
  destruct (decide (a = "&"%char)) as [->|Hamp]; [by f_equal|].
  cbn [replaceAll]. rewrite append_nil_r.
  destruct (decide (a = "<"%char)) as [->|Hlt]; [by f_equal|].
  cbn [replaceAll]. rewrite append_nil_r.
  destruct (decide (a = ">"%char)) as [->|Hgt]; [by f_equal|].
  cbn [replaceAll]. rewrite append_nil_r.
  destruct (decide (a = dquote)) as [->|Hdq]; [by f_equal|].
  cbn [replaceAll]. rewrite append_nil_r.
  destruct (decide (a = "'"%char)) as [->|Hsq]; by f_equal.
Qed.

Lemma passes_escaped s : passes s = escaped s.
Proof.
  induction s as [|a s IH]; [done|]. rewrite passes_cons. cbn [escaped].
  by rewrite IH.
Qed.

Lemma escapeHtml_escaped s : escapeHtml (Some s) = escaped s.
Proof. destruct s as [|a s]; [done|]. apply (passes_escaped (String a s)). Qed.

(** X3.  [escapeHtml] replaces each character on its own: the entities that a
    pass writes are not touched by the passes after it, so the result is
    the concatenation of the entities of the characters, and escaping a
    concatenation is concatenating the escaped parts. *)
Theorem escapeHtml_charwise :
  escapeHtml None = ""
  ∧ (∀ s, escapeHtml (Some s) = escaped s)
  ∧ (∀ s1 s2, escapeHtml (Some (s1 ++ s2)%string)
              = (escapeHtml (Some s1) ++ escapeHtml (Some s2))%string).
Proof.
  split; [done|]. split; [exact escapeHtml_escaped|].
  intros s1 s2. by rewrite !escapeHtml_escaped, escaped_app.
Qed.

Lemma entity_no_markup a c : c ∈ markup → c ∉ chars (entity a).
Proof.
  intros Hc Hin. unfold entity in Hin.
  repeat case_decide; simpl in Hin; unfold markup in Hc;
    repeat (apply elem_of_cons in Hin as [->|Hin]);
    try (by apply elem_of_nil in Hin);
    repeat (apply elem_of_cons in Hc as [Hc|Hc]; try done);
    try (by apply elem_of_nil in Hc); congruence.
Qed.

(** X4.  The result of [escapeHtml] contains no [<], [>], double or single
    quote, and a text without these and without [&] is returned as it
    is. *)
Theorem escapeHtml_no_markup (text : option string) :
  (∀ c, c ∈ markup → c ∉ chars (escapeHtml text))
  ∧ (∀ s, text = Some s →
          (∀ c, c ∈ chars s → c ≠ "&"%char ∧ c ∉ markup) →
          escapeHtml text = s).
Proof.
  split.
  - intros c Hc. destruct text as [s|]; [|by intros ?%elem_of_nil].
    rewrite escapeHtml_escaped.
    induction s as [|a s IH]; cbn [escaped]; [by intros ?%elem_of_nil|].
    rewrite chars_app. intros [Hin|Hin]%elem_of_app; [|done].
    by apply (entity_no_markup a c).
  - intros s -> Hplain. rewrite escapeHtml_escaped.
    induction s as [|a s IH]; cbn [escaped]; [done|].
    rewrite IH by (intros c Hc; apply Hplain; simpl; by right).
    destruct (Hplain a) as [Hamp Hm]; [simpl; by left|].
    unfold entity, markup in *.
    destruct (decide (a = "&"%char)); [done|].
    destruct (decide (a = "<"%char)) as [->|_]; [destruct Hm; left|].
    destruct (decide (a = ">"%char)) as [->|_]; [destruct Hm; right; left|].
    destruct (decide (a = dquote)) as [->|_]; [destruct Hm; right; right; left|].
    destruct (decide (a = "'"%char)) as [->|_];
      [destruct Hm; right; right; right; left|].
    done.
Qed.

(** ** The statements on the sample data *)

Local Abbreviation sampleRun :=
  (run Sample.hash Sample.compare false Sample.isEmail).
Local Abbreviation sampleLogin :=
  (getUserByUsernameAndPassword Sample.hash Sample.compare).
Local Abbreviation sampleTop :=
  (getTopProducts Z Sample.toDouble Sample.doubleToString 0 Z.add).
Local Abbreviation sampleTopRun :=
  (TopProductsRun Z Sample.toDouble Sample.doubleToString 0 Z.add).

(** *** C1: a report that crosses tenants *)

(** C1 fails on [getTopProducts] (and on the customer joined by
    [getTransactions]): the [$lookup] of the product, and that of the
    customer, have no [businessId] condition.  After business 2 has
    created a product and a customer, and a user of business 1 has recorded
    a sale naming them, the top products of business 1 are the product of
    business 2, and the transactions of business 1 carry the customer of
    business 2. *)
Theorem getTopProducts_crosses_tenants :
  let db := sampleRun emptyDb Sample.crossTenantOps in
  (∃ r, sampleTop db 1 5 = Some [r]
        ∧ MongoProduct.businessId (tp_product r) = 2)
  ∧ (∃ row c, getTransactions db 1 None = [row]
              ∧ MongoTransaction.businessId (row_transaction row) = 1
              ∧ row_customer row = Some c
              ∧ MongoCustomer.businessId c = 2).
Proof.
  split.
  - eexists. split; [vm_compute; reflexivity | reflexivity].
  - eexists _, _. split; [vm_compute; reflexivity|]. by repeat split.
Qed.

(** *** C2 *)

Example issued_hireFireHire :
  issuedSince "users" emptyDb (sampleRun emptyDb Sample.hireFireHire) = [1; 2]
  ∧ MongoUser.id <$> users (sampleRun emptyDb Sample.hireFireHire) = [2].
Proof. split; vm_compute; reflexivity. Qed.

(** C2 on the empty store: a user is created, deleted, and another one
    created; the next two calls for [users], with the deletion of the
    second user between them, return 3 and 4. *)
Lemma getNextId_fresh_and_increasing_witness :
  counters emptyDb !! "users" = None
  ∧ (getNextId false emptyDb "users").2 = 1
  ∧ (let first := getNextId false (sampleRun emptyDb Sample.hireFireHire) "users" in
     let later := getNextId false (sampleRun first.1 [OpDeleteEmployee 2 1]) "users" in
     1 ≤ first.2 ∧ first.2 < later.2).
Proof.
  assert (counters emptyDb !! "users" = None) as Hnone by reflexivity.
  split; [exact Hnone|].
  destruct (getNextId_fresh_and_increasing Sample.hash Sample.compare false
              Sample.isEmail emptyDb "users" Sample.hireFireHire Hnone)
    as (Hone & _ & _ & _ & _ & _ & Hlater & _).
  split; [exact Hone|]. exact (Hlater [OpDeleteEmployee 2 1]).
Defined.

Example getNextId_after_hireFireHire :
  (getNextId false (sampleRun emptyDb Sample.hireFireHire) "users").2 = 3
  ∧ (getNextId false
       (sampleRun (getNextId false (sampleRun emptyDb Sample.hireFireHire) "users").1
          [OpDeleteEmployee 2 1]) "users").2 = 4.
Proof. split; vm_compute; reflexivity. Qed.

(** *** C3 *)

(** C3 as stated fails: [bob] is active and has the plaintext password
    ["secret"] stored, but the lookup for his username finds [alice], the
    admin of another business with the same username, so that his login
    is refused. *)
Lemma legacy_login_shadowed : ¬ LegacyLoginSucceeds Sample.hash Sample.compare.
Proof.
  intros H.
  destruct (H Sample.staff Sample.bob "admin" "secret" "s9") as [u Hu].
  - right. left.
  - reflexivity.
  - reflexivity.
  - left. reflexivity.
  - vm_compute in Hu. discriminate.
Qed.

Example login_of_bob :
  sampleLogin Sample.staff "admin" "secret" "s9" = (Sample.staff, None).
Proof. vm_compute. reflexivity. Qed.

(** C3, amended, on [carol], whose username no other user has. *)
Lemma legacy_password_migrated_once_witness :
  findOne (loginQuery (trim " carol ")) (users Sample.staff) = Some Sample.carol
  ∧ MongoUser.password Sample.carol = Some "carolpw"
  ∧ Sample.compare "carolpw" "carolpw" ≠ Some true
  ∧ Sample.compare "carolpw" (Sample.hash "carolpw" 12 "s9") = Some true
  ∧ NoDup (MongoUser.id <$> users Sample.staff)
  ∧ (sampleLogin Sample.staff " carol " "carolpw" "s9").2
    = Some (MongoUser.set_password (Some (Sample.hash "carolpw" 12 "s9")) Sample.carol)
  ∧ sampleLogin (sampleLogin Sample.staff " carol " "carolpw" "s9").1
                " carol " "carolpw" "s10"
    = ((sampleLogin Sample.staff " carol " "carolpw" "s9").1,
       Some (MongoUser.set_password (Some (Sample.hash "carolpw" 12 "s9")) Sample.carol)).
Proof.
  assert (findOne (loginQuery (trim " carol ")) (users Sample.staff) = Some Sample.carol)
    as H1 by (vm_compute; reflexivity).
  assert (MongoUser.password Sample.carol = Some "carolpw") as H2 by reflexivity.
  assert (Sample.compare "carolpw" "carolpw" ≠ Some true) as H3
    by (vm_compute; discriminate).
  assert (Sample.compare "carolpw" (Sample.hash "carolpw" 12 "s9") = Some true) as H4
    by (vm_compute; reflexivity).
  assert (NoDup (MongoUser.id <$> users Sample.staff)) as H5
    by (apply (bool_decide_unpack _); vm_compute; exact I).
  destruct (legacy_password_migrated_once Sample.hash Sample.compare Sample.staff
              " carol " "carolpw" "s9" "s10" Sample.carol H1 H2 H3 H4 H5)
    as (_ & Hfirst & _ & _ & Hsecond).
  split; [exact H1|]. split; [exact H2|]. split; [exact H3|]. split; [exact H4|].
  split; [exact H5|]. split; [exact Hfirst | exact Hsecond].
Defined.

(** *** C4 *)

(** C4 on an admin session without permission flags, and on no session. *)
Lemma requirePermission_gate_witness :
  requirePermission Permission.reports (Some Sample.adminSession) = Next
  ∧ requirePermission Permission.reports None
    = Respond (mkResponse 401 (Message "Unauthorized")).
Proof.
  split.
  - apply (requirePermission_gate Permission.reports (Some Sample.adminSession))
      with Sample.adminSession; reflexivity.
  - apply (requirePermission_gate Permission.reports None). reflexivity.
Defined.

Example requirePermission_denied :
  requirePermission Permission.reports
    (Some (mkSessionUser 3 1 "carol" "First" "Last" "employee"
             (Some (Permissions.mk true false false false false false))))
  = Respond (mkResponse 403 (Message "Access denied")).
Proof. reflexivity. Qed.

(** *** C5 *)

(** C5 on a business with ten employees. *)
Lemma postEmployees_capacity_witness :
  10 ≤ getEmployeeCount Sample.fullStaff 1
  ∧ postEmployees Sample.hash false Sample.isEmail Sample.fullStaff
      (Some Sample.adminSession) Sample.employeeBody "s3" 30
    = (Sample.fullStaff, mkResponse 400 (Message "Maximum of 10 employees allowed")).
Proof.
  assert (10 ≤ getEmployeeCount Sample.fullStaff 1) as Hfull
    by (vm_compute; discriminate).
  split; [exact Hfull|].
  apply (postEmployees_capacity Sample.hash false Sample.isEmail Sample.fullStaff
           (Some Sample.adminSession) Sample.employeeBody "s3" 30)
    with Sample.adminSession; [reflexivity | reflexivity | exact Hfull].
Defined.

Example postEmployees_below_cap :
  status (postEmployees Sample.hash false Sample.isEmail Sample.staff
            (Some Sample.adminSession) Sample.employeeBody "s3" 30).2 = 200
  ∧ getEmployeeCount Sample.staff 1 = 1.
Proof. split; vm_compute; reflexivity. Qed.

(** *** C6 *)

(** C6 at the boundary: stock 5 with threshold 5 is listed, stock 6 with
    threshold 5 is not. *)
Lemma getLowStockProducts_exact_witness :
  Sample.atThreshold ∈ getLowStockProducts Sample.shelf 1
  ∧ Sample.aboveThreshold ∉ getLowStockProducts Sample.shelf 1.
Proof.
  destruct (getLowStockProducts_exact Sample.shelf 1) as (_ & _ & Hin & Hout).
  split.
  - apply Hin; [left | reflexivity..].
  - apply Hout; reflexivity.
Defined.

(** *** C7 *)



(** *** C8 *)

(** C8 on a payload without permissions. *)
Lemma createUser_hashes_witness :
  Sample.hash "davepw1" 12 "s3" ≠ "davepw1"
  ∧ ∃ stored,
      users (createUser Sample.hash false Sample.staff Sample.newEmployee "s3" 30).1
      = users Sample.staff ++ [stored]
      ∧ MongoUser.password stored = Some (Sample.hash "davepw1" 12 "s3")
      ∧ MongoUser.permissions stored = Permissions.mk true false false false false false
      ∧ MongoUser.password
          (createUser Sample.hash false Sample.staff Sample.newEmployee "s3" 30).2
        = None.
Proof.
  assert (Sample.hash "davepw1" 12 "s3" ≠ "davepw1") as Hfresh
    by (vm_compute; discriminate).
  split; [exact Hfresh|].
  destruct (createUser_hashes Sample.hash false Sample.staff Sample.newEmployee
              "s3" 30 Hfresh) as (stored & Husers & Hpw & _ & Hperm & _ & Hret).
  exists stored. split; [exact Husers|]. split; [exact Hpw|].
  split; [exact Hperm | exact Hret].
Defined.

(** *** C9 *)

(** C9 on the admin [alice]. *)
Lemma deleteEmployee_spares_admins_witness :
  NoDup (MongoUser.id <$> users Sample.staff)
  ∧ Sample.alice ∈ users Sample.staff
  ∧ MongoUser.role Sample.alice = "admin"
  ∧ deleteEmployee Sample.staff (MongoUser.id Sample.alice) 1 = (Sample.staff, false).
Proof.
  assert (NoDup (MongoUser.id <$> users Sample.staff)) as Hnodup
    by (apply (bool_decide_unpack _); vm_compute; exact I).
  assert (Sample.alice ∈ users Sample.staff) as Hin by left.
  split; [exact Hnodup|]. split; [exact Hin|]. split; [reflexivity|].
  apply (deleteEmployee_spares_admins Sample.hash Sample.compare false Sample.isEmail
           Sample.staff); [exact Hnodup | exact Hin | reflexivity].
Defined.

Example deleteEmployee_removes_employee :
  (deleteEmployee Sample.staff 3 1).2 = true
  ∧ users (deleteEmployee Sample.staff 3 1).1 = [Sample.alice; Sample.bob].
Proof. split; vm_compute; reflexivity. Qed.

(** *** C10 *)

(** C10 on the login of [carol], whose password is stored as plaintext:
    the user returned carries the hash, and is the document that the
    store holds for her after the call. *)
Lemma authenticate_returns_password_witness :
  sampleLogin Sample.staff "carol" "carolpw" "s9"
  = ((sampleLogin Sample.staff "carol" "carolpw" "s9").1,
     Some (MongoUser.set_password (Some (Sample.hash "carolpw" 12 "s9")) Sample.carol))
  ∧ NoDup (MongoUser.id <$> users Sample.staff)
  ∧ MongoUser.set_password (Some (Sample.hash "carolpw" 12 "s9")) Sample.carol
    ∈ users (sampleLogin Sample.staff "carol" "carolpw" "s9").1.
Proof.
  assert (sampleLogin Sample.staff "carol" "carolpw" "s9"
          = ((sampleLogin Sample.staff "carol" "carolpw" "s9").1,
             Some (MongoUser.set_password (Some (Sample.hash "carolpw" 12 "s9"))
                     Sample.carol))) as Hlogin
    by (vm_compute; reflexivity).
  assert (NoDup (MongoUser.id <$> users Sample.staff)) as Hnodup
    by (apply (bool_decide_unpack _); vm_compute; exact I).
  split; [exact Hlogin|]. split; [exact Hnodup|].
  destruct (authenticate_returns_password Sample.hash Sample.compare _ _ _ _ _ _ Hlogin)
    as (found & h & _ & _ & _ & [(_ & _ & _ & Hin & _)|(_ & _ & _ & _ & _ & _ & Hstored)]).
  - exact Hin.
  - exact (proj1 (Hstored Hnodup)).
Defined.

(** ** The further statements on the sample data *)

(** *** The connection module *)

(** Without a URI no call connects, and [getDb] throws. *)
Lemma getDb_after_connect_witness :
  ¬ Exists connects [Connect None Sample.accepting; Close]
  ∧ getDb (connRun noConnection [Connect None Sample.accepting; Close])
    = inl (Error "Database not initialized. Call connectToMongoDB first.").
Proof.
  assert (¬ Exists connects [Connect None Sample.accepting; Close]) as Hno.
  { intros H. apply Exists_cons in H as [H|H]; [exact H|].
    apply Exists_cons in H as [H|H]; [exact H|]. by apply Exists_nil in H. }
  split; [exact Hno|].
  exact (proj2 (getDb_after_connect [Connect None Sample.accepting; Close]) Hno).
Defined.

(** A connection that is closed and asked to connect to another server
    keeps the handle of the first. *)
Lemma handle_survives_close_witness :
  getDb (connRun noConnection [Connect (Some "mongodb://a") Sample.accepting])
  = inr (mkDbHandle "mongodb://a" "znpos")
  ∧ getDb (connRun
             (closeConnection
                (connRun noConnection [Connect (Some "mongodb://a") Sample.accepting]))
             [Connect (Some "mongodb://b") Sample.accepting])
    = inr (mkDbHandle "mongodb://a" "znpos").
Proof.
  assert (getDb (connRun noConnection [Connect (Some "mongodb://a") Sample.accepting])
          = inr (mkDbHandle "mongodb://a" "znpos")) as Hget by reflexivity.
  split; [exact Hget|].
  exact (proj1 (handle_survives_close
                  [Connect (Some "mongodb://a") Sample.accepting]
                  [Connect (Some "mongodb://b") Sample.accepting]
                  (mkDbHandle "mongodb://a" "znpos") Hget)).
Defined.

(** *** Escaping *)

(** A text without markup is returned as it is. *)
Lemma escapeHtml_no_markup_witness :
  (∀ c, c ∈ chars "Tea 2" → c ≠ "&"%char ∧ c ∉ markup)
  ∧ escapeHtml (Some "Tea 2") = "Tea 2".
Proof.
  assert (∀ c, c ∈ chars "Tea 2" → c ≠ "&"%char ∧ c ∉ markup) as Hplain.
  { intros c Hc. simpl in Hc.
    repeat (apply elem_of_cons in Hc as [->|Hc];
            [split; [discriminate|];
             apply (bool_decide_unpack _); vm_compute; exact I|]).
    by apply elem_of_nil in Hc. }
  split; [exact Hplain|].
  exact (proj2 (escapeHtml_no_markup (Some "Tea 2")) "Tea 2" eq_refl Hplain).
Defined.

Example escapeHtml_script :
  escapeHtml (Some "<b>Tom & 'Co'</b>")
  = "&lt;b&gt;Tom &amp; &#39;Co&#39;&lt;/b&gt;".
Proof. reflexivity. Qed.

(** *** Employees *)

(** The employee [carol] is listed for business 1. *)
Lemma getEmployees_listing_witness :
  Sample.carol ∈ users Sample.staff
  ∧ withoutPassword Sample.carol ∈ getEmployees Sample.staff 1.
Proof.
  assert (Sample.carol ∈ users Sample.staff) as Hin by (right; right; left).
  split; [exact Hin|].
  apply (proj1 (proj2 (getEmployees_listing Sample.staff 1)) Sample.carol Hin);
    [reflexivity | discriminate].
Defined.

(** Toggling the status of [carol] twice restores the store. *)
Lemma toggleEmployeeStatus_twice_witness :
  findOne (userKeyQuery 3 1) (users Sample.staff) = Some Sample.carol
  ∧ toggleEmployeeStatus (toggleEmployeeStatus Sample.staff 3 1).1 3 1
    = (Sample.staff, inr (withoutPassword Sample.carol)).
Proof.
  assert (findOne (userKeyQuery 3 1) (users Sample.staff) = Some Sample.carol)
    as Hfind by reflexivity.
  split; [exact Hfind|].
  exact (proj2 (proj2 (toggleEmployeeStatus_twice Sample.staff 3 1) Sample.carol Hfind)).
Defined.

(** The id of [carol] with business 2 names no user. *)
Lemma updateUserPermissions_one_witness :
  findOne (userKeyQuery 3 2) (users Sample.staff) = None
  ∧ updateUserPermissions Sample.staff 3 2 noPermissions
    = (Sample.staff, inl (Error "User not found")).
Proof.
  assert (findOne (userKeyQuery 3 2) (users Sample.staff) = None)
    as Hnone by reflexivity.
  split; [exact Hnone|].
  exact (proj1 (updateUserPermissions_one Sample.staff 3 2 noPermissions) Hnone).
Defined.

(** Putting the inventory on for [carol]: the session of her next login
    passes the gate of the inventory. *)
Lemma permission_switch_reaches_gate_witness :
  NoDup (MongoUser.id <$> users Sample.staff)
  ∧ withoutPassword Sample.carol ∈ getEmployees Sample.staff 1
  ∧ requirePermission Permission.inventory (Some (sessionOf Sample.carol))
    = Respond (mkResponse 403 (Message "Access denied"))
  ∧ ∃ after,
      findOne (userKeyQuery 3 1)
        (users (updateUserPermissions Sample.staff 3 1
                  (withFlag (MongoUser.permissions Sample.carol)
                            Permission.inventory true)).1)
      = Some after
      ∧ requirePermission Permission.inventory (Some (sessionOf after)) = Next.
Proof.
  assert (NoDup (MongoUser.id <$> users Sample.staff)) as Hnodup
    by (apply (bool_decide_unpack _); vm_compute; exact I).
  assert (withoutPassword Sample.carol ∈ getEmployees Sample.staff 1) as Hin
    by (left).
  split; [exact Hnodup|]. split; [exact Hin|]. split; [reflexivity|].
  destruct (permission_switch_reaches_gate Sample.staff 1
              (withoutPassword Sample.carol) Permission.inventory true Hnodup Hin)
    as (before & after & _ & _ & _ & _ & Hfind & Hgate & _).
  exists after. split; [exact Hfind|]. exact (proj2 Hgate eq_refl).
Defined.

(** *** Logins *)

(** A login with a wrong password is refused and changes nothing. *)
Lemma authenticate_effects_witness :
  (getUserByUsernameAndPassword Sample.hash Sample.compare Sample.staff
     "carol" "nope" "s").2 = None
  ∧ (getUserByUsernameAndPassword Sample.hash Sample.compare Sample.staff
       "carol" "nope" "s").1 = Sample.staff.
Proof.
  assert ((getUserByUsernameAndPassword Sample.hash Sample.compare Sample.staff
             "carol" "nope" "s").2 = None) as Hnone by (vm_compute; reflexivity).
  split; [exact Hnone|].
  exact (proj1 (proj2 (authenticate_effects Sample.hash Sample.compare Sample.staff
                         "carol" "nope" "s")) Hnone).
Defined.

(** A user created and then logging in. *)
Lemma createUser_then_authenticate_witness :
  InsertUser.isActive Sample.newEmployee = true
  ∧ trim (InsertUser.username Sample.newEmployee)
    = InsertUser.username Sample.newEmployee
  ∧ Forall (λ u, ¬ loginQuery (InsertUser.username Sample.newEmployee) u)
           (users Sample.staff)
  ∧ Sample.compare (InsertUser.password Sample.newEmployee)
      (Sample.hash (InsertUser.password Sample.newEmployee) 12 "s3") = Some true
  ∧ ∃ stored,
      getUserByUsernameAndPassword Sample.hash Sample.compare
        (createUser Sample.hash false Sample.staff Sample.newEmployee "s3" 30).1
        (InsertUser.username Sample.newEmployee)
        (InsertUser.password Sample.newEmployee) "s4"
      = ((createUser Sample.hash false Sample.staff Sample.newEmployee "s3" 30).1,
         Some stored).
Proof.
  assert (InsertUser.isActive Sample.newEmployee = true) as Hactive by reflexivity.
  assert (trim (InsertUser.username Sample.newEmployee)
          = InsertUser.username Sample.newEmployee) as Htrim
    by (vm_compute; reflexivity).
  assert (Forall (λ u, ¬ loginQuery (InsertUser.username Sample.newEmployee) u)
                 (users Sample.staff)) as Hfree
    by (apply (bool_decide_unpack _); vm_compute; exact I).
  assert (Sample.compare (InsertUser.password Sample.newEmployee)
            (Sample.hash (InsertUser.password Sample.newEmployee) 12 "s3")
          = Some true) as Hhash by (vm_compute; reflexivity).
  split; [exact Hactive|]. split; [exact Htrim|]. split; [exact Hfree|].
  split; [exact Hhash|].
  destruct (createUser_then_authenticate Sample.hash Sample.compare false
              Sample.staff Sample.newEmployee "s3" "s4" 30
              Hactive Htrim Hfree Hhash) as (stored & _ & _ & Hlogin).
  exists stored. exact Hlogin.
Defined.

(** *** The gates *)

(** An admin without permission flags passes every gate. *)
Lemma gates_compose_witness :
  requireAdmin (Some Sample.adminSession) = Next
  ∧ ∀ c, requirePermission c (Some Sample.adminSession) = Next.
Proof.
  assert (requireAdmin (Some Sample.adminSession) = Next) as Hadmin by reflexivity.
  split; [exact Hadmin|].
  exact (proj1 (proj2 (gates_compose (Some Sample.adminSession))) Hadmin).
Defined.

(** *** The routes *)

(** An employee created through the route has no permission at all. *)
Lemma postEmployees_effects_witness :
  status (postEmployees Sample.hash false Sample.isEmail Sample.staff
            (Some Sample.adminSession) Sample.employeeBody "s3" 30).2 = 200
  ∧ ∃ stored,
      users (postEmployees Sample.hash false Sample.isEmail Sample.staff
               (Some Sample.adminSession) Sample.employeeBody "s3" 30).1
      = users Sample.staff ++ [stored]
      ∧ MongoUser.role stored = "employee"
      ∧ MongoUser.permissions stored = noPermissions.
Proof.
  assert (status (postEmployees Sample.hash false Sample.isEmail Sample.staff
                    (Some Sample.adminSession) Sample.employeeBody "s3" 30).2 = 200)
    as Hok by (vm_compute; reflexivity).
  split; [exact Hok|].
  destruct (proj2 (proj2 (postEmployees_effects Sample.hash false Sample.isEmail
                            Sample.staff (Some Sample.adminSession)
                            Sample.employeeBody "s3" 30)) Hok)
    as (user & stored & _ & Husers & _ & Hrole & _ & Hperm & _).
  exists stored. split; [exact Husers|]. split; [exact Hrole | exact Hperm].
Defined.

(** The page accepts the form of [erin] and the route creates her. *)
Lemma employees_page_agrees_with_route_witness :
  su_role Sample.adminSession = "admin"
  ∧ canAddEmployee (getEmployees Sample.staff (su_businessId Sample.adminSession))
    = true
  ∧ addEmployeeSchema_accepts Sample.isEmail Sample.erinForm = true
  ∧ status (postEmployees Sample.hash false Sample.isEmail Sample.staff
              (Some Sample.adminSession) (bodyOfForm Sample.erinForm) "s3" 30).2
    = 200.
Proof.
  assert (su_role Sample.adminSession = "admin") as Hadmin by reflexivity.
  assert (canAddEmployee
            (getEmployees Sample.staff (su_businessId Sample.adminSession)) = true)
    as Hcan by (vm_compute; reflexivity).
  assert (addEmployeeSchema_accepts Sample.isEmail Sample.erinForm = true)
    as Hform by (vm_compute; reflexivity).
  split; [exact Hadmin|]. split; [exact Hcan|]. split; [exact Hform|].
  exact (proj1 (employees_page_agrees_with_route Sample.hash false Sample.isEmail
                  Sample.staff Sample.adminSession Sample.erinForm "s3" 30 Hadmin)
           Hcan Hform).
Defined.

(** A business at the limit of ten deletes one employee and counts nine. *)
Lemma deleteEmployeeRoute_effects_witness :
  status (deleteEmployeeRoute Sample.fullStaff (Some Sample.adminSession) (Some 2)).2
  = 200
  ∧ getEmployeeCount
      (deleteEmployeeRoute Sample.fullStaff (Some Sample.adminSession) (Some 2)).1
      (su_businessId Sample.adminSession)
    = getEmployeeCount Sample.fullStaff (su_businessId Sample.adminSession) - 1.
Proof.
  assert (status (deleteEmployeeRoute Sample.fullStaff (Some Sample.adminSession)
                    (Some 2)).2 = 200) as Hok by (vm_compute; reflexivity).
  split; [exact Hok|].
  destruct (proj2 (proj2 (deleteEmployeeRoute_effects Sample.hash false
                            Sample.isEmail Sample.fullStaff
                            (Some Sample.adminSession) (Some 2))) Hok)
    as (user & id & l1 & victim & l2 & Hs & _ & _ & _ & _ & _ & _ & _ & Hcount & _).
  injection Hs as <-. exact Hcount.
Defined.

(** A product sent by an employee of business 1 with a body that names
    business 2 is stored for business 1 and is low on stock at once. *)
Lemma postProducts_effects_witness :
  ∃ p,
    (postProducts false Sample.shelf (Some Sample.carolSession) Sample.teaBody 10).2
    = Deliver p
    ∧ MongoProduct.businessId p = su_businessId Sample.carolSession
    ∧ p ∈ getLowStockProducts
            (postProducts false Sample.shelf (Some Sample.carolSession)
               Sample.teaBody 10).1
            (su_businessId Sample.carolSession).
Proof.
  eexists. split; [vm_compute; reflexivity|].
  destruct (proj2 (postProducts_effects false Sample.shelf
                     (Some Sample.carolSession) Sample.teaBody 10) _ eq_refl)
    as (user & Hs & _ & _ & Hb & _ & _ & Hlow).
  injection Hs as <-. split; [exact Hb|].
  exact (proj2 (proj2 (Hlow eq_refl eq_refl eq_refl))).
Defined.

(** A sale sent without items is answered 400 and its header is stored. *)
Lemma postTransactions_effects_witness :
  ∃ header,
    (postTransactions false Sample.yesterday (Some Sample.carolSession)
       Sample.saleBody None 60 61).2
    = Refuse (mkResponse 400 (ErrorMessage (Error "items is not iterable")))
    ∧ transactions
        (postTransactions false Sample.yesterday (Some Sample.carolSession)
           Sample.saleBody None 60 61).1
      = transactions Sample.yesterday ++ [header]
    ∧ MongoTransaction.businessId header = su_businessId Sample.carolSession
    ∧ transactionItems
        (postTransactions false Sample.yesterday (Some Sample.carolSession)
           Sample.saleBody None 60 61).1
      = transactionItems Sample.yesterday.
Proof.
  eapply (proj1 (proj2 (proj2 (postTransactions_effects false Sample.yesterday
                                 (Some Sample.carolSession) Sample.saleBody None
                                 60 61)))
            Sample.carolSession);
    [reflexivity | reflexivity | vm_compute; reflexivity | reflexivity].
Defined.

(** A sale sent without session and without items is refused and nothing
    is stored. *)
Example postTransactions_unauthorized :
  postTransactions false Sample.yesterday None Sample.saleBody None 60 61
  = (Sample.yesterday, Refuse (mkResponse 401 (Message "Unauthorized"))).
Proof. reflexivity. Qed.

(** *** Creating and reading back *)

(** A sale with two lines, of which the second names a header of its own. *)
Lemma createTransaction_items_witness :
  0 ≤ seqOf Sample.yesterday "transactions"
  ∧ 0 ≤ seqOf Sample.yesterday "transactionItems"
  ∧ transactionItems
      (createTransaction false Sample.yesterday (Sample.sale 1 None)
         [Sample.line 1 1 "10"; MongoTransactionItem.mk 0 7 2 2 "10" "20"] 60).1
    = [MongoTransactionItem.mk 1 2 1 1 "10" "10";
       MongoTransactionItem.mk 2 2 2 2 "10" "20"].
Proof.
  assert (0 ≤ seqOf Sample.yesterday "transactions") as Ht
    by (vm_compute; discriminate).
  assert (0 ≤ seqOf Sample.yesterday "transactionItems") as Hi
    by (vm_compute; discriminate).
  split; [exact Ht|]. split; [exact Hi|].
  destruct (createTransaction_items false Sample.yesterday (Sample.sale 1 None)
              [Sample.line 1 1 "10"; MongoTransactionItem.mk 0 7 2 2 "10" "20"] 60
              Ht Hi) as (_ & _ & Hitems & _).
  rewrite Hitems. vm_compute. reflexivity.
Defined.

(** A product created on the shelf is read back for its business only. *)
Lemma createProduct_then_getProduct_witness :
  idsWf "products" (MongoProduct.id <$> products Sample.shelf) Sample.shelf
  ∧ getProduct (createProduct false Sample.shelf (Sample.product 1 "pot" 4 5) 10).1
      (MongoProduct.id
         (createProduct false Sample.shelf (Sample.product 1 "pot" 4 5) 10).2)
      (MongoProduct.businessId (Sample.product 1 "pot" 4 5))
    = Some (createProduct false Sample.shelf (Sample.product 1 "pot" 4 5) 10).2.
Proof.
  assert (idsWf "products" (MongoProduct.id <$> products Sample.shelf) Sample.shelf)
    as Hwf.
  { split; [apply (bool_decide_unpack _); vm_compute; exact I|].
    split; [vm_compute; discriminate|].
    apply (bool_decide_unpack _); vm_compute; exact I. }
  split; [exact Hwf|].
  exact (proj1 (proj2 (createProduct_then_getProduct false Sample.shelf
                         (Sample.product 1 "pot" 4 5) 10 Hwf))).
Defined.

(** *** Listing transactions *)

(** With limit 1 the later of two sales is the one returned. *)
Lemma getTransactions_listing_witness :
  length (row_transaction <$> getTransactions Sample.twoSales 1 (Some 1%nat)) = 1%nat
  ∧ MongoTransaction.createdAt
      <$> (row_transaction <$> getTransactions Sample.twoSales 1 (Some 1%nat))
    = [70].
Proof.
  split; [|vm_compute; reflexivity].
  exact (proj1 (proj2 (proj2 (getTransactions_listing Sample.twoSales 1 (Some 1%nat)))
                  0%nat eq_refl)).
Defined.

(** *** The dashboard *)

(** A business whose only sale is of the day before. *)
Lemma getDashboardStats_quiet_day_witness :
  Forall (λ t, ¬ todayQuery 1 100 t) (transactions Sample.yesterday)
  ∧ getDashboardStats Z Sample.toDouble 0 Z.add Sample.toFixed2 Z.div (λ n, n)
      Sample.falsy Sample.yesterday 1 100
    = Some (mkDashboardStats (Sample.toFixed2 0) 0 "0.00"
              (Z.of_nat (length (getLowStockProducts Sample.yesterday 1)))
              "0.00" "0.00" "0.00").
Proof.
  assert (Forall (λ t, ¬ todayQuery 1 100 t) (transactions Sample.yesterday))
    as Hquiet by (apply (bool_decide_unpack _); vm_compute; exact I).
  split; [exact Hquiet|].
  exact (getDashboardStats_quiet_day Z Sample.toDouble 0 Z.add Sample.toFixed2
           Z.div (λ n, n) Sample.falsy Sample.yesterday 1 100 Hquiet).
Defined.

(** A sale of business 2 does not show in the statistics of business 1. *)
Lemma getDashboardStats_other_sales_witness :
  (MongoTransaction.businessId (Sample.sale 2 None) ≠ 1
   ∨ MongoTransaction.status (Sample.sale 2 None) ≠ "completed"
   ∨ 60 < 0)
  ∧ getDashboardStats Z Sample.toDouble 0 Z.add Sample.toFixed2 Z.div (λ n, n)
      Sample.falsy
      (createTransaction false Sample.yesterday (Sample.sale 2 None) [] 60).1 1 0
    = getDashboardStats Z Sample.toDouble 0 Z.add Sample.toFixed2 Z.div (λ n, n)
        Sample.falsy Sample.yesterday 1 0.
Proof.
  assert (MongoTransaction.businessId (Sample.sale 2 None) ≠ 1
          ∨ MongoTransaction.status (Sample.sale 2 None) ≠ "completed"
          ∨ 60 < 0) as Hother by (left; discriminate).
  split; [exact Hother|].
  exact (getDashboardStats_other_sales false Z Sample.toDouble 0 Z.add
           Sample.toFixed2 Z.div (λ n, n) Sample.falsy Sample.yesterday 1 0
           (Sample.sale 2 None) [] 60 Hother).
Defined.

Example getDashboardStats_busy_day :
  getDashboardStats Z Sample.toDouble 0 Z.add Sample.toFixed2 Z.div (λ n, n)
    Sample.falsy Sample.twoSales 1 60
  = Some (mkDashboardStats "30.00" 1 "30.00" 0 "0.00" "0.00" "0.00").
Proof. vm_compute. reflexivity. Qed.
